(** * Foundry OS: manifest discovery, aggregation and the two write paths

    A shallow embedding of [foundry_v11.py] (class [FoundryOS]) and of the
    aggregation half of [dashboard.py] (class [DashboardManager] and the
    sidebar's two manifest writers), followed by the properties of the
    specification that these functions decide.

    Further parts embed the start-up and the commands [new] and [projects]
    of [foundry_v11.py], the portfolio of [dashboard.py], the scoring of
    [seo_audit_microservice.py], the names [create_agent.py] derives, the
    first controller [foundry.py], and the figures of [demo_status.py],
    each with the properties the code shows.

    Python values are the documents [json.load] produces.  Python
    exceptions are values of [exn]; a function that can raise returns a
    [result].  Text is modelled by [string], one [ascii] per character:
    the model is exact for text in the ASCII range (case mapping and the
    digit class [\d] are the ASCII ones).  A directory is a list of
    entries keyed by their names: a name with a path separator, or one the
    file system refuses, is outside the model. *)

From Stdlib Require Import ZArith List String Ascii Bool Floats Lia.
From Stdlib Require Import Permutation Sorted DecimalString.
Import ListNotations.

Set Implicit Arguments.
Set Warnings "-register-all".

(** ** Exceptions and results *)

Inductive exn : Type :=
| JSONDecodeError
| ValidationError
| OSError
| TypeError
| AttributeError
| ValueError
| OverflowError
| ClickException (msg : string)
| OtherException.

Inductive result (A : Type) : Type :=
| Ok (a : A)
| Raise (e : exn).

Arguments Ok {A} a.
Arguments Raise {A} e.

Definition bind {A B : Type} (m : result A) (k : A -> result B) : result B :=
  match m with
  | Ok a => k a
  | Raise e => Raise e
  end.

Notation "x <- m ;; k" := (bind m (fun x => k))
  (at level 61, m at next level, right associativity).

(** A [for] loop whose body can raise: the first exception ends the loop. *)
Fixpoint for_each {A S : Type} (body : S -> A -> result S) (l : list A) (s : S)
  : result S :=
  match l with
  | [] => Ok s
  | x :: l' => s' <- body s x ;; for_each body l' s'
  end.

(** ** Documents *)

Inductive json : Type :=
| JNull
| JBool (b : bool)
| JInt (z : Z)
| JFloat (f : float)
| JStr (s : string)
| JArr (items : list json)
| JObj (members : list (string * json)).

(** ** Text *)

Open Scope string_scope.

Definition is_upper (c : ascii) : bool :=
  let n := nat_of_ascii c in (65 <=? n)%nat && (n <=? 90)%nat.

Definition is_digit (c : ascii) : bool :=
  let n := nat_of_ascii c in (48 <=? n)%nat && (n <=? 57)%nat.

Definition lower_char (c : ascii) : ascii :=
  if is_upper c then ascii_of_nat (nat_of_ascii c + 32) else c.

(** [s.lower()] *)
Fixpoint lower (s : string) : string :=
  match s with
  | EmptyString => EmptyString
  | String c s' => String (lower_char c) (lower s')
  end.

(** [s.replace(old, new)] for a one-character [old]. *)
Fixpoint replace (old : ascii) (new : string) (s : string) : string :=
  match s with
  | EmptyString => EmptyString
  | String c s' =>
      if Ascii.eqb c old then new ++ replace old new s'
      else String c (replace old new s')
  end.

(** [s.startswith(p)] *)
Definition startswith (p s : string) : bool := String.prefix p s.

(** [s.endswith(p)] *)
Fixpoint endswith (p s : string) : bool :=
  String.eqb p s ||
  match s with
  | EmptyString => false
  | String _ s' => endswith p s'
  end.

(** [p in s] for two strings *)
Fixpoint contains_substring (p s : string) : bool :=
  String.prefix p s ||
  match s with
  | EmptyString => false
  | String _ s' => contains_substring p s'
  end.

Fixpoint filter_chars (keep : ascii -> bool) (s : string) : string :=
  match s with
  | EmptyString => EmptyString
  | String c s' =>
      if keep c then String c (filter_chars keep s') else filter_chars keep s'
  end.

(** The character class [[\d.-]]. *)
Definition revenue_char (c : ascii) : bool :=
  is_digit c || Ascii.eqb c "." || Ascii.eqb c "-".

(** [re.sub(r'[^\d.-]', '', s)] *)
Definition strip_non_revenue (s : string) : string := filter_chars revenue_char s.

(** The characters of a string, each as a one-character string
    (iteration over a [str]). *)
Fixpoint chars (s : string) : list string :=
  match s with
  | EmptyString => []
  | String c s' => String c EmptyString :: chars s'
  end.

(** ** Numbers

    A Python [float] is a binary64 value, here a primitive [float]; a
    Python [int] is a [Z].  [float(...)] rounds to nearest, ties to even. *)

Open Scope Z_scope.

(** The binary64 value nearest to [num / den], for [0 < num] and [0 < den]:
    the quotient is taken with more than 64 significant bits and one
    sticky bit for a non-zero remainder, then rounded once. *)
Definition float_of_ratio (num den : Z) : float :=
  let s := 65 + Z.log2 den - Z.log2 num in
  let n := Z.shiftl num (Z.max s 0) in
  let d := Z.shiftl den (Z.max (- s) 0) in
  let sticky := if n mod d =? 0 then 0 else 1 in
  SF2Prim (binary_normalize prec emax (Z.lor (2 * (n / d)) sticky) (- s - 1) false).

(** The binary64 value nearest to [m * 10 ^ e], for [0 <= m]. *)
Definition float_of_decimal (m e : Z) : float :=
  if m =? 0 then 0%float
  else float_of_ratio (m * 10 ^ Z.max e 0) (10 ^ Z.max (- e) 0).

(** [float(z)] for an [int]: [OverflowError] when the rounded value is
    beyond the largest finite float. *)
Definition float_of_int (z : Z) : result float :=
  match binary_normalize prec emax z 0 false with
  | S754_infinity _ => Raise OverflowError
  | sf => Ok (SF2Prim sf)
  end.

Definition digit_value (c : ascii) : Z := Z.of_nat (nat_of_ascii c) - 48.

(** Reads the longest run of digits at the head of [s], continuing the
    number [acc]: the number read, how many digits, and the rest. *)
Fixpoint take_digits (s : string) (acc : Z) (n : Z) : Z * Z * string :=
  match s with
  | String c s' =>
      if is_digit c then take_digits s' (10 * acc + digit_value c) (n + 1)
      else (acc, n, s)
  | EmptyString => (acc, n, s)
  end.

Definition take_sign (s : string) : bool * string :=
  match s with
  | String "-" s' => (true, s')
  | String "+" s' => (false, s')
  | _ => (false, s)
  end.

(** An unsigned decimal literal [digits [. digits] [e [sign] digits]] that
    spans the whole of [s], as a mantissa and a power of ten. *)
Definition parse_decimal (s : string) : option (Z * Z) :=
  let '(m1, n1, r1) := take_digits s 0 0 in
  let '(m2, n2, r2) :=
    match r1 with
    | String "." r => take_digits r m1 0
    | _ => (m1, 0, r1)
    end in
  if n1 + n2 =? 0 then None
  else
    match r2 with
    | EmptyString => Some (m2, - n2)
    | String c r =>
        if Ascii.eqb c "e" || Ascii.eqb c "E" then
          let '(neg, r') := take_sign r in
          let '(ev, ne, r3) := take_digits r' 0 0 in
          if ne =? 0 then None
          else match r3 with
               | EmptyString => Some (m2, (if neg then - ev else ev) - n2)
               | _ => None
               end
        else None
    end.

(** The unsigned part of a float literal: a decimal, or [inf], [infinity],
    [nan] in any case. *)
Definition parse_unsigned_float (s : string) : option float :=
  let l := lower s in
  if String.eqb l "inf" || String.eqb l "infinity" then Some infinity
  else if String.eqb l "nan" then Some nan
  else match parse_decimal s with
       | Some (m, e) => Some (float_of_decimal m e)
       | None => None
       end.

(** The whitespace [float] strips from both ends of its argument. *)
Definition is_space (c : ascii) : bool :=
  let n := nat_of_ascii c in ((9 <=? n)%nat && (n <=? 13)%nat) || (n =? 32)%nat.

Fixpoint lstrip (s : string) : string :=
  match s with
  | String c s' => if is_space c then lstrip s' else s
  | EmptyString => s
  end.

Fixpoint rstrip (s : string) : string :=
  match s with
  | String c s' =>
      match rstrip s' with
      | EmptyString => if is_space c then EmptyString else String c EmptyString
      | r => String c r
      end
  | EmptyString => s
  end.

(** Digit grouping: an underscore is allowed only between two digits.
    [prev] is the character before the head of [s]. *)
Fixpoint drop_underscores (prev : ascii) (s : string) : option string :=
  match s with
  | EmptyString => if Ascii.eqb prev "_" then None else Some EmptyString
  | String c s' =>
      if Ascii.eqb c "_" then
        if is_digit prev then drop_underscores c s' else None
      else if Ascii.eqb prev "_" && negb (is_digit c) then None
      else match drop_underscores c s' with
           | Some r => Some (String c r)
           | None => None
           end
  end.

(** [float(s)] for a [str]; [None] is [ValueError]. *)
Definition float_of_string (s : string) : option float :=
  match drop_underscores "000" (rstrip (lstrip s)) with
  | None => None
  | Some t =>
      let '(neg, u) := take_sign t in
      match parse_unsigned_float u with
      | Some f => Some (if neg then (- f)%float else f)
      | None => None
      end
  end.

(** Exact comparison of an [int] with a [float]; [None] when the float
    is a NaN. *)
Definition compare_int_float (z : Z) (f : float) : option comparison :=
  match Prim2SF f with
  | S754_nan => None
  | S754_infinity s => Some (if s then Gt else Lt)
  | S754_zero _ => Some (z ?= 0)
  | S754_finite s m e =>
      let mz := if s then Z.neg m else Z.pos m in
      Some (if 0 <=? e then z ?= mz * 2 ^ e else z * 2 ^ (- e) ?= mz)
  end.

Definition is_Lt (c : option comparison) : bool :=
  match c with Some Lt => true | _ => false end.
Definition is_Gt (c : option comparison) : bool :=
  match c with Some Gt => true | _ => false end.
Definition is_Eq (c : option comparison) : bool :=
  match c with Some Eq => true | _ => false end.

(** The numeric view of a document: [bool] is a subclass of [int]. *)
Inductive number : Type :=
| NInt (z : Z)
| NFloat (f : float).

Definition as_number (v : json) : option number :=
  match v with
  | JBool b => Some (NInt (Z.b2z b))
  | JInt z => Some (NInt z)
  | JFloat f => Some (NFloat f)
  | _ => None
  end.

Definition number_ltb (a b : number) : bool :=
  match a, b with
  | NInt x, NInt y => x <? y
  | NInt x, NFloat g => is_Lt (compare_int_float x g)
  | NFloat f, NInt y => is_Gt (compare_int_float y f)
  | NFloat f, NFloat g => PrimFloat.ltb f g
  end.

(** Equality as containers and dictionaries test it: identical objects are
    equal, and every NaN of a loaded document is the one object the
    decoder keeps for it. *)
Definition number_eqb (a b : number) : bool :=
  match a, b with
  | NInt x, NInt y => x =? y
  | NInt x, NFloat g => is_Eq (compare_int_float x g)
  | NFloat f, NInt y => is_Eq (compare_int_float y f)
  | NFloat f, NFloat g => PrimFloat.eqb f g || (is_nan f && is_nan g)
  end.

(** [a + b] on numbers: an [int] operand of a [float] is converted first. *)
Definition number_add (a b : number) : result number :=
  match a, b with
  | NInt x, NInt y => Ok (NInt (x + y))
  | NInt x, NFloat g => f <- float_of_int x ;; Ok (NFloat (f + g)%float)
  | NFloat f, NInt y => g <- float_of_int y ;; Ok (NFloat (f + g)%float)
  | NFloat f, NFloat g => Ok (NFloat (f + g)%float)
  end.

(** ** Truth, equality and order of documents *)

(** [bool(v)] *)
Definition truthy (v : json) : bool :=
  match v with
  | JNull => false
  | JBool b => b
  | JInt z => negb (z =? 0)
  | JFloat f => negb (PrimFloat.eqb f 0)
  | JStr s => negb (String.eqb s "")
  | JArr l => match l with [] => false | _ => true end
  | JObj m => match m with [] => false | _ => true end
  end.

Fixpoint assoc {V : Type} (k : string) (m : list (string * V)) : option V :=
  match m with
  | [] => None
  | (k', v) :: m' => if String.eqb k k' then Some v else assoc k m'
  end.

(** [a == b] *)
Fixpoint py_eq (a b : json) {struct a} : bool :=
  match a, b with
  | JNull, JNull => true
  | JStr s, JStr t => String.eqb s t
  | JArr l, JArr l' =>
      (fix all2 (l l' : list json) {struct l} : bool :=
         match l, l' with
         | [], [] => true
         | x :: r, y :: r' => py_eq x y && all2 r r'
         | _, _ => false
         end) l l'
  | JObj m, JObj m' =>
      (List.length m =? List.length m')%nat &&
      (fix all_in (m : list (string * json)) {struct m} : bool :=
         match m with
         | [] => true
         | (k, v) :: r =>
             match assoc k m' with
             | Some v' => py_eq v v' && all_in r
             | None => false
             end
         end) m
  | _, _ =>
      match as_number a, as_number b with
      | Some x, Some y => number_eqb x y
      | _, _ => false
      end
  end.

(** [a < b]; [None] is [TypeError].  Numbers compare with numbers, strings
    with strings by code point, lists with lists at their first unequal
    items (or by length); nothing else is ordered. *)
Fixpoint py_lt (a b : json) {struct a} : option bool :=
  match a, b with
  | JStr s, JStr t => Some (String.ltb s t)
  | JArr l, JArr l' =>
      (fix lex (l l' : list json) {struct l} : option bool :=
         match l, l' with
         | [], [] => Some false
         | [], _ :: _ => Some true
         | _ :: _, [] => Some false
         | x :: r, y :: r' => if py_eq x y then lex r r' else py_lt x y
         end) l l'
  | _, _ =>
      match as_number a, as_number b with
      | Some x, Some y => Some (number_ltb x y)
      | _, _ => None
      end
  end.

(** Lists and dictionaries cannot be dictionary keys. *)
Definition hashable (v : json) : bool :=
  match v with
  | JArr _ | JObj _ => false
  | _ => true
  end.

(** [x in [a, b, ...]] *)
Definition in_list (x : json) (l : list json) : bool :=
  existsb (fun y => py_eq y x) l.

(** [x in c] for a string [x]: an item of a list, a key of a dictionary, a
    substring of a string; [TypeError] for what is not a container. *)
Definition str_in (x : string) (c : json) : result bool :=
  match c with
  | JArr l => Ok (in_list (JStr x) l)
  | JObj m => Ok (match assoc x m with Some _ => true | None => false end)
  | JStr s => Ok (contains_substring x s)
  | _ => Raise TypeError
  end.

(** [for x in c]: the items of a list, the keys of a dictionary, the
    characters of a string. *)
Definition iterate (c : json) : result (list json) :=
  match c with
  | JArr l => Ok l
  | JObj m => Ok (map (fun kv => JStr (fst kv)) m)
  | JStr s => Ok (map JStr (chars s))
  | _ => Raise TypeError
  end.

(** ** Dictionaries *)

(** [d.get(k, default)]; only a dictionary has [get]. *)
Definition get_of (d : json) (k : string) (default : json) : result json :=
  match d with
  | JObj m => Ok (match assoc k m with Some v => v | None => default end)
  | _ => Raise AttributeError
  end.

Fixpoint assoc_set (k : string) (v : json) (m : list (string * json))
  : list (string * json) :=
  match m with
  | [] => [(k, v)]
  | (k', v') :: m' =>
      if String.eqb k k' then (k', v) :: m' else (k', v') :: assoc_set k v m'
  end.

(** [d[k] = v] for a string [k]: only a dictionary accepts it. *)
Definition setitem (d : json) (k : string) (v : json) : result json :=
  match d with
  | JObj m => Ok (JObj (assoc_set k v m))
  | _ => Raise TypeError
  end.

(** [s.lower()] on a document: only a string has [lower]. *)
Definition lower_of (v : json) : result string :=
  match v with
  | JStr s => Ok (lower s)
  | _ => Raise AttributeError
  end.

(** A dictionary of counts keyed by documents, in insertion order. *)
Definition counter : Type := list (json * Z).

Fixpoint count_of (k : json) (c : counter) : option Z :=
  match c with
  | [] => None
  | (k', n) :: c' => if py_eq k' k then Some n else count_of k c'
  end.

Fixpoint count_set (k : json) (n : Z) (c : counter) : counter :=
  match c with
  | [] => [(k, n)]
  | (k', n') :: c' =>
      if py_eq k' k then (k', n) :: c' else (k', n') :: count_set k n c'
  end.

(** [c[k] = c.get(k, 0) + 1]; [TypeError] for an unhashable key. *)
Definition increment (c : counter) (k : json) : result counter :=
  if hashable k then
    Ok (count_set k (match count_of k c with Some n => n | None => 0 end + 1) c)
  else Raise TypeError.

(** ** Sorting

    [sorted(l, key=f)] computes the key of every item first, then runs a
    stable comparison sort that only asks [<] of two keys.  The sort is
    modelled as a stable insertion sort: an item goes behind the items
    whose key is smaller than its own and before all others.  Every stable
    sort returns the same list when all the comparisons are defined; a
    [TypeError] of a comparison ends the sort. *)

Section Sorting.
Variable A : Type.

Fixpoint insert_keyed (x : json * A) (l : list (json * A))
  : result (list (json * A)) :=
  match l with
  | [] => Ok [x]
  | y :: l' =>
      match py_lt (fst y) (fst x) with
      | None => Raise TypeError
      | Some true => r <- insert_keyed x l' ;; Ok (y :: r)
      | Some false => Ok (x :: l)
      end
  end.

Fixpoint sort_keyed (l : list (json * A)) : result (list (json * A)) :=
  match l with
  | [] => Ok []
  | x :: l' => r <- sort_keyed l' ;; insert_keyed x r
  end.

Fixpoint with_keys (key : A -> result json) (l : list A)
  : result (list (json * A)) :=
  match l with
  | [] => Ok []
  | x :: l' => k <- key x ;; r <- with_keys key l' ;; Ok ((k, x) :: r)
  end.

Definition sorted (key : A -> result json) (l : list A) : result (list A) :=
  keyed <- with_keys key l ;;
  r <- sort_keyed keyed ;;
  Ok (map snd r).
End Sorting.

(** ** Library functions taken as given

    What the program calls and this development does not look into: the
    text of a list or dictionary ([str(v)]), JSON-Schema validation
    ([jsonschema.validate(instance, schema)], [None] when the instance
    passes, the exception otherwise), and
    [datetime.strptime(s, '%Y-%m-%d')] ([None] is [ValueError]). *)

Class Library : Type := {
  repr : json -> string;
  validate : json -> json -> option exn;
  strptime : string -> option (Z * Z * Z)
}.

(** [str(v)] *)
Definition str_of `{Library} (v : json) : string :=
  match v with
  | JStr s => s
  | _ => repr v
  end.

(** ** The hub on disk *)

(** What reading a file gives: [open] or the text decoding fails, the text
    is not JSON, or a document. *)
Inductive content : Type :=
| Unreadable
| Malformed
| Document (d : json).

Record file : Type := {
  name : string;
  data : content;
  modified : string   (* the last-modified time, as [isoformat()] prints it *)
}.

(** One line of the day's log file. *)
Inductive log_entry : Type :=
| InvalidJSON (path : string)       (* ERROR: Invalid JSON in <path>: ... *)
| InvalidSchema (path : string)     (* ERROR: Invalid manifest schema in <path>: ... *)
| FailedToLoad (path : string)      (* ERROR: Failed to load <path>: ... *)
| CreatedProject (project_name : string)
| AssignedTask (task agent project_name : string).

Record hub : Type := {
  projects : option (list file);
    (* the projects directory as [glob] lists it; [None] when it is missing *)
  shared_context : list (string * json);
    (* the shared-context directory: file name and document *)
  log : list log_entry;
  echoed : list string
    (* what [click.echo] printed *)
}.

Definition with_log (h : hub) (entries : list log_entry) : hub :=
  {| projects := projects h; shared_context := shared_context h;
     log := log h ++ entries; echoed := echoed h |}.

Definition with_echo (h : hub) (line : string) : hub :=
  {| projects := projects h; shared_context := shared_context h;
     log := log h; echoed := echoed h ++ [line] |}.

Definition with_projects (h : hub) (files : list file) : hub :=
  {| projects := Some files; shared_context := shared_context h;
     log := log h; echoed := echoed h |}.

Definition with_shared (h : hub) (fname : string) (d : json) : hub :=
  {| projects := projects h;
     shared_context := assoc_set fname d (shared_context h);
     log := log h; echoed := echoed h |}.

Fixpoint lookup_file (n : string) (files : list file) : option file :=
  match files with
  | [] => None
  | f :: files' => if String.eqb n (name f) then Some f else lookup_file n files'
  end.

(** [open(path, 'w')] followed by [json.dump]: the file is replaced when it
    exists and added to the directory otherwise. *)
Fixpoint write_file (f : file) (files : list file) : list file :=
  match files with
  | [] => [f]
  | g :: files' =>
      if String.eqb (name f) (name g) then f :: files'
      else g :: write_file f files'
  end.

(** [dir.glob("*.json")] *)
Definition glob_json (files : list file) : list file :=
  filter (fun f => endswith ".json" (name f)) files.

(** An operation on the hub: its outcome and the hub it leaves. *)
Definition action (A : Type) : Type := hub -> result A * hub.

Definition ret {A : Type} (a : A) : action A := fun h => (Ok a, h).
Definition raise {A : Type} (e : exn) : action A := fun h => (Raise e, h).
Definition lift {A : Type} (r : result A) : action A := fun h => (r, h).

Definition and_then {A B : Type} (m : action A) (k : A -> action B) : action B :=
  fun h =>
    match m h with
    | (Ok a, h') => k a h'
    | (Raise e, h') => (Raise e, h')
    end.

Notation "x <~ m ;; k" := (and_then m (fun x => k))
  (at level 61, m at next level, right associativity).

Definition write_log (entries : list log_entry) : action unit :=
  fun h => (Ok tt, with_log h entries).

Definition echo (line : string) : action unit :=
  fun h => (Ok tt, with_echo h line).

(** ** [foundry_v11.py]: class [FoundryOS]

    The command line creates the hub's directories before every command
    ([ensure_directories]); [discover_projects] accepts a missing projects
    directory all the same. *)

Record FoundryOS : Type := {
  hub_dir : string;
  projects_dir : string;
  config : json;
  schema : json
}.

(** [get_default_config()], the configuration when no file is found. *)
Definition get_default_config (hub_directory : string) : json :=
  JObj [("version", JStr "1.1.0");
        ("hub_directory", JStr hub_directory);
        ("manifest_system", JBool true);
        ("agents", JObj []);
        ("templates",
         JObj [("SaaS_Launch_Playbook",
                JObj [("name", JStr "SaaS Launch Team");
                      ("agents", JArr [JStr "architect_specialist";
                                       JStr "app_factory_specialist";
                                       JStr "devops_specialist";
                                       JStr "data_intelligence_agent"]);
                      ("default_stack", JStr "react-node")]);
               ("restaurant_bot",
                JObj [("name", JStr "Restaurant Bot Team");
                      ("agents", JArr [JStr "api_integration_master";
                                       JStr "app_factory_specialist";
                                       JStr "qa_specialist"]);
                      ("default_stack", JStr "python-fastapi")]);
               ("marketplace",
                JObj [("name", JStr "Marketplace Team");
                      ("agents", JArr [JStr "architect_specialist";
                                       JStr "api_integration_master";
                                       JStr "app_factory_specialist";
                                       JStr "devops_specialist"]);
                      ("default_stack", JStr "nextjs-postgres")])]);
        ("learning",
         JObj [("metrics_threshold", JFloat 0.25);
               ("auto_save_patterns", JBool false)])].

Section Foundry.
Context `{Library}.
Variable self : FoundryOS.

Definition path_of (f : file) : string := projects_dir self ++ "/" ++ name f.

(** [if self.schema: jsonschema.validate(project_data, self.schema)] *)
Definition check_schema (project_data : json) : result unit :=
  if truthy (schema self) then
    match validate project_data (schema self) with
    | None => Ok tt
    | Some e => Raise e
    end
  else Ok tt.

(** [open] and [json.load] *)
Definition load (c : content) : result json :=
  match c with
  | Unreadable => Raise OSError
  | Malformed => Raise JSONDecodeError
  | Document d => Ok d
  end.

(** The body of the [try] in [discover_projects], for one file. *)
Definition load_manifest (manifest_file : file) : result json :=
  project_data <- load (data manifest_file) ;;
  _ <- check_schema project_data ;;
  project_data <- setitem project_data "_manifest_file"
                    (JStr (path_of manifest_file)) ;;
  setitem project_data "_last_modified" (JStr (modified manifest_file)).

(** The three [except] clauses. *)
Definition diagnostic (manifest_file : file) (e : exn) : log_entry :=
  match e with
  | JSONDecodeError => InvalidJSON (path_of manifest_file)
  | ValidationError => InvalidSchema (path_of manifest_file)
  | _ => FailedToLoad (path_of manifest_file)
  end.

(** The [for] loop of [discover_projects]: the manifests appended to
    [projects] and the lines logged, both in file order. *)
Fixpoint scan (files : list file) : list json * list log_entry :=
  match files with
  | [] => ([], [])
  | manifest_file :: rest =>
      let '(found, entries) := scan rest in
      match load_manifest manifest_file with
      | Ok project_data => (project_data :: found, entries)
      | Raise e => (found, diagnostic manifest_file e :: entries)
      end
  end.

(** [lambda x: x.get('projectName', '')] *)
Definition name_key (x : json) : result json := get_of x "projectName" (JStr "").

Definition discover_projects : action (list json) :=
  fun h =>
    match projects h with
    | None => (Ok [], h)
    | Some files =>
        let '(found, entries) := scan (glob_json files) in
        (sorted name_key found, with_log h entries)
    end.

(** The loop of [find_project]. *)
Fixpoint first_named (project_name : string) (found : list json)
  : result (option json) :=
  match found with
  | [] => Ok None
  | project :: rest =>
      n <- get_of project "projectName" (JStr "") ;;
      l <- lower_of n ;;
      if String.eqb l (lower project_name) then Ok (Some project)
      else first_named project_name rest
  end.

Definition find_project (project_name : string) : action (option json) :=
  found <~ discover_projects ;;
  lift (first_named project_name found).

(** [open(target_file, 'w')] in the projects directory. *)
Definition write_project (f : file) : action unit :=
  fun h =>
    match projects h with
    | None => (Raise OSError, h)
    | Some files => (Ok tt, with_projects h (write_file f files))
    end.

Definition project_exists (fname : string) : action bool :=
  fun h =>
    (Ok match projects h with
        | None => false
        | Some files =>
            match lookup_file fname files with Some _ => true | None => false end
        end, h).

(** [create_project_from_manifest(manifest_path)]; [manifest_file] is what
    is at that path ([None]: nothing), [now] the time of the write. *)
Definition create_project_from_manifest
  (manifest_path : string) (manifest_file : option content) (now : string)
  : action json :=
  match manifest_file with
  | None => raise (ClickException ("Manifest file not found: " ++ manifest_path))
  | Some c =>
      project_data <~ lift (load c) ;;
      _ <~ lift (check_schema project_data) ;;
      project_name <~ lift (get_of project_data "projectName" (JStr "unknown")) ;;
      lowered <~ lift (lower_of project_name) ;;
      let project_id := replace " " "_" lowered in
      let target_file := project_id ++ ".json" in
      present <~ project_exists target_file ;;
      if present then
        raise (ClickException
                 ("Project '" ++ str_of project_name ++ "' already exists"))
      else
        _ <~ write_project {| name := target_file;
                              data := Document project_data;
                              modified := now |} ;;
        _ <~ write_log [CreatedProject (str_of project_name)] ;;
        ret project_data
  end.

(** The record [assign_task] writes. *)
Definition assignment_record (task_id task project_name agent created_at : string)
  : json :=
  JObj [("id", JStr task_id);
        ("task", JStr task);
        ("project", JStr project_name);
        ("agent", JStr agent);
        ("status", JStr "assigned");
        ("created_at", JStr created_at);
        ("completed_at", JNull);
        ("result", JNull)].

(** [assign_task(task, project_name, agent)]; [stamp] is
    [datetime.now().strftime('%Y%m%d_%H%M%S')] and [created_at] is
    [datetime.now().isoformat()].  The warning is echoed after a warning
    sign, which is left out here. *)
Definition assign_task (task project_name agent stamp created_at : string)
  : action json :=
  project <~ find_project project_name ;;
  match project with
  | None => raise (ClickException ("Project '" ++ project_name ++ "' not found"))
  | Some project =>
      if negb (truthy project) then
        raise (ClickException ("Project '" ++ project_name ++ "' not found"))
      else
        agents <~ lift (get_of (config self) "agents" (JObj [])) ;;
        registered <~ lift (str_in agent agents) ;;
        _ <~ (if registered then ret tt
              else
                team <~ lift (get_of project "team" (JArr [])) ;;
                listed <~ lift (str_in agent team) ;;
                if listed then ret tt
                else echo ("Warning: Agent '" ++ agent
                           ++ "' not registered or in project team")) ;;
        let task_id := "task_" ++ stamp in
        let assignment :=
          assignment_record task_id task project_name agent created_at in
        let shared_file :=
          replace " " "_" (lower project_name) ++ "_" ++ task_id ++ ".json" in
        _ <~ (fun h => (Ok tt, with_shared h shared_file assignment)) ;;
        _ <~ write_log [AssignedTask task agent project_name] ;;
        ret assignment
  end.
End Foundry.

(** [len(l)] *)
Definition len {A : Type} (l : list A) : Z := Z.of_nat (List.length l).

(** [project.get('status') not in ['archived', 'completed']] *)
Definition is_active (project : json) : result bool :=
  status <- get_of project "status" JNull ;;
  Ok (negb (in_list status [JStr "archived"; JStr "completed"])).

(** [len([p for p in projects if p.get('status') not in [...]])] *)
Definition count_active (found : list json) : result Z :=
  for_each (fun n p => a <- is_active p ;; Ok (if a then n + 1 else n)) found 0.

(** The status loop, the same in both aggregations. *)
Definition status_loop (found : list json) : result counter :=
  for_each (fun status_counts project =>
              status <- get_of project "status" (JStr "unknown") ;;
              increment status_counts status)
           found [].

(** [for agent in project.get('team', []): agent_workload[agent] = ... + 1] *)
Definition team_loop (agent_workload : counter) (project : json) : result counter :=
  team <- get_of project "team" (JArr []) ;;
  agents <- iterate team ;;
  for_each increment agents agent_workload.

Module Status.
(** What [FoundryOS.get_empire_status] returns. *)
Record t : Type := {
  total_projects : Z;
  active_projects : Z;
  total_revenue : number;
  revenue_projects : Z;
  status_distribution : counter;
  agent_workload : counter;
  projects : list json
}.
End Status.

Section FoundryStatus.
Context `{Library}.
Variable self : FoundryOS.

(** The revenue loop of [get_empire_status]: the running total and the
    count of projects that contributed. *)
Definition status_revenue_step (acc : number * Z) (project : json)
  : result (number * Z) :=
  let '(total_revenue, revenue_projects) := acc in
  metrics <- get_of project "metrics" (JObj []) ;;
  revenue_str <- get_of metrics "revenue" (JStr "$0") ;;
  if truthy revenue_str then
    match revenue_str with
    | JStr s =>
        if startswith "$" s then
          match float_of_string (replace "," "" (replace "$" "" s)) with
          | Some revenue =>
              total <- number_add total_revenue (NFloat revenue) ;;
              Ok (total, revenue_projects + 1)
          | None => Ok acc
          end
        else Ok acc
    | _ => Raise AttributeError
    end
  else Ok acc.

Definition status_workload_loop (found : list json) : result counter :=
  for_each (fun agent_workload project =>
              a <- is_active project ;;
              if a then team_loop agent_workload project else Ok agent_workload)
           found [].

Definition empire_status_of (found : list json) : result Status.t :=
  active <- count_active found ;;
  revenue <- for_each status_revenue_step found (NInt 0, 0) ;;
  status_counts <- status_loop found ;;
  agent_workload <- status_workload_loop found ;;
  Ok {| Status.total_projects := len found;
        Status.active_projects := active;
        Status.total_revenue := fst revenue;
        Status.revenue_projects := snd revenue;
        Status.status_distribution := status_counts;
        Status.agent_workload := agent_workload;
        Status.projects := found |}.

Definition get_empire_status : action Status.t :=
  found <~ discover_projects self ;;
  lift (empire_status_of found).
End FoundryStatus.

(** ** [dashboard.py]: class [DashboardManager] and the sidebar's writers

    The dashboard works on the [FoundryOS] of [foundry_v11.py]; the
    stand-in class it defines for a failed import is not modelled. *)

Module Analytics.
(** One entry of [growth_data]. *)
Record growth : Type := {
  date : Z * Z * Z;
  revenue : float;
  project : json
}.

(** What [DashboardManager.get_empire_analytics] returns. *)
Record t : Type := {
  total_projects : Z;
  active_projects : Z;
  total_revenue : number;
  revenue_projects : list json;
  status_distribution : counter;
  agent_workload : counter;
  task_distribution : counter;
  growth_data : list growth;
  projects : list json
}.
End Analytics.

(** What the sidebar shows after a write: [st.success(text)], whose text
    follows a check mark that is left out here, or [st.error(...)]. *)
Inductive notice : Type :=
| Success (text : string)
| Error.

Section Dashboard.
Context `{Library}.
Variable foundry : FoundryOS.

Definition parse_revenue (revenue_str : json) : result float :=
  if negb (truthy revenue_str) then Ok 0%float
  else
    match as_number revenue_str with
    | Some (NInt z) => float_of_int z
    | Some (NFloat f) => Ok f
    | None =>
        let clean_str := strip_non_revenue (str_of revenue_str) in
        if String.eqb clean_str "" then Ok 0%float
        else match float_of_string clean_str with
             | Some f => Ok f
             | None => Ok 0%float
             end
    end.

(** The dictionary appended to [revenue_projects]. *)
Definition revenue_record (project metrics : json) (revenue : float)
  : result json :=
  n <- get_of project "projectName" (JStr "Unknown") ;;
  status <- get_of project "status" (JStr "unknown") ;;
  users <- get_of metrics "users" (JInt 0) ;;
  Ok (JObj [("name", n); ("revenue", JFloat revenue);
            ("status", status); ("users", users)]).

(** The revenue loop of [get_empire_analytics]. *)
Definition revenue_step (acc : number * list json) (project : json)
  : result (number * list json) :=
  let '(total_revenue, revenue_projects) := acc in
  metrics <- get_of project "metrics" (JObj []) ;;
  r <- get_of metrics "revenue" (JInt 0) ;;
  revenue <- parse_revenue r ;;
  total <- number_add total_revenue (NFloat revenue) ;;
  if PrimFloat.ltb 0 revenue then
    entry <- revenue_record project metrics revenue ;;
    Ok (total, (revenue_projects ++ [entry])%list)
  else Ok (total, revenue_projects).

(** [for task in project.get('tasks', {}).get('active', []): ...] *)
Definition task_loop (task_distribution : counter) (project : json)
  : result counter :=
  tasks <- get_of project "tasks" (JObj []) ;;
  active <- get_of tasks "active" (JArr []) ;;
  items <- iterate active ;;
  for_each (fun dist task =>
              priority <- get_of task "priority" (JStr "medium") ;;
              increment dist priority)
           items task_distribution.

Definition initial_task_distribution : counter :=
  [(JStr "high", 0); (JStr "medium", 0); (JStr "low", 0); (JStr "critical", 0)].

(** The agent-workload loop of [get_empire_analytics]. *)
Definition workload_step (acc : counter * counter) (project : json)
  : result (counter * counter) :=
  let '(agent_workload, task_distribution) := acc in
  a <- is_active project ;;
  if a then
    w <- team_loop agent_workload project ;;
    d <- task_loop task_distribution project ;;
    Ok (w, d)
  else Ok acc.

(** The growth loop of [get_empire_analytics]. *)
Definition growth_step (growth_data : list Analytics.growth) (project : json)
  : result (list Analytics.growth) :=
  metrics <- get_of project "metrics" (JObj []) ;;
  start_date <- get_of metrics "startDate" JNull ;;
  if truthy start_date then
    match start_date with
    | JStr s =>
        match strptime s with
        | Some date_obj =>
            metrics' <- get_of project "metrics" (JObj []) ;;
            r <- get_of metrics' "revenue" (JInt 0) ;;
            revenue <- parse_revenue r ;;
            n <- get_of project "projectName" (JStr "Unknown") ;;
            Ok (growth_data ++ [{| Analytics.date := date_obj;
                                   Analytics.revenue := revenue;
                                   Analytics.project := n |}])%list
        | None => Ok growth_data
        end
    | _ => Raise TypeError
    end
  else Ok growth_data.

Definition empire_analytics_of (found : list json) : result Analytics.t :=
  active <- count_active found ;;
  revenue <- for_each revenue_step found (NInt 0, []) ;;
  status_counts <- status_loop found ;;
  workload <- for_each workload_step found ([], initial_task_distribution) ;;
  growth_data <- for_each growth_step found [] ;;
  Ok {| Analytics.total_projects := len found;
        Analytics.active_projects := active;
        Analytics.total_revenue := fst revenue;
        Analytics.revenue_projects := snd revenue;
        Analytics.status_distribution := status_counts;
        Analytics.agent_workload := fst workload;
        Analytics.task_distribution := snd workload;
        Analytics.growth_data := growth_data;
        Analytics.projects := found |}.

Definition get_empire_analytics : action Analytics.t :=
  found <~ discover_projects foundry ;;
  lift (empire_analytics_of found).

(** A [try] whose [except Exception] shows [st.error]. *)
Definition guarded (m : action notice) : action notice :=
  fun h =>
    match m h with
    | (Ok n, h') => (Ok n, h')
    | (Raise _, h') => (Ok Error, h')
    end.

(** The manifest the "Create New Project" form builds; [today] is
    [datetime.now().strftime('%Y-%m-%d')]. *)
Definition form_manifest (project_name project_type status today : string)
  : json :=
  JObj [("projectName", JStr project_name);
        ("projectType", JStr project_type);
        ("leadStrategist", JStr "Dashboard User");
        ("leadArchitect", JStr "Foundry OS");
        ("status", JStr status);
        ("description", JStr ("Project created via dashboard on " ++ today));
        ("metrics", JObj [("startDate", JStr today)]);
        ("tasks", JObj [("active", JArr []); ("completed", JArr [])])].

(** The "Create Project" button of [render_sidebar], pressed with a
    non-empty name. *)
Definition create_from_form
  (project_name project_type status today now : string) : action notice :=
  let manifest := form_manifest project_name project_type status today in
  let project_id := replace "-" "_" (replace " " "_" (lower project_name)) in
  guarded
    (_ <~ write_project {| name := project_id ++ ".json";
                           data := Document manifest;
                           modified := now |} ;;
     ret (Success ("Created " ++ project_name ++ "!"))).

(** The "Upload Manifest" drop of [render_sidebar]. *)
Definition upload_manifest (uploaded_file : content) (now : string)
  : action notice :=
  guarded
    (project_data <~ lift (load uploaded_file) ;;
     project_name <~ lift (get_of project_data "projectName" (JStr "unknown")) ;;
     lowered <~ lift (lower_of project_name) ;;
     let project_id := replace " " "_" lowered in
     _ <~ write_project {| name := project_id ++ ".json";
                           data := Document project_data;
                           modified := now |} ;;
     ret (Success ("Added " ++ str_of project_name ++ "!"))).
End Dashboard.

(** ** Vocabulary of the specification *)

(** The files a scan looks at; a missing directory has none. *)
Definition listing (h : hub) : list file :=
  match projects h with
  | None => []
  | Some files => glob_json files
  end.

(** The name a manifest is sorted and looked up by: its [projectName], or
    the empty string when it has none. *)
Definition project_name (p : json) : string :=
  match p with
  | JObj m => match assoc "projectName" m with Some (JStr s) => s | _ => "" end
  | _ => ""
  end.

(** A file whose document, if it is a JSON object, has a string for its
    [projectName] or no [projectName]. *)
Definition text_named (f : file) : bool :=
  match data f with
  | Document (JObj m) =>
      match assoc "projectName" m with
      | None | Some (JStr _) => true
      | Some _ => false
      end
  | _ => true
  end.

Definition lacks_name (f : file) : bool :=
  match data f with
  | Document (JObj m) =>
      match assoc "projectName" m with None => true | Some _ => false end
  | _ => false
  end.

Section DiscoveryVocabulary.
Context `{Library}.
Variable self : FoundryOS.

(** The files the specification counts: valid JSON that validates
    against the schema when one is configured. *)
Definition parses_and_validates (f : file) : bool :=
  match data f with
  | Document d =>
      match check_schema self d with Ok _ => true | Raise _ => false end
  | _ => false
  end.

(** The files the scan keeps: a JSON object that passes the schema check. *)
Definition accepted (f : file) : bool :=
  match data f with
  | Document (JObj m) =>
      match check_schema self (JObj m) with Ok _ => true | Raise _ => false end
  | _ => false
  end.

(** The manifest built from an accepted file: its document and the two
    derived fields. *)
Definition manifest_of (f : file) : json :=
  match data f with
  | Document (JObj m) =>
      JObj (assoc_set "_last_modified" (JStr (modified f))
              (assoc_set "_manifest_file" (JStr (path_of self f)) m))
  | _ => JNull
  end.

(** The line logged for a file the scan leaves out: a parse error; what
    the validator raised (a schema violation when that is a
    [ValidationError]); any other failure, such as a file that cannot be
    read or a document that is not a JSON object. *)
Definition rejection (f : file) : log_entry :=
  match data f with
  | Malformed => InvalidJSON (path_of self f)
  | Unreadable => FailedToLoad (path_of self f)
  | Document d =>
      match check_schema self d with
      | Raise e => diagnostic self f e
      | Ok _ => FailedToLoad (path_of self f)
      end
  end.

Definition kept (h : hub) : list json :=
  map manifest_of (filter accepted (listing h)).

Definition diagnostics (h : hub) : list log_entry :=
  map rejection (filter (fun f => negb (accepted f)) (listing h)).
End DiscoveryVocabulary.


(** ** The data model's types

    The fields of a manifest, when present, have the types the data model
    gives them. *)

Definition default_of (d : json) (o : option json) : json :=
  match o with Some v => v | None => d end.

(** What [x in c] accepts as [c]. *)
Definition is_container (v : json) : bool :=
  match v with
  | JArr _ | JObj _ | JStr _ => true
  | _ => false
  end.

(** A configuration is a mapping whose [agents], if any, is a container. *)
Definition typed_config (c : json) : bool :=
  match c with
  | JObj m => is_container (default_of (JObj []) (assoc "agents" m))
  | _ => false
  end.

(** A project's [team], if any, is a container. *)
Definition typed_team (p : json) : bool :=
  match p with
  | JObj m => is_container (default_of (JArr []) (assoc "team" m))
  | _ => false
  end.

Definition field (k : string) (p : json) : option json :=
  match p with
  | JObj m => assoc k m
  | _ => None
  end.

Definition is_text (v : json) : bool :=
  match v with JStr _ => true | _ => false end.

Definition absent_or (P : json -> bool) (o : option json) : bool :=
  match o with
  | None => true
  | Some v => P v
  end.

(** A revenue is a string or a bare number; an integer is within the
    range of [float]. *)
Definition typed_revenue (v : json) : bool :=
  match v with
  | JInt z => match float_of_int z with Ok _ => true | Raise _ => false end
  | _ => true
  end.

Definition typed_metrics (v : json) : bool :=
  match v with
  | JObj m =>
      absent_or typed_revenue (assoc "revenue" m)
      && absent_or is_text (assoc "startDate" m)
  | _ => false
  end.

Definition typed_task (v : json) : bool :=
  match v with
  | JObj m => absent_or is_text (assoc "priority" m)
  | _ => false
  end.

Definition typed_tasks (v : json) : bool :=
  match v with
  | JObj m =>
      absent_or (fun a => match a with
                          | JArr l => forallb typed_task l
                          | _ => false
                          end)
                (assoc "active" m)
  | _ => false
  end.

Definition typed_members (v : json) : bool :=
  match v with
  | JArr l => forallb is_text l
  | _ => false
  end.

(** A manifest: a mapping whose [status] is a string, whose [team] is a
    sequence of strings, whose [metrics] and [tasks] are mappings of the
    shapes above; every field may be missing. *)
Definition typed_manifest (p : json) : bool :=
  match p with
  | JObj m =>
      absent_or is_text (assoc "status" m)
      && absent_or typed_members (assoc "team" m)
      && absent_or typed_metrics (assoc "metrics" m)
      && absent_or typed_tasks (assoc "tasks" m)
  | _ => false
  end.

(** ** Vocabulary of the aggregation *)

(** A project that is neither archived nor completed. *)
Definition active (p : json) : bool :=
  negb (in_list (default_of JNull (field "status" p))
          [JStr "archived"; JStr "completed"]).

(** The agents a project's [team] lists, with repetitions. *)
Definition team_of (p : json) : list json :=
  match default_of (JArr []) (field "team" p) with
  | JArr l => l
  | _ => []
  end.

(** Every listing of an agent by an active project, in project order. *)
Definition listed_agents (found : list json) : list json :=
  flat_map team_of (filter active found).

(** How many times active projects list the agent. *)
Definition listings (agent : string) (found : list json) : Z :=
  len (filter (fun x => py_eq x (JStr agent)) (listed_agents found)).

(** The file-name key as the specification derives it: lowercase, with
    every space and every hyphen turned into an underscore. *)
Fixpoint derived_key (project_name : string) : string :=
  match project_name with
  | EmptyString => EmptyString
  | String c s =>
      String (if Ascii.eqb c " " || Ascii.eqb c "-" then "_"%char else lower_char c)
             (derived_key s)
  end.

(** How many active projects list the agent, as the specification counts. *)
Definition projects_listing (agent : string) (found : list json) : Z :=
  len (filter (fun p => active p && in_list (JStr agent) (team_of p)) found).

(** [sum(l)] for floats: the int [0] of the empty sum, and otherwise
    [0.0 + x1 + x2 + ...] from left to right. *)
Definition float_sum (l : list float) : number :=
  match l with
  | [] => NInt 0
  | _ => NFloat (fold_left PrimFloat.add l 0%float)
  end.

Section AggregationVocabulary.
Context `{Library}.

(** The parsed revenue of a manifest ([0.0] where parsing raises). *)
Definition revenue_of (p : json) : float :=
  match parse_revenue
          (default_of (JInt 0)
             (field "revenue" (default_of (JObj []) (field "metrics" p)))) with
  | Ok r => r
  | Raise _ => 0%float
  end.

(** The record of a project in [revenue_projects]. *)
Definition revenue_entry (p : json) : json :=
  JObj [("name", default_of (JStr "Unknown") (field "projectName" p));
        ("revenue", JFloat (revenue_of p));
        ("status", default_of (JStr "unknown") (field "status" p));
        ("users",
         default_of (JInt 0)
           (field "users" (default_of (JObj []) (field "metrics" p))))].

Definition earns (p : json) : bool := PrimFloat.ltb 0 (revenue_of p).
End AggregationVocabulary.

(** ** Vocabulary of the proofs *)

(** The order [sorted] puts strings in: by character code, a proper
    prefix first. *)
Definition string_le (s t : string) : Prop := String.leb s t = true.

Section KeyedItems.
Variable A : Type.

(** An item paired with its key: the key's text, when it is a string. *)
Definition key_text (x : json * A) : string :=
  match fst x with JStr s => s | _ => "" end.

Definition string_keyed (x : json * A) : Prop := exists s, fst x = JStr s.

Definition key_le (x y : json * A) : Prop := string_le (key_text x) (key_text y).

Definition same_key (k : string) (x : json * A) : bool := String.eqb (key_text x) k.
End KeyedItems.

Arguments key_text {A} x.
Arguments string_keyed {A} x.
Arguments key_le {A} x y.
Arguments same_key {A} k x.

Section TextKeys.
Variable A : Type.
Variable text : A -> string.

Definition text_le (a b : A) : Prop := string_le (text a) (text b).
Definition has_text (k : string) (a : A) : bool := String.eqb (text a) k.
Definition keyed_by_text (x : json * A) : Prop := fst x = JStr (text (snd x)).
End TextKeys.

Arguments text_le {A} text a b.
Arguments has_text {A} text k a.
Arguments keyed_by_text {A} text x.

(** A manifest whose lowercased name is the lowercased query. *)
Definition named_like (q : string) (p : json) : bool :=
  String.eqb (lower (project_name p)) (lower q).

Definition count_or_zero (k : json) (c : counter) : Z :=
  match count_of k c with Some n => n | None => 0 end.

(** The counter after [c[k] = c.get(k, 0) + 1]. *)
Definition incremented (c : counter) (k : json) : counter :=
  count_set k (count_or_zero k c + 1) c.

(** The revenue loop as a fold: the total so far as a float, and the
    state after one more project. *)
Definition running_total (t : number) : float :=
  match t with
  | NInt _ => 0%float
  | NFloat f => f
  end.

Definition not_yet_or_float (t : number) : Prop :=
  t = NInt 0 \/ exists f, t = NFloat f.

Definition revenue_next `{Library} (acc : number * list json) (p : json)
  : number * list json :=
  (NFloat (running_total (fst acc) + revenue_of p)%float,
   (snd acc ++ if earns p then [revenue_entry p] else [])%list).

(** The revenue [get_empire_status] counts for a manifest: the float of a
    string that starts with a dollar sign, without its dollar signs and
    commas; nothing for any other value. *)
Definition dollar_revenue (p : json) : option float :=
  match default_of (JStr "$0")
          (field "revenue" (default_of (JObj []) (field "metrics" p))) with
  | JStr s =>
      if startswith "$" s
      then float_of_string (replace "," "" (replace "$" "" s))
      else None
  | _ => None
  end.

Definition dollar_revenues (found : list json) : list float :=
  flat_map (fun p => match dollar_revenue p with Some r => [r] | None => [] end)
           found.

(** A manifest whose revenue, if any, is a string. *)
Definition text_revenue (p : json) : bool :=
  absent_or is_text (field "revenue" (default_of (JObj []) (field "metrics" p))).

(** The revenue loop of [get_empire_status] as a fold. *)
Definition status_revenue_next (acc : number * Z) (p : json) : number * Z :=
  match dollar_revenue p with
  | Some r => (NFloat (running_total (fst acc) + r)%float, snd acc + 1)
  | None => acc
  end.

(** ** Worked inputs *)

(** A controller with no configuration file and no schema file. *)
Definition plain_foundry : FoundryOS :=
  {| hub_dir := "/home/u/ai-empire-hub";
     projects_dir := "/home/u/ai-empire-hub/projects";
     config := get_default_config "/home/u/ai-empire-hub";
     schema := JObj [] |}.

(** A controller whose schema file demands a [projectName]. *)
Definition strict_foundry : FoundryOS :=
  {| hub_dir := "/home/u/ai-empire-hub";
     projects_dir := "/home/u/ai-empire-hub/projects";
     config := get_default_config "/home/u/ai-empire-hub";
     schema := JObj [("required", JArr [JStr "projectName"])] |}.

(** A stand-in for the library in the worked inputs: its validator
    enforces the one rule of [strict_foundry]'s schema, and the inputs
    print no container and hold no start date. *)
#[export] Instance sample_library : Library :=
  {| repr := fun _ => "";
     validate := fun instance _ =>
       match instance with
       | JObj m =>
           match assoc "projectName" m with
           | Some _ => None
           | None => Some ValidationError
           end
       | _ => None
       end;
     strptime := fun _ => None |}.

Definition manifest_file (n : string) (d : json) : file :=
  {| name := n; data := Document d; modified := "2024-01-01T00:00:00" |}.

Definition hub_of (files : list file) : hub :=
  {| projects := Some files; shared_context := []; log := []; echoed := [] |}.

(** The three manifests of the specification's sorting example. *)
Definition zeta_alpha_beta : hub :=
  hub_of [manifest_file "zeta.json" (JObj [("projectName", JStr "Zeta")]);
          manifest_file "alpha.json" (JObj [("projectName", JStr "alpha")]);
          manifest_file "beta.json" (JObj [("projectName", JStr "Beta")])].

(** A store with one good manifest and one file of each kind the scan
    leaves out, among files [glob] does not list. *)
Definition mixed_store : hub :=
  hub_of [manifest_file "acme.json" (JObj [("projectName", JStr "Acme")]);
          {| name := "torn.json"; data := Malformed; modified := "" |};
          manifest_file "nameless.json" (JObj [("status", JStr "planning")]);
          manifest_file "list.json" (JArr []);
          {| name := "locked.json"; data := Unreadable; modified := "" |};
          manifest_file "notes.txt" (JObj [("projectName", JStr "Notes")])].

(** A store whose only file holds a JSON array. *)
Definition array_store : hub := hub_of [manifest_file "list.json" (JArr [])].

(** Two manifests without a [projectName]. *)
Definition first_nameless : file :=
  manifest_file "a.json" (JObj [("status", JStr "planning")]).

(** The specification's two manifests, Acme in production and Beta
    archived, both with alice on the team. *)
Definition acme : json :=
  JObj [("projectName", JStr "Acme"); ("status", JStr "production");
        ("metrics", JObj [("revenue", JStr "$1,000")]);
        ("team", JArr [JStr "alice"])].
Definition beta : json :=
  JObj [("projectName", JStr "Beta"); ("status", JStr "archived");
        ("metrics", JObj [("revenue", JStr "$500")]);
        ("team", JArr [JStr "alice"])].
Definition acme_and_beta : hub :=
  hub_of [manifest_file "acme.json" acme; manifest_file "beta.json" beta].

(** A project that lists alice twice. *)
Definition alice_twice : hub :=
  hub_of [manifest_file "acme.json"
            (JObj [("projectName", JStr "Acme"); ("status", JStr "production");
                   ("team", JArr [JStr "alice"; JStr "alice"])])].

(** A hub without a projects directory, and one whose projects directory
    holds no manifest file. *)
Definition no_directory : hub :=
  {| projects := None; shared_context := []; log := []; echoed := [] |}.
Definition no_manifests : hub :=
  hub_of [{| name := "README.md"; data := Malformed; modified := "" |}].

(** Two manifests whose names are a number and a string. *)
Definition number_and_text_names : hub :=
  hub_of [manifest_file "five.json" (JObj [("projectName", JInt 5)]);
          manifest_file "a.json" (JObj [("projectName", JStr "a")])].

(** A store that already holds Acme, and a second manifest of that name. *)
Definition acme_only : hub := hub_of [manifest_file "acme.json" acme].
Definition other_acme : json :=
  JObj [("projectName", JStr "Acme"); ("status", JStr "planning")].

(** A manifest whose name has a hyphen, and an empty projects directory. *)
Definition my_app : json := JObj [("projectName", JStr "My-App")].
Definition empty_directory : hub := hub_of [].

(** One manifest without a [projectName] beside a named one. *)
Definition nameless_and_acme : hub :=
  hub_of [manifest_file "acme.json" (JObj [("projectName", JStr "Acme")]);
          first_nameless].

(** ** More of Python: comparisons, subscripts, joins and text *)

Definition is_Le (c : option comparison) : bool :=
  match c with Some Lt | Some Eq => true | _ => false end.
Definition is_Ge (c : option comparison) : bool :=
  match c with Some Gt | Some Eq => true | _ => false end.

Definition number_leb (a b : number) : bool :=
  match a, b with
  | NInt x, NInt y => x <=? y
  | NInt x, NFloat g => is_Le (compare_int_float x g)
  | NFloat f, NInt y => is_Ge (compare_int_float y f)
  | NFloat f, NFloat g => PrimFloat.leb f g
  end.

(** [a <= b]; [None] is [TypeError]. *)
Fixpoint py_le (a b : json) {struct a} : option bool :=
  match a, b with
  | JStr s, JStr t => Some (String.leb s t)
  | JArr l, JArr l' =>
      (fix lex (l l' : list json) {struct l} : option bool :=
         match l, l' with
         | [], _ => Some true
         | _ :: _, [] => Some false
         | x :: r, y :: r' => if py_eq x y then lex r r' else py_le x y
         end) l l'
  | _, _ =>
      match as_number a, as_number b with
      | Some x, Some y => Some (number_leb x y)
      | _, _ => None
      end
  end.

(** The outcome of a comparison as a [result]. *)
Definition compared (o : option bool) : result bool :=
  match o with
  | Some b => Ok b
  | None => Raise TypeError
  end.

(** [a and b] and [a or b] on comparisons: the right one is evaluated
    only when the left one does not decide. *)
Definition and_also (a b : result bool) : result bool :=
  x <- a ;; if x then b else Ok false.
Definition or_else (a b : result bool) : result bool :=
  x <- a ;; if x then Ok true else b.

(** [str(v)], with the text of an integer, a boolean and [None] written
    out; the text of a float or a container is the library's. *)
Definition text_of `{Library} (v : json) : string :=
  match v with
  | JStr s => s
  | JInt z => NilZero.string_of_int (Z.to_int z)
  | JBool true => "True"
  | JBool false => "False"
  | JNull => "None"
  | _ => repr v
  end.

(** A [KeyError] is one of the exceptions [exn] does not tell apart. *)
Definition KeyError : exn := OtherException.

(** [d[k]] for a string [k]: the value of a dictionary's key; nothing else
    takes a string for an index. *)
Definition subscript (d : json) (k : string) : result json :=
  match d with
  | JObj m =>
      match assoc k m with
      | Some v => Ok v
      | None => Raise KeyError
      end
  | _ => Raise TypeError
  end.

(** The items of a sequence of strings. *)
Fixpoint texts (l : list json) : result (list string) :=
  match l with
  | [] => Ok []
  | JStr s :: l' => r <- texts l' ;; Ok (s :: r)
  | _ :: _ => Raise TypeError
  end.

(** [sep.join(v)] *)
Definition join_with (sep : string) (v : json) : result string :=
  items <- iterate v ;;
  words <- texts items ;;
  Ok (String.concat sep words).

(** A name that is one entry of a directory: not empty, not a reference
    to the directory or its parent, and without a path separator.  The
    directories below are keyed by such names. *)
Definition path_component (s : string) : bool :=
  negb (String.eqb s "") && negb (String.eqb s ".") && negb (String.eqb s "..")
  && negb (contains_substring "/" s).

(** ** Vocabulary of the further properties *)

(** What an operation that only logs leaves of the hub: everything, with
    [entries] behind the log it found. *)
Definition only_logged (h h' : hub) (entries : list log_entry) : Prop :=
  projects h' = projects h
  /\ shared_context h' = shared_context h
  /\ echoed h' = echoed h
  /\ log h' = (log h ++ entries)%list.

(** The status a manifest is counted under. *)
Definition status_of (p : json) : json :=
  default_of (JStr "unknown") (field "status" p).

(** The sum of the counts of a counter. *)
Definition counter_total (c : counter) : Z :=
  fold_right (fun kn acc => snd kn + acc) 0 c.

(** The active tasks of a manifest, and the priority a task is counted
    under. *)
Definition active_tasks (p : json) : list json :=
  match default_of (JArr [])
          (field "active" (default_of (JObj []) (field "tasks" p))) with
  | JArr l => l
  | _ => []
  end.

Definition priority_of (task : json) : json :=
  default_of (JStr "medium") (field "priority" task).

(** The priority of every active task of every active project, in order. *)
Definition listed_priorities (found : list json) : list json :=
  flat_map (fun p => map priority_of (active_tasks p)) (filter active found).

(** The four priorities [task_distribution] starts with. *)
Definition standard_priority (s : string) : bool :=
  existsb (String.eqb s) ["high"; "medium"; "low"; "critical"].

(** How many items of [l] equal the string [s]. *)
Definition occurrences (s : string) (l : list json) : Z :=
  len (filter (fun x => py_eq x (JStr s)) l).

(** The kinds of values that are ordered among themselves: [a < b] is
    defined at most for two values of one kind with an order. *)
Inductive kind : Type :=
| TextKind
| NumberKind
| SequenceKind
| NoOrder.

Definition kind_of (v : json) : kind :=
  match v with
  | JStr _ => TextKind
  | JBool _ | JInt _ | JFloat _ => NumberKind
  | JArr _ => SequenceKind
  | JNull | JObj _ => NoOrder
  end.

(** The value a manifest is sorted by. *)
Definition sort_name (p : json) : json :=
  default_of (JStr "") (field "projectName" p).


(** A project with two active tasks, one of them without a priority, and
    an archived project with a task. *)
Definition busy_store : hub :=
  hub_of [manifest_file "acme.json"
            (JObj [("projectName", JStr "Acme"); ("status", JStr "production");
                   ("tasks",
                    JObj [("active",
                           JArr [JObj [("name", JStr "ship");
                                       ("priority", JStr "urgent")];
                                 JObj [("name", JStr "test")]])])]);
          manifest_file "beta.json"
            (JObj [("projectName", JStr "Beta"); ("status", JStr "archived");
                   ("tasks",
                    JObj [("active",
                           JArr [JObj [("priority", JStr "high")]])])])].

(** ** [foundry_v11.py]: start-up and commands *)

(** [load_config()]; [config_file] is what [yaml.safe_load] makes of
    [config/foundry.yaml], [None] when there is no such file. *)
Definition load_config (hub_directory : string) (config_file : option (result json))
  : result json :=
  match config_file with
  | Some loaded => loaded
  | None => Ok (get_default_config hub_directory)
  end.

(** [load_schema()]; [schema_file] is what is at
    [schemas/project_manifest.json]. *)
Definition load_schema (schema_file : option content) : result json :=
  match schema_file with
  | Some c => load c
  | None => Ok (JObj [])
  end.

(** [FoundryOS()] for a hub at [hub_directory]. *)
Definition start (hub_directory : string) (config_file : option (result json))
    (schema_file : option content) : result FoundryOS :=
  config <- load_config hub_directory config_file ;;
  schema <- load_schema schema_file ;;
  Ok {| hub_dir := hub_directory;
        projects_dir := hub_directory ++ "/projects";
        config := config;
        schema := schema |}.

(** A file that holds a JSON object. *)
Definition holds_object (f : file) : bool :=
  match data f with
  | Document (JObj _) => true
  | _ => false
  end.

(** A [for] loop over operations on the hub. *)
Fixpoint for_each_action {A : Type} (body : A -> action unit) (l : list A)
  : action unit :=
  match l with
  | [] => ret tt
  | x :: l' => _ <~ body x ;; for_each_action body l'
  end.

(** [c * n] for a one-character string. *)
Fixpoint repeated (c : ascii) (n : nat) : string :=
  match n with
  | O => EmptyString
  | S n' => String c (repeated c n')
  end.

(** What a command prints on the standard error: that [--manifest] is
    required, or "Error: " and the text of an exception. *)
Inductive complaint : Type :=
| ParameterRequired
| Failed (e : exn).

Module Cli.
Section Commands.
Context `{Library}.
Variable foundry : FoundryOS.

(** The [try] block of [new].  The lines are printed after signs that are
    left out here. *)
Definition new_report (manifest : string) (manifest_file : option content)
    (now : string) : action unit :=
  project <~ create_project_from_manifest foundry manifest manifest_file now ;;
  project_name <~ lift (subscript project "projectName") ;;
  _ <~ echo ("Created project '" ++ text_of project_name ++ "'") ;;
  project_type <~ lift (subscript project "projectType") ;;
  _ <~ echo ("Type: " ++ text_of project_type) ;;
  status <~ lift (subscript project "status") ;;
  _ <~ echo ("Status: " ++ text_of status) ;;
  team <~ lift (get_of project "team" JNull) ;;
  if truthy team then
    team <~ lift (subscript project "team") ;;
    listed <~ lift (join_with ", " team) ;;
    echo ("Team: " ++ listed)
  else ret tt.

(** The command [new]; [manifest] is the option [--manifest],
    [manifest_file] what is at that path, [now] the time of the write. *)
Definition new (manifest : option string) (manifest_file : option content)
    (now : string) (h : hub) : option complaint * hub :=
  match manifest with
  | None =>
      (Some ParameterRequired,
       with_echo h "Example: foundry new --manifest=./my_project.json")
  | Some path =>
      if String.eqb path "" then
        (Some ParameterRequired,
         with_echo h "Example: foundry new --manifest=./my_project.json")
      else
        match new_report path manifest_file now h with
        | (Ok _, h') => (None, h')
        | (Raise e, h') => (Some (Failed e), h')
        end
  end.

(** One line of the command [projects]; the sign for the status, looked
    up in a dictionary, is left out of the line. *)
Definition project_line (project : json) : action unit :=
  status <~ lift (get_of project "status" JNull) ;;
  if negb (hashable status) then raise TypeError
  else
    project_name <~ lift (subscript project "projectName") ;;
    project_type <~ lift (get_of project "projectType" (JStr "Unknown")) ;;
    echo (text_of project_name ++ " (" ++ text_of project_type ++ ")").

(** The command [projects]; the heading follows a line break and a sign. *)
Definition projects : action unit :=
  found <~ discover_projects foundry ;;
  match found with
  | [] =>
      _ <~ echo "No projects found." ;;
      echo "Create a project manifest file in the projects directory."
  | _ =>
      _ <~ echo ("DISCOVERED PROJECTS (" ++ text_of (JInt (len found)) ++ ")") ;;
      _ <~ echo (repeated "=" 50) ;;
      for_each_action project_line found
  end.
End Commands.
End Cli.


(** ** [dashboard.py]: the portfolio of [render_main_dashboard]

    The options of the two filters, and the projects shown for a choice
    of filters and order, which the dashboard renders when there is at
    least one project.  The widgets are not modelled: a choice is an
    argument. *)

(** [list(set(l))]: the values of [l] without repetitions.  Python does
    not say in which order it lists a set; here it is the order of the
    first occurrences. *)
Definition distinct (l : list json) : list json :=
  fold_left (fun seen x => if in_list x seen then seen else (seen ++ [x])%list) l [].

(** [["All"] + list(set(p.get(key, 'unknown') for p in projects))] *)
Definition filter_options (key : string) (projects : list json)
  : result (list json) :=
  values <- for_each (fun values p =>
                        v <- get_of p key (JStr "unknown") ;;
                        if hashable v then Ok (values ++ [v])%list
                        else Raise TypeError)
                     projects [] ;;
  Ok (JStr "All" :: distinct values).

(** [[p for p in projects if p.get(key) == selected]], unless [selected]
    is "All". *)
Definition keep_equal (key : string) (selected : json) (projects : list json)
  : result (list json) :=
  if negb (py_eq selected (JStr "All")) then
    for_each (fun shown p =>
                v <- get_of p key JNull ;;
                Ok (if py_eq v selected then shown ++ [p] else shown)%list)
             projects []
  else Ok projects.

(** [sorted(l, key=f, reverse=True)]: the list is reversed, sorted, and
    reversed again, so that items with equal keys keep their order.  As
    for [sorted], the insertion sort is what Python's sort returns when
    the keys are totally ordered, which floats are in the absence of a
    NaN. *)
Definition sorted_reverse {A : Type} (key : A -> result json) (l : list A)
  : result (list A) :=
  keyed <- with_keys key l ;;
  r <- sort_keyed (rev keyed) ;;
  Ok (rev (map snd r)).

(** The options of "Sort by". *)
Inductive sort_option : Type :=
| Name
| Revenue
| Status
| Created.

Section Portfolio.
Context `{Library}.

(** [lambda x: dashboard.parse_revenue(x.get('metrics', {}).get('revenue', 0))] *)
Definition revenue_key (x : json) : result json :=
  metrics <- get_of x "metrics" (JObj []) ;;
  r <- get_of metrics "revenue" (JInt 0) ;;
  revenue <- parse_revenue r ;;
  Ok (JFloat revenue).

(** The projects of the portfolio, in the order of their cards. *)
Definition portfolio (status_filter type_filter : json) (sort_by : sort_option)
    (projects : list json) : result (list json) :=
  filtered_projects <- keep_equal "status" status_filter projects ;;
  filtered_projects <- keep_equal "projectType" type_filter filtered_projects ;;
  match sort_by with
  | Revenue => sorted_reverse revenue_key filtered_projects
  | Name => sorted name_key filtered_projects
  | _ => Ok filtered_projects
  end.
End Portfolio.

(** A store with a project that has no status. *)
Definition statusless_store : hub :=
  hub_of [manifest_file "acme.json" acme;
          manifest_file "draft.json" (JObj [("projectName", JStr "Draft")])].

(** ** [seo_audit_microservice.py]: scoring and recommendations

    The audit data is the dictionary [perform_seo_audit] returns: what the
    two scripts evaluated in the page give, or the basic audit when
    anything on the way to them raises.  The browser itself is not
    modelled: [page] is the outcome of the page visit. *)

Definition no_browser : string := "Playwright not available - using basic audit".

(** [perform_basic_audit(url)] *)
Definition perform_basic_audit (url : string) : json :=
  JObj [("meta_description",
         JObj [("exists", JBool false); ("content", JNull); ("length", JInt 0);
               ("error", JStr no_browser)]);
        ("h1_tag",
         JObj [("exists", JBool false); ("count", JInt 0); ("content", JNull);
               ("error", JStr no_browser)])].

(** [perform_seo_audit(url)]; [page] is what the scripts for the meta
    description and for the H1 tags returned, or the exception that ended
    the visit. *)
Definition perform_seo_audit (url : string) (page : result (json * json)) : json :=
  match page with
  | Ok (meta_description, h1_tag) =>
      JObj [("meta_description", meta_description); ("h1_tag", h1_tag)]
  | Raise _ => perform_basic_audit url
  end.

(** [calculate_seo_score(audit_data)] *)
Definition calculate_seo_score (audit_data : json) : result Z :=
  let score := 0 in
  meta <- get_of audit_data "meta_description" (JObj []) ;;
  meta_exists <- get_of meta "exists" JNull ;;
  score <-
    (if truthy meta_exists then
       let score := score + 20 in
       length <- get_of meta "length" (JInt 0) ;;
       optimal <- and_also (compared (py_le (JInt 50) length))
                           (compared (py_le length (JInt 160))) ;;
       if optimal then Ok (score + 20)
       else
         near <- or_else
                   (and_also (compared (py_le (JInt 30) length))
                             (compared (py_lt length (JInt 50))))
                   (and_also (compared (py_lt (JInt 160) length))
                             (compared (py_le length (JInt 200)))) ;;
         if near then Ok (score + 10) else Ok score
     else Ok score) ;;
  h1 <- get_of audit_data "h1_tag" (JObj []) ;;
  h1_exists <- get_of h1 "exists" JNull ;;
  if truthy h1_exists then
    let score := score + 30 in
    count <- get_of h1 "count" JNull ;;
    if py_eq count (JInt 1) then Ok (score + 30)
    else
      count <- get_of h1 "count" JNull ;;
      few <- compared (py_le count (JInt 3)) ;;
      if few then Ok (score + 15) else Ok score
  else Ok score.

(** One recommendation. *)
Definition recommendation (priority issue action impact : string) : json :=
  JObj [("priority", JStr priority); ("issue", JStr issue);
        ("action", JStr action); ("impact", JStr impact)].

Definition missing_meta_description : json :=
  recommendation "HIGH" "Missing Meta Description"
    "Add a compelling meta description between 50-160 characters"
    "Critical for search result click-through rates".

Definition missing_h1_tag : json :=
  recommendation "HIGH" "Missing H1 Tag"
    "Add a clear, keyword-rich H1 tag to your page"
    "Critical for SEO and page structure".

Section Recommendations.
Context `{Library}.

(** [generate_recommendations(audit_data)] *)
Definition generate_recommendations (audit_data : json) : result (list json) :=
  let recommendations := [] in
  meta <- get_of audit_data "meta_description" (JObj []) ;;
  meta_exists <- get_of meta "exists" JNull ;;
  recommendations <-
    (if negb (truthy meta_exists) then
       Ok (recommendations ++ [missing_meta_description])%list
     else
       length <- get_of meta "length" (JInt 0) ;;
       short <- compared (py_lt length (JInt 50)) ;;
       if short then
         shown <- get_of meta "length" JNull ;;
         Ok (recommendations
             ++ [recommendation "MEDIUM" "Meta Description Too Short"
                   ("Expand meta description from " ++ text_of shown
                    ++ " to 50-160 characters")
                   "May appear truncated in search results"])%list
       else
         length <- get_of meta "length" (JInt 0) ;;
         long <- compared (py_lt (JInt 160) length) ;;
         if long then
           shown <- get_of meta "length" JNull ;;
           Ok (recommendations
               ++ [recommendation "MEDIUM" "Meta Description Too Long"
                     ("Shorten meta description from " ++ text_of shown
                      ++ " to under 160 characters")
                     "Will be truncated in search results"])%list
         else Ok recommendations) ;;
  h1 <- get_of audit_data "h1_tag" (JObj []) ;;
  h1_exists <- get_of h1 "exists" JNull ;;
  if negb (truthy h1_exists) then Ok (recommendations ++ [missing_h1_tag])%list
  else
    count <- get_of h1 "count" (JInt 0) ;;
    several <- compared (py_lt (JInt 1) count) ;;
    if several then
      shown <- get_of h1 "count" JNull ;;
      Ok (recommendations
          ++ [recommendation "MEDIUM" ("Multiple H1 Tags (" ++ text_of shown ++ ")")
                "Use only one H1 tag per page, convert others to H2"
                "Can confuse search engines about page topic"])%list
    else Ok recommendations.
End Recommendations.

Module AuditResult.
(** The response model of [/audit]. *)
Record t : Type := {
  url : string;
  timestamp : string;
  meta_description : json;
  h1_tag : json;
  score : Z;
  recommendations : list json;
  status : string
}.
End AuditResult.

(** What [/audit] answers: the result, or
    [HTTPException(status_code=500, detail="Audit failed: ...")] for the
    exception [e]. *)
Inductive response : Type :=
| Returned (result : AuditResult.t)
| HTTPException (status_code : Z) (e : exn).

(** [audit_website(request)]; [url] is [str(request.url)] and [now] is
    [datetime.now().isoformat()].  Where the score and the
    recommendations are computed, both parts of the audit data are
    dictionaries, which is all the response model asks of them. *)
Definition audit_website `{Library} (url now : string) (page : result (json * json))
  : response :=
  let attempt :=
    let audit_data := perform_seo_audit url page in
    score <- calculate_seo_score audit_data ;;
    recommendations <- generate_recommendations audit_data ;;
    meta_description <- get_of audit_data "meta_description" JNull ;;
    h1_tag <- get_of audit_data "h1_tag" JNull ;;
    Ok {| AuditResult.url := url;
          AuditResult.timestamp := now;
          AuditResult.meta_description := meta_description;
          AuditResult.h1_tag := h1_tag;
          AuditResult.score := score;
          AuditResult.recommendations := recommendations;
          AuditResult.status := "success" |} in
  match attempt with
  | Ok result => Returned result
  | Raise e => HTTPException 500 e
  end.

(** What the page scripts return: for the meta description, whether there
    is one and the length of its content; for the H1 tags, their number
    and whether there is any. *)
Definition page_meta (v : json) : bool :=
  match v with
  | JObj m =>
      match assoc "exists" m, assoc "length" m with
      | Some (JBool _), Some (JInt n) => 0 <=? n
      | _, _ => false
      end
  | _ => false
  end.

Definition page_h1 (v : json) : bool :=
  match v with
  | JObj m =>
      match assoc "exists" m, assoc "count" m with
      | Some (JBool e), Some (JInt n) => (0 <=? n) && Bool.eqb e (0 <? n)
      | _, _ => false
      end
  | _ => false
  end.

(** A page with a meta description of 120 characters and one H1 tag. *)
Definition good_page : json * json :=
  (JObj [("exists", JBool true); ("content", JStr "..."); ("length", JInt 120)],
   JObj [("exists", JBool true); ("count", JInt 1); ("content", JStr "Welcome");
         ("all_h1s", JArr [JStr "Welcome"])]).

(** Audit data whose H1 part says there is a tag and gives no count. *)
Definition h1_without_count : json :=
  JObj [("meta_description", JObj [("exists", JBool false); ("length", JInt 0)]);
        ("h1_tag", JObj [("exists", JBool true)])].

(** ** [create_agent.py]: the names of a new agent

    The identifier and the class name [create_agent] derives from the
    agent's name. *)

(** The whitespace [str.split()] splits at. *)
Definition is_whitespace (c : ascii) : bool :=
  let n := nat_of_ascii c in
  ((9 <=? n)%nat && (n <=? 13)%nat) || ((28 <=? n)%nat && (n <=? 32)%nat).




(** [s.split()]: the runs of characters between whitespace. *)
Fixpoint split (s : string) : list string :=
  match s with
  | EmptyString => []
  | String c s' =>
      if is_whitespace c then split s'
      else
        match s' with
        | EmptyString => [String c EmptyString]
        | String c' _ =>
            if is_whitespace c' then String c EmptyString :: split s'
            else
              match split s' with
              | word :: words => String c word :: words
              | [] => [String c EmptyString]
              end
        end
  end.





(** ** [foundry.py]: the first controller

    Projects are directories of the projects directory, each with a
    [project.json]; the time of an operation is an argument. *)

Module V1.

(** An entry of the projects directory. *)
Inductive entry : Type :=
| Directory (dir_name : string) (project_json : option content)
    (subdirs : list string)
| PlainFile (file_name : string).

Definition entry_name (e : entry) : string :=
  match e with
  | Directory n _ _ => n
  | PlainFile n => n
  end.

Record hub : Type := {
  projects : option (list entry);
    (* [None] when the projects directory is missing *)
  shared_context : list (string * json);
  log : list string;
    (* the messages of the log file, without their time *)
  echoed : list string
    (* what [click.echo] printed on the standard output *)
}.

Definition with_projects (h : hub) (entries : list entry) : hub :=
  {| projects := Some entries; shared_context := shared_context h;
     log := log h; echoed := echoed h |}.

Definition with_log (h : hub) (message : string) : hub :=
  {| projects := projects h; shared_context := shared_context h;
     log := (log h ++ [message])%list; echoed := echoed h |}.

Definition with_shared (h : hub) (fname : string) (d : json) : hub :=
  {| projects := projects h;
     shared_context := assoc_set fname d (shared_context h);
     log := log h; echoed := echoed h |}.

Definition with_echo (h : hub) (line : string) : hub :=
  {| projects := projects h; shared_context := shared_context h;
     log := log h; echoed := (echoed h ++ [line])%list |}.

Definition entries_of (h : hub) : list entry :=
  match projects h with
  | Some entries => entries
  | None => []
  end.

(** [(hub_dir / 'projects' / n).exists()] for a path component [n]. *)
Definition exists_entry (n : string) (h : hub) : bool :=
  existsb (fun e => String.eqb (entry_name e) n) (entries_of h).

(** [open(project_dir / 'project.json', 'w')] and the four [mkdir]s that
    follow it, in the directory [n]. *)
Fixpoint fill_directory (n : string) (metadata : json) (entries : list entry)
  : list entry :=
  match entries with
  | [] => []
  | Directory n' c s :: rest =>
      if String.eqb n' n
      then Directory n' (Some (Document metadata))
             (s ++ ["src"; "docs"; "tests"; "deployments"])%list :: rest
      else Directory n' c s :: fill_directory n metadata rest
  | e :: rest => e :: fill_directory n metadata rest
  end.

(** [get_default_config()] *)
Definition get_default_config (hub_directory : string) : json :=
  JObj [("version", JStr "1.0.0");
        ("hub_directory", JStr hub_directory);
        ("agents", JObj []);
        ("templates", JObj []);
        ("learning",
         JObj [("metrics_threshold", JFloat 0.25);
               ("auto_save_patterns", JBool false)])].

Section Controller.
Variable config : json.

(** [template and template in self.config.get('templates', {})] *)
Definition template_known (template : option string) : result bool :=
  match template with
  | None => Ok false
  | Some t =>
      if String.eqb t "" then Ok false
      else
        templates <- get_of config "templates" (JObj []) ;;
        str_in t templates
  end.

(** The metadata of a new project before a template is applied. *)
Definition initial_metadata (project_id name : string) (template : option string)
    (created_at : string) : json :=
  JObj [("id", JStr project_id);
        ("name", JStr name);
        ("template", match template with Some t => JStr t | None => JNull end);
        ("created_at", JStr created_at);
        ("status", JStr "initialized");
        ("agents", JArr [])].

(** The template block of [create_project], up to its first log line:
    the metadata with the template's agents and stack. *)
Definition with_template (template : string) (metadata : json) : result json :=
  templates <- subscript config "templates" ;;
  template_config <- subscript templates template ;;
  agents <- get_of template_config "agents" (JArr []) ;;
  metadata <- setitem metadata "agents" agents ;;
  stack <- get_of template_config "default_stack" (JStr "custom") ;;
  setitem metadata "stack" stack.

(** [create_project(name, template)]; [created_at] is
    [datetime.now().isoformat()]. *)
Definition create_project (name : string) (template : option string)
    (created_at : string) (h : hub) : result json * hub :=
  let project_id := replace " " "_" (lower name) in
  if exists_entry project_id h then
    (Raise (ClickException ("Project '" ++ name ++ "' already exists")), h)
  else
    let h := with_projects h (entries_of h ++ [Directory project_id None []])%list in
    let metadata := initial_metadata project_id name template created_at in
    let save (metadata : json) (h : hub) :=
      (Ok metadata,
       with_projects h (fill_directory project_id metadata (entries_of h))) in
    match template_known template with
    | Raise e => (Raise e, h)
    | Ok false => save metadata h
    | Ok true =>
        let t := match template with Some t => t | None => "" end in
        match with_template t metadata with
        | Raise e => (Raise e, h)
        | Ok metadata =>
            let h := with_log h ("Applied template '" ++ t ++ "' to project '"
                                 ++ name ++ "'") in
            match (agents <- subscript metadata "agents" ;;
                   join_with ", " agents) with
            | Raise e => (Raise e, h)
            | Ok listed =>
                save metadata (with_log h ("Assigned agents: " ++ listed))
            end
        end
    end.

(** [assign_agent(task, project, agent)]; [stamp] is
    [datetime.now().strftime('%Y%m%d_%H%M%S')] and [created_at] is
    [datetime.now().isoformat()]. *)
Definition assign_agent (task project agent stamp created_at : string) (h : hub)
  : result json * hub :=
  if negb (exists_entry project h) then
    (Raise (ClickException ("Project '" ++ project ++ "' not found")), h)
  else
    match (agents <- get_of config "agents" (JObj []) ;; str_in agent agents) with
    | Raise e => (Raise e, h)
    | Ok false => (Raise (ClickException ("Agent '" ++ agent ++ "' not found")), h)
    | Ok true =>
        let task_id := "task_" ++ stamp in
        let assignment :=
          assignment_record task_id task project agent created_at in
        let shared_file := project ++ "_" ++ task_id ++ ".json" in
        (Ok assignment,
         with_log (with_shared h shared_file assignment)
           ("Assigned task '" ++ task ++ "' to " ++ agent ++ " for project "
            ++ project))
    end.

(** The loop of [get_status]. *)
Fixpoint status_of_entries (show_all : bool) (entries : list entry)
    (projects : list json) : result (list json) :=
  match entries with
  | [] => Ok projects
  | Directory _ (Some c) _ :: rest =>
      metadata <- load c ;;
      keep <- (if show_all then Ok true
               else
                 status <- subscript metadata "status" ;;
                 Ok (negb (py_eq status (JStr "completed")))) ;;
      status_of_entries show_all rest
        (if keep then projects ++ [metadata] else projects)%list
  | _ :: rest => status_of_entries show_all rest projects
  end.

(** [get_status(show_all)]; it changes nothing. *)
Definition get_status (show_all : bool) (h : hub) : result (list json) :=
  status_of_entries show_all (entries_of h) [].

(** What a command printed on the standard error: "Error: " and the text
    of the exception. *)
Definition complaint : Type := option exn.

(** The command [new]: the lines follow signs that are left out here. *)
Definition new (name : string) (template : option string) (created_at : string)
    (h : hub) : complaint * hub :=
  match create_project name template created_at h with
  | (Raise e, h) => (Some e, h)
  | (Ok project, h) =>
      match subscript project "id" with
      | Raise e => (Some e, h)
      | Ok id =>
          let h := with_echo h ("Created project '" ++ name ++ "' ["
                                ++ match id with JStr s => s | _ => "" end ++ "]") in
          match template with
          | None => (None, h)
          | Some t =>
              if String.eqb t "" then (None, h)
              else
                let h := with_echo h ("Applied template: " ++ t) in
                match (agents <- subscript project "agents" ;;
                       join_with ", " agents) with
                | Raise e => (Some e, h)
                | Ok listed => (None, with_echo h ("Assigned agents: " ++ listed))
                end
          end
      end
  end.
End Controller.

(** A hub with its projects directory, still empty. *)
Definition fresh : hub :=
  {| projects := Some []; shared_context := []; log := []; echoed := [] |}.

(** A configuration with one template whose agents are not text. *)
Definition numbered_agents : json :=
  JObj [("templates", JObj [("crew", JObj [("agents", JArr [JInt 1; JInt 2])])])].
End V1.

(** ** [demo_status.py]: the figures of the demonstration script *)

Module Demo.
(** [len([p for p in projects if p.get('status') not in ['archived']])] *)
Definition count_active (found : list json) : result Z :=
  for_each (fun n p =>
              status <- get_of p "status" JNull ;;
              Ok (if negb (in_list status [JStr "archived"]) then n + 1 else n))
           found 0.

(** The revenue loop of [show_empire_status]. *)
Definition revenue_step (total_revenue : number) (project : json) : result number :=
  metrics <- get_of project "metrics" (JObj []) ;;
  revenue_str <- get_of metrics "revenue" (JStr "$0") ;;
  if truthy revenue_str then
    match revenue_str with
    | JStr s =>
        if startswith "$" s then
          match float_of_string (replace "," "" (replace "$" "" s)) with
          | Some revenue => number_add total_revenue (NFloat revenue)
          | None => Ok total_revenue
          end
        else Ok total_revenue
    | _ => Raise AttributeError
    end
  else Ok total_revenue.

(** The three figures [show_empire_status] prints: total projects, active
    projects, total revenue; none when there is no project. *)
Definition figures (found : list json) : result (option (Z * Z * number)) :=
  match found with
  | [] => Ok None
  | _ =>
      active_projects <- count_active found ;;
      total_revenue <- for_each revenue_step found (NInt 0) ;;
      Ok (Some (len found, active_projects, total_revenue))
  end.
End Demo.

(** A project whose work is done. *)
Definition completed (p : json) : bool :=
  in_list (default_of JNull (field "status" p)) [JStr "completed"].


(** * Properties *)

(** ** Results *)

Lemma bind_Ok {A B : Type} (m : result A) (k : A -> result B) (b : B) :
  bind m k = Ok b -> exists a, m = Ok a /\ k a = Ok b.
Proof.
  destruct m as [a | e]; simpl; intros E; [eauto | discriminate].
Qed.

(** ** The order of strings *)

Lemma ascii_compare_refl (c : ascii) : Ascii.compare c c = Eq.
Proof. unfold Ascii.compare. apply N.compare_refl. Qed.

Lemma ascii_compare_trans (a b c : ascii) :
  Ascii.compare a b = Lt -> Ascii.compare b c = Lt -> Ascii.compare a c = Lt.
Proof.
  unfold Ascii.compare. rewrite !N.compare_lt_iff. apply N.lt_trans.
Qed.

Lemma string_compare_refl (s : string) : String.compare s s = Eq.
Proof.
  induction s as [| c s IH]; simpl; [reflexivity |].
  rewrite ascii_compare_refl. exact IH.
Qed.

Lemma string_compare_trans (s t u : string) :
  String.compare s t = Lt -> String.compare t u = Lt -> String.compare s u = Lt.
Proof.
  revert t u; induction s as [| a s IH]; intros [| b t] [| c u]; simpl;
    try discriminate; auto.
  destruct (Ascii.compare a b) eqn:Eab; try discriminate.
  - apply Ascii.compare_eq_iff in Eab; subst b.
    destruct (Ascii.compare a c); try discriminate; eauto.
  - intros _. destruct (Ascii.compare b c) eqn:Ebc; try discriminate.
    + apply Ascii.compare_eq_iff in Ebc; subst c. now rewrite Eab.
    + now rewrite (ascii_compare_trans _ _ _ Eab Ebc).
Qed.

Lemma ltb_le (s t : string) : String.ltb s t = true -> string_le s t.
Proof.
  unfold string_le, String.ltb, String.leb. now destruct (String.compare s t).
Qed.

Lemma not_ltb_le (s t : string) : String.ltb s t = false -> string_le t s.
Proof.
  unfold string_le, String.ltb, String.leb. rewrite (String.compare_antisym s t).
  now destruct (String.compare t s).
Qed.

Lemma ltb_neq (s t : string) : String.ltb s t = true -> String.eqb s t = false.
Proof.
  unfold String.ltb. intros E. apply String.eqb_neq. intros ->.
  now rewrite string_compare_refl in E.
Qed.

Lemma string_le_trans (s t u : string) :
  string_le s t -> string_le t u -> string_le s u.
Proof.
  unfold string_le, String.leb. intros Hst Htu.
  destruct (String.compare s t) eqn:Est; try discriminate.
  - apply String.compare_eq_iff in Est; now subst t.
  - destruct (String.compare t u) eqn:Etu; try discriminate.
    + apply String.compare_eq_iff in Etu; subst u. now rewrite Est.
    + now rewrite (string_compare_trans _ _ _ Est Etu).
Qed.

(** ** Sorting by string keys *)

Section SortingFacts.
Variable A : Type.

Lemma key_le_trans (x y z : json * A) : @key_le A x y -> key_le y z -> key_le x z.
Proof. apply string_le_trans. Qed.

Lemma insert_keyed_strings (x : json * A) (l : list (json * A)) :
  string_keyed x -> Forall string_keyed l ->
  exists r, insert_keyed x l = Ok r
            /\ Permutation (x :: l) r
            /\ (StronglySorted key_le l -> StronglySorted key_le r)
            /\ (forall k, filter (same_key k) r = filter (same_key k) (x :: l)).
Proof.
  intros [s Hs] Hl. induction Hl as [| y l [t Ht] Hl IH].
  - exists [x]. simpl. repeat split; auto.
    intros _. constructor; constructor.
  - simpl. rewrite Ht, Hs. simpl.
    destruct (String.ltb t s) eqn:Elt.
    + destruct IH as (r & -> & Hperm & Hsorted & Hstable). simpl.
      assert (Hyx : key_le y x).
      { unfold key_le, key_text. rewrite Ht, Hs. now apply ltb_le. }
      exists (y :: r). repeat split.
      * rewrite perm_swap. now constructor.
      * intros Hs'. inversion Hs' as [| ? ? Hl' Hall]; subst.
        constructor; [auto |].
        apply (Permutation_Forall Hperm). now constructor.
      * intros k. simpl. rewrite Hstable. simpl.
        destruct (same_key k x) eqn:Ex; [| reflexivity].
        assert (Ey : same_key k y = false).
        { unfold same_key, key_text in *. rewrite Ht. rewrite Hs in Ex.
          apply String.eqb_eq in Ex. subst k. now apply ltb_neq. }
        now rewrite Ey.
    + assert (Hxy : key_le x y).
      { unfold key_le, key_text. rewrite Ht, Hs. now apply not_ltb_le. }
      exists (x :: y :: l). repeat split; auto.
      intros Hs'. constructor; [exact Hs' |].
      inversion Hs' as [| ? ? _ Hall]; subst.
      constructor; [exact Hxy |].
      eapply Forall_impl; [| exact Hall].
      intros z. now apply key_le_trans.
Qed.

Lemma sort_keyed_strings (l : list (json * A)) :
  Forall string_keyed l ->
  exists r, sort_keyed l = Ok r
            /\ Permutation l r
            /\ StronglySorted key_le r
            /\ (forall k, filter (same_key k) r = filter (same_key k) l).
Proof.
  induction 1 as [| x l Hx Hl (r & Er & Hperm & Hsorted & Hstable)]; simpl.
  - exists []. repeat split; auto. constructor.
  - rewrite Er. simpl.
    assert (Hr : Forall string_keyed r) by exact (Permutation_Forall Hperm Hl).
    destruct (insert_keyed_strings Hx Hr) as (r' & Er' & Hperm' & Hsorted' & Hstable').
    exists r'. repeat split; auto.
    + now rewrite <- Hperm', Hperm.
    + intros k. rewrite Hstable'. simpl. now rewrite Hstable.
Qed.
End SortingFacts.

Section SortedFacts.
Variable A : Type.
Variable key : A -> result json.
Variable text : A -> string.

Lemma with_keys_text (l : list A) :
  Forall (fun a => key a = Ok (JStr (text a))) l ->
  with_keys key l = Ok (map (fun a => (JStr (text a), a)) l).
Proof.
  induction 1 as [| a l Ha _ IH]; simpl; [reflexivity |].
  now rewrite Ha, IH.
Qed.

Lemma keyed_sorted (r : list (json * A)) :
  Forall (keyed_by_text text) r -> StronglySorted (@key_le A) r ->
  StronglySorted (text_le text) (map snd r).
Proof.
  intros Hk Hs. induction Hs as [| x r Hs IH Hall]; simpl; constructor.
  - apply IH. now inversion Hk.
  - inversion Hk as [| ? ? Hx Hr]; subst.
    rewrite Forall_map. rewrite Forall_forall in *.
    intros y Hy. specialize (Hall y Hy). specialize (Hr y Hy).
    unfold key_le, key_text, keyed_by_text, text_le in *.
    now rewrite Hx, Hr in Hall.
Qed.

Lemma keyed_filter (k : string) (r : list (json * A)) :
  Forall (keyed_by_text text) r ->
  map snd (filter (@same_key A k) r) = filter (has_text text k) (map snd r).
Proof.
  induction 1 as [| x r Hx _ IH]; simpl; [reflexivity |].
  unfold same_key at 1, key_text, has_text at 1. rewrite Hx.
  destruct (String.eqb (text (snd x)) k); simpl; now rewrite IH.
Qed.

(** On items whose keys are all strings, [sorted] returns: the result is
    a permutation of the input, ascending by key, and items of equal
    key keep their order. *)
Lemma sorted_by_text (l : list A) :
  Forall (fun a => key a = Ok (JStr (text a))) l ->
  exists r, sorted key l = Ok r
            /\ Permutation l r
            /\ StronglySorted (text_le text) r
            /\ (forall k, filter (has_text text k) r = filter (has_text text k) l).
Proof.
  intros Hl. unfold sorted. rewrite (with_keys_text Hl). simpl.
  set (keyed := map (fun a => (JStr (text a), a)) l).
  assert (Hkeyed : Forall (keyed_by_text text) keyed).
  { unfold keyed. rewrite Forall_map. apply Forall_forall. now intros a _. }
  assert (Hstr : Forall (@string_keyed A) keyed).
  { eapply Forall_impl; [| exact Hkeyed]. intros x Hx. now exists (text (snd x)). }
  assert (Hsnd : map snd keyed = l).
  { unfold keyed. rewrite map_map. simpl. apply map_id. }
  destruct (sort_keyed_strings Hstr) as (r & -> & Hperm & Hsorted & Hstable).
  simpl. exists (map snd r).
  assert (Hr : Forall (keyed_by_text text) r) by exact (Permutation_Forall Hperm Hkeyed).
  repeat split.
  - rewrite <- Hsnd. now apply Permutation_map.
  - now apply keyed_sorted.
  - intros k. rewrite <- (keyed_filter k Hr), Hstable, (keyed_filter k Hkeyed).
    now rewrite Hsnd.
Qed.
End SortedFacts.

(** ** Discovery *)

Lemma assoc_set_other (k k' : string) (v : json) (m : list (string * json)) :
  k <> k' -> assoc k (assoc_set k' v m) = assoc k m.
Proof.
  intros Hk. induction m as [| [k0 v0] m IH]; simpl.
  - apply String.eqb_neq in Hk. now rewrite Hk.
  - destruct (String.eqb k' k0) eqn:E; simpl.
    + apply String.eqb_eq in E; subst k0.
      apply String.eqb_neq in Hk. now rewrite Hk.
    + now rewrite IH.
Qed.

Lemma with_log_nil (h : hub) : with_log h [] = h.
Proof. destruct h; unfold with_log; simpl. now rewrite app_nil_r. Qed.

Section DiscoveryFacts.
Context `{Library}.
Variable self : FoundryOS.

Lemma load_manifest_accepted (f : file) :
  accepted self f = true -> load_manifest self f = Ok (manifest_of self f).
Proof.
  unfold accepted, load_manifest, manifest_of.
  destruct (data f) as [| | [| | | | | |m]]; try discriminate. simpl.
  destruct (check_schema self (JObj m)); [reflexivity | discriminate].
Qed.

Lemma load_manifest_rejected (f : file) :
  accepted self f = false ->
  exists e, load_manifest self f = Raise e /\ diagnostic self f e = rejection self f.
Proof.
  unfold accepted, load_manifest, rejection.
  destruct (data f) as [| | d]; simpl.
  - now exists OSError.
  - now exists JSONDecodeError.
  - intros Hacc.
    destruct (check_schema self d) as [[] | e] eqn:E.
    + destruct d; try (rewrite E in Hacc; discriminate Hacc);
        now exists TypeError.
    + now exists e.
Qed.

Lemma scan_eq (files : list file) :
  scan self files =
    (map (manifest_of self) (filter (accepted self) files),
     map (rejection self) (filter (fun f => negb (accepted self f)) files)).
Proof.
  induction files as [| f files IH]; simpl; [reflexivity |].
  rewrite IH. destruct (accepted self f) eqn:E; simpl.
  - now rewrite (load_manifest_accepted _ E).
  - destruct (load_manifest_rejected _ E) as (e & -> & <-). reflexivity.
Qed.

(** Discovery sorts what the scan kept and logs one line for every file
    the scan left out. *)
Lemma discover_projects_eq (h : hub) :
  discover_projects self h =
    (sorted name_key (kept self h), with_log h (diagnostics self h)).
Proof.
  unfold discover_projects, kept, diagnostics, listing.
  destruct (projects h) as [files |].
  - now rewrite scan_eq.
  - simpl. now rewrite with_log_nil.
Qed.

Lemma project_name_manifest_of (f : file) :
  accepted self f = true -> text_named f = true ->
  name_key (manifest_of self f) = Ok (JStr (project_name (manifest_of self f))).
Proof.
  unfold accepted, text_named, manifest_of, name_key, project_name.
  destruct (data f) as [| | [| | | | | |m]]; try discriminate.
  intros _. simpl. rewrite !assoc_set_other by discriminate.
  destruct (assoc "projectName" m) as [[] |]; try discriminate; reflexivity.
Qed.
End DiscoveryFacts.

Lemma len_Permutation {A : Type} (l l' : list A) : Permutation l l' -> len l = len l'.
Proof. intros P. unfold len. now rewrite (Permutation_length P). Qed.

Section DiscoveryResults.
Context `{Library}.
Variable self : FoundryOS.

(** When every kept manifest has a string or no [projectName],
    discovery returns. *)
Lemma discover_projects_returns (h : hub) :
  forallb text_named (filter (accepted self) (listing h)) = true ->
  exists found,
    discover_projects self h = (Ok found, with_log h (diagnostics self h))
    /\ Permutation (kept self h) found
    /\ StronglySorted (text_le project_name) found
    /\ (forall k, filter (has_text project_name k) found
                  = filter (has_text project_name k) (kept self h)).
Proof.
  intros Hn. rewrite discover_projects_eq.
  assert (Hk : Forall (fun p => name_key p = Ok (JStr (project_name p)))
                 (kept self h)).
  { rewrite forallb_forall in Hn. unfold kept. rewrite Forall_map.
    apply Forall_forall. intros f Hf.
    apply project_name_manifest_of; [| now apply Hn].
    now apply filter_In in Hf. }
  destruct (@sorted_by_text json name_key project_name _ Hk)
    as (found & -> & Hperm & Hsorted & Hstable).
  now exists found.
Qed.
End DiscoveryResults.

(** C8. The list discovery returns is sorted by [projectName] in ascending
    order of the strings' characters (case-sensitive, so capitals come
    first), it holds exactly the kept manifests, and manifests of equal
    name keep the order the scan met them in (the sort is stable).  The
    names are strings or absent, as the data model has them. *)
Theorem discover_projects_sorted `{Library} (self : FoundryOS) (h : hub) :
  forallb text_named (filter (accepted self) (listing h)) = true ->
  exists found,
    fst (discover_projects self h) = Ok found
    /\ Permutation (kept self h) found
    /\ StronglySorted (fun p q => String.leb (project_name p) (project_name q) = true)
         found
    /\ (forall k, filter (fun p => String.eqb (project_name p) k) found
                  = filter (fun p => String.eqb (project_name p) k) (kept self h)).
Proof.
  intros Hn.
  destruct (discover_projects_returns self h Hn) as (found & E & Hp & Hs & Hst).
  exists found. rewrite E. auto.
Qed.

Lemma discover_projects_sorted_witness :
  exists found,
    fst (discover_projects plain_foundry zeta_alpha_beta) = Ok found
    /\ Permutation (kept plain_foundry zeta_alpha_beta) found
    /\ StronglySorted (fun p q => String.leb (project_name p) (project_name q) = true)
         found
    /\ (forall k, filter (fun p => String.eqb (project_name p) k) found
                  = filter (fun p => String.eqb (project_name p) k)
                      (kept plain_foundry zeta_alpha_beta)).
Proof.
  apply (discover_projects_sorted plain_foundry zeta_alpha_beta).
  vm_compute. reflexivity.
Defined.

(** The specification's example: "Zeta", "alpha", "Beta" come back as
    "Beta", "Zeta", "alpha". *)
Example discover_zeta_alpha_beta :
  match fst (discover_projects plain_foundry zeta_alpha_beta) with
  | Ok found => map project_name found = ["Beta"; "Zeta"; "alpha"]
  | Raise _ => False
  end.
Proof. vm_compute. reflexivity. Qed.

(** An uppercase letter sorts before a lowercase one, whatever follows. *)
Lemma capital_sorts_before_lowercase (u l : ascii) (s t : string) :
  is_upper u = true ->
  (97 <=? nat_of_ascii l)%nat = true ->
  String.ltb (String u s) (String l t) = true.
Proof.
  unfold is_upper, String.ltb. cbn [String.compare]. intros Hu Hl.
  apply andb_prop in Hu as [_ Hu].
  apply Nat.leb_le in Hu, Hl.
  assert (Hc : Ascii.compare u l = Lt).
  { unfold Ascii.compare. apply N.compare_lt_iff.
    unfold nat_of_ascii in *. lia. }
  now rewrite Hc.
Qed.

(** The sort is outside the [try]: names of different types cannot be
    compared, and the [TypeError] leaves [discover_projects]. *)
Example discover_mixed_names_raises :
  fst (discover_projects plain_foundry number_and_text_names) = Raise TypeError.
Proof. reflexivity. Qed.

(** ** Lookup by name *)




Lemma first_named_find `{Library} (self : FoundryOS) (q : string) (found : list json) :
  Forall (fun p => name_key p = Ok (JStr (project_name p))) found ->
  first_named q found = Ok (find (named_like q) found).
Proof.
  induction 1 as [| p found Hp _ IH]; simpl; [reflexivity |].
  unfold name_key in Hp. rewrite Hp. simpl. unfold named_like at 1.
  destruct (String.eqb (lower (project_name p)) (lower q)); auto.
Qed.



Section LookupResults.
Context `{Library}.
Variable self : FoundryOS.

Lemma find_project_eq (q : string) (h : hub) (found : list json) (h' : hub) :
  discover_projects self h = (Ok found, h') ->
  find_project self q h = (first_named q found, h').
Proof. intros E. unfold find_project, and_then, lift. now rewrite E. Qed.

(** Under the naming condition, lookup returns the first manifest, in
    the order the scan met them, whose lowercased name is the lowercased
    query. *)
Lemma find_project_returns (q : string) (h : hub) :
  forallb text_named (filter (accepted self) (listing h)) = true ->
  exists found,
    discover_projects self h = (Ok found, with_log h (diagnostics self h))
    /\ find_project self q h
       = (Ok (find (named_like q) found), with_log h (diagnostics self h))
    /\ Forall (fun p => name_key p = Ok (JStr (project_name p))) found.
Proof.
  intros Hn.
  destruct (discover_projects_returns self h Hn) as (found & E & Hp & _ & _).
  exists found. split; [exact E |].
  assert (Hk : Forall (fun p => name_key p = Ok (JStr (project_name p))) found).
  { apply (Permutation_Forall Hp). unfold kept. rewrite Forall_map.
    rewrite forallb_forall in Hn.
    apply Forall_forall. intros f Hf.
    apply project_name_manifest_of; [| now apply Hn].
    now apply filter_In in Hf. }
  split; [| exact Hk].
  rewrite (@find_project_eq q h found _ E). now rewrite (first_named_find self q Hk).
Qed.
End LookupResults.

(** C2, as the code has it.  When every kept manifest has a string or no
    [projectName], discovery returns, and the number of manifests it
    returns is the number of files matching [*.json] that hold a JSON
    object and pass the schema check when a schema is configured.  Every
    other matching file is left out and has its own line in the log, in
    file order: [InvalidJSON] for a parse error, [InvalidSchema] for a
    schema violation, [FailedToLoad] for a file that cannot be read or a
    document that is not an object.  The result is the same for every
    store with the same kept files, so a file that is left out changes
    nothing. *)
Theorem discover_projects_counts_kept `{Library} (self : FoundryOS) (h : hub) :
  forallb text_named (filter (accepted self) (listing h)) = true ->
  exists found,
    discover_projects self h = (Ok found, with_log h (diagnostics self h))
    /\ len found = len (filter (accepted self) (listing h))
    /\ Permutation (kept self h) found
    /\ diagnostics self h
       = map (rejection self) (filter (fun f => negb (accepted self f)) (listing h))
    /\ (forall f, data f = Malformed -> rejection self f = InvalidJSON (path_of self f))
    /\ (forall f d, data f = Document d ->
                    check_schema self d = Raise ValidationError ->
                    rejection self f = InvalidSchema (path_of self f))
    /\ (forall f, data f = Unreadable \/
                  (exists d, data f = Document d /\ check_schema self d = Ok tt) ->
                  accepted self f = false ->
                  rejection self f = FailedToLoad (path_of self f))
    /\ (forall h', filter (accepted self) (listing h')
                   = filter (accepted self) (listing h) ->
                   fst (discover_projects self h') = Ok found).
Proof.
  intros Hn.
  destruct (discover_projects_returns self h Hn) as (found & E & Hp & _ & _).
  exists found. repeat split; auto.
  - rewrite <- (len_Permutation Hp). unfold kept, len. now rewrite length_map.
  - intros f Hf. unfold rejection. now rewrite Hf.
  - intros f d Hf Hd. unfold rejection. now rewrite Hf, Hd.
  - intros f [Hf | (d & Hf & Hd)] Ha; unfold rejection; rewrite Hf; auto.
    now rewrite Hd.
  - intros h' Hh'. rewrite discover_projects_eq. simpl.
    rewrite discover_projects_eq in E. unfold kept in *. rewrite Hh'.
    now injection E.
Qed.

Lemma discover_projects_counts_kept_witness :
  exists found,
    discover_projects strict_foundry mixed_store
    = (Ok found, with_log mixed_store (diagnostics strict_foundry mixed_store))
    /\ len found = 1
    /\ diagnostics strict_foundry mixed_store
       = [InvalidJSON "/home/u/ai-empire-hub/projects/torn.json";
          InvalidSchema "/home/u/ai-empire-hub/projects/nameless.json";
          FailedToLoad "/home/u/ai-empire-hub/projects/list.json";
          FailedToLoad "/home/u/ai-empire-hub/projects/locked.json"].
Proof.
  assert (Hn : forallb text_named
                 (filter (accepted strict_foundry) (listing mixed_store)) = true)
    by (vm_compute; reflexivity).
  destruct (discover_projects_counts_kept strict_foundry mixed_store Hn)
    as (found & E & Hlen & _).
  exists found. repeat split; [exact E | exact Hlen].
Defined.

(** A file holding a JSON array parses as valid JSON, and no schema is
    configured, yet it is not counted: [total_projects] is 0. *)
Lemma discover_projects_skips_array :
  len (filter (parses_and_validates plain_foundry) (listing array_store)) = 1
  /\ match fst (get_empire_status plain_foundry array_store) with
     | Ok s => Status.total_projects s = 0
     | Raise _ => False
     end
  /\ log (snd (get_empire_status plain_foundry array_store))
     = [FailedToLoad "/home/u/ai-empire-hub/projects/list.json"].
Proof. vm_compute. auto. Qed.




(** ** What discovery returns, whatever the names *)

Section SortShape.
Variable A : Type.

Lemma insert_keyed_Permutation (x : json * A) (l r : list (json * A)) :
  insert_keyed x l = Ok r -> Permutation (x :: l) r.
Proof.
  revert r. induction l as [| y l IH]; simpl; intros r E.
  - injection E as <-. reflexivity.
  - destruct (py_lt (fst y) (fst x)) as [[|] |]; try discriminate.
    + apply bind_Ok in E as (r' & E' & E''). injection E'' as <-.
      rewrite perm_swap. constructor. now apply IH.
    + injection E as <-. reflexivity.
Qed.

Lemma sort_keyed_Permutation (l r : list (json * A)) :
  sort_keyed l = Ok r -> Permutation l r.
Proof.
  revert r. induction l as [| x l IH]; simpl; intros r E.
  - injection E as <-. reflexivity.
  - apply bind_Ok in E as (r' & E' & E'').
    apply insert_keyed_Permutation in E''.
    rewrite <- E''. constructor. now apply IH.
Qed.

Lemma with_keys_snd (key : A -> result json) (l : list A) (k : list (json * A)) :
  with_keys key l = Ok k -> map snd k = l.
Proof.
  revert k. induction l as [| x l IH]; simpl; intros k E.
  - now injection E as <-.
  - apply bind_Ok in E as (kx & _ & E). apply bind_Ok in E as (r & E' & E).
    injection E as <-. simpl. f_equal. now apply IH.
Qed.

Lemma sorted_Permutation (key : A -> result json) (l r : list A) :
  sorted key l = Ok r -> Permutation l r.
Proof.
  unfold sorted. intros E.
  apply bind_Ok in E as (k & Ek & E). apply bind_Ok in E as (r' & Er & E).
  injection E as <-. rewrite <- (with_keys_snd _ _ Ek).
  apply Permutation_map. now apply sort_keyed_Permutation.
Qed.
End SortShape.

Lemma assoc_set_nonempty (k : string) (v : json) (m : list (string * json)) :
  assoc_set k v m <> [].
Proof.
  destruct m as [| [k' v'] m]; simpl; [discriminate |].
  destruct (String.eqb k k'); discriminate.
Qed.

Section DiscoveryShape.
Context `{Library}.
Variable self : FoundryOS.

Lemma discover_projects_members (h : hub) (found : list json) :
  fst (discover_projects self h) = Ok found -> Permutation (kept self h) found.
Proof.
  rewrite discover_projects_eq. simpl. apply sorted_Permutation.
Qed.

Lemma kept_truthy (h : hub) (p : json) : In p (kept self h) -> truthy p = true.
Proof.
  unfold kept. intros Hp. apply in_map_iff in Hp as (f & <- & Hf).
  apply filter_In in Hf as [_ Hf]. unfold accepted, manifest_of in *.
  destruct (data f) as [| | [| | | | | |m]]; try discriminate. simpl.
  destruct (assoc_set "_last_modified" (JStr (modified f))
              (assoc_set "_manifest_file" (JStr (path_of self f)) m)) eqn:E;
    [| reflexivity].
  now apply assoc_set_nonempty in E.
Qed.

Lemma first_named_In (q : string) (found : list json) (p : json) :
  first_named q found = Ok (Some p) -> In p found.
Proof.
  induction found as [| x found IH]; simpl; [discriminate |].
  intros E. apply bind_Ok in E as (n & _ & E). apply bind_Ok in E as (l & _ & E).
  destruct (String.eqb l (lower q)).
  - injection E as <-. now left.
  - right. now apply IH.
Qed.

Lemma find_project_log (q : string) (h : hub) :
  snd (find_project self q h) = with_log h (diagnostics self h).
Proof.
  unfold find_project, and_then, lift. rewrite discover_projects_eq.
  now destruct (sorted name_key (kept self h)).
Qed.

Lemma find_project_truthy (q : string) (h : hub) (p : json) :
  fst (find_project self q h) = Ok (Some p) -> truthy p = true.
Proof.
  unfold find_project, and_then, lift.
  destruct (discover_projects self h) as [[found | e] h'] eqn:E; simpl;
    [| discriminate].
  intros Hp. apply first_named_In in Hp.
  apply (kept_truthy h).
  assert (Hperm : Permutation (kept self h) found).
  { apply discover_projects_members. now rewrite E. }
  exact (Permutation_in _ (Permutation_sym Hperm) Hp).
Qed.
End DiscoveryShape.

(** ** Task assignment *)

Lemma assoc_set_same (k : string) (v : json) (m : list (string * json)) :
  assoc k (assoc_set k v m) = Some v.
Proof.
  induction m as [| [k' v'] m IH]; simpl.
  - now rewrite String.eqb_refl.
  - destruct (String.eqb k k') eqn:E; simpl; now rewrite E.
Qed.

Lemma str_in_container (x : string) (c : json) :
  is_container c = true -> exists b, str_in x c = Ok b.
Proof. destruct c; try discriminate; simpl; eauto. Qed.



(** A query for a project that is not in the store: nothing is written. *)
Example assign_task_unknown_project :
  let outcome :=
    assign_task plain_foundry "Ship it" "Gamma" "bob" "20240102_030405"
      "2024-01-02T03:04:05" acme_and_beta in
  fst outcome = Raise (ClickException "Project 'Gamma' not found")
  /\ shared_context (snd outcome) = []
  /\ projects (snd outcome) = projects acme_and_beta.
Proof. vm_compute. auto. Qed.

(** ** Loops *)

Lemma for_each_fold {A S : Type} (body : S -> A -> result S) (g : S -> A -> S)
    (P : A -> Prop) (I : S -> Prop) (l : list A) (s : S) :
  (forall s x, P x -> I s -> body s x = Ok (g s x) /\ I (g s x)) ->
  Forall P l -> I s ->
  for_each body l s = Ok (fold_left g l s) /\ I (fold_left g l s).
Proof.
  intros Hbody Hl. revert s. induction Hl as [| x l Hx _ IH]; intros s Hs; simpl.
  - auto.
  - destruct (Hbody s x Hx Hs) as [-> Hs']. simpl. now apply IH.
Qed.

Lemma for_each_returns {A S : Type} (body : S -> A -> result S)
    (P : A -> Prop) (l : list A) (s : S) :
  (forall s x, P x -> exists s', body s x = Ok s') ->
  Forall P l -> exists s', for_each body l s = Ok s'.
Proof.
  intros Hbody Hl. revert s. induction Hl as [| x l Hx _ IH]; intros s; simpl.
  - eauto.
  - destruct (Hbody s x Hx) as [s' ->]. simpl. apply IH.
Qed.

(** ** Revenue *)

Section RevenueFacts.
Context `{Library}.

(** [parse_revenue] raises for nothing but an integer that is too large
    for a float. *)
Lemma parse_revenue_returns (v : json) :
  typed_revenue v = true -> exists r, parse_revenue v = Ok r.
Proof.
  unfold parse_revenue. destruct (truthy v); simpl; [| eauto].
  destruct v as [| b | z | f | s | l | m]; simpl.
  - destruct (strip_non_revenue (repr JNull) =? "")%string; eauto.
    destruct (float_of_string _); eauto.
  - destruct b; vm_compute; eauto.
  - destruct (float_of_int z); [eauto | discriminate].
  - eauto.
  - destruct (strip_non_revenue s =? "")%string; eauto.
    destruct (float_of_string _); eauto.
  - destruct (strip_non_revenue (repr (JArr l)) =? "")%string; eauto.
    destruct (float_of_string _); eauto.
  - destruct (strip_non_revenue (repr (JObj m)) =? "")%string; eauto.
    destruct (float_of_string _); eauto.
Qed.

(** A string is stripped of what is not a digit, a dot or a minus sign,
    and the rest is given to [float]; what [float] refuses is [0.0]. *)
Lemma parse_revenue_text (s : string) :
  parse_revenue (JStr s)
  = Ok match float_of_string (strip_non_revenue s) with
       | Some r => r
       | None => 0%float
       end.
Proof.
  unfold parse_revenue. simpl.
  destruct (String.eqb_spec s "") as [-> | Hs]; simpl; [reflexivity |].
  destruct (String.eqb_spec (strip_non_revenue s) "") as [-> | Hc];
    [reflexivity |].
  now destruct (float_of_string (strip_non_revenue s)).
Qed.

Lemma typed_metrics_shape (m : list (string * json)) :
  absent_or typed_metrics (assoc "metrics" m) = true ->
  exists mm, default_of (JObj []) (assoc "metrics" m) = JObj mm
             /\ absent_or typed_revenue (assoc "revenue" mm) = true
             /\ absent_or is_text (assoc "startDate" mm) = true.
Proof.
  destruct (assoc "metrics" m) as [v |]; simpl.
  - destruct v as [| | | | | |mm]; try discriminate. simpl.
    intros Hm. apply andb_prop in Hm as [Hr Hd]. now exists mm.
  - intros _. now exists [].
Qed.

Lemma typed_revenue_default (mm : list (string * json)) :
  absent_or typed_revenue (assoc "revenue" mm) = true ->
  typed_revenue (default_of (JInt 0) (assoc "revenue" mm)) = true.
Proof. now destruct (assoc "revenue" mm). Qed.

Lemma revenue_step_typed (acc : number * list json) (p : json) :
  typed_manifest p = true -> not_yet_or_float (fst acc) ->
  revenue_step acc p = Ok (revenue_next acc p)
  /\ not_yet_or_float (fst (revenue_next acc p)).
Proof.
  intros Hp Hacc. split; [| right; simpl; eauto].
  destruct acc as [t rs]. destruct p as [| | | | | |m]; try discriminate.
  simpl in Hp. apply andb_prop in Hp as [Hp _]. apply andb_prop in Hp as [_ Hm].
  destruct (typed_metrics_shape m Hm) as (mm & Emm & Hr & _).
  unfold revenue_step, revenue_next, earns, revenue_entry, revenue_of.
  cbn [field fst snd get_of bind].
  fold (default_of (JObj []) (assoc "metrics" m)). rewrite Emm.
  cbn [field get_of bind].
  fold (default_of (JInt 0) (assoc "revenue" mm)).
  destruct (parse_revenue_returns _ (typed_revenue_default mm Hr)) as (r & ->).
  cbn [bind].
  assert (Eadd : number_add t (NFloat r) = Ok (NFloat (running_total t + r)%float)).
  { simpl in Hacc. destruct Hacc as [-> | (f & ->)]; reflexivity. }
  rewrite Eadd. cbn [bind].
  destruct (PrimFloat.ltb 0 r); [| now rewrite app_nil_r].
  unfold revenue_record. cbn [get_of bind].
  reflexivity.
Qed.

Lemma revenue_fold (l : list json) (acc : number * list json) :
  fold_left revenue_next l acc
  = (match l with
     | [] => fst acc
     | _ => NFloat (fold_left PrimFloat.add (map revenue_of l)
                      (running_total (fst acc)))
     end,
     (snd acc ++ map revenue_entry (filter earns l))%list).
Proof.
  revert acc. induction l as [| p l IH]; intros acc; cbn [fold_left map filter].
  - rewrite app_nil_r. now destruct acc.
  - rewrite IH. unfold revenue_next. cbn [fst snd running_total].
    f_equal.
    + now destruct l.
    + rewrite <- app_assoc. f_equal. now destruct (earns p).
Qed.

(** The revenue loop on typed manifests. *)
Lemma revenue_loop_typed (found : list json) :
  forallb typed_manifest found = true ->
  for_each revenue_step found (NInt 0, [])
  = Ok (float_sum (map revenue_of found), map revenue_entry (filter earns found)).
Proof.
  intros Hf.
  assert (Hall : Forall (fun p => typed_manifest p = true) found).
  { apply Forall_forall. now apply forallb_forall. }
  destruct (@for_each_fold _ _ revenue_step revenue_next
              (fun p => typed_manifest p = true)
              (fun acc => not_yet_or_float (fst acc))
              found (NInt 0, [])
              (fun s x Hx Hs => revenue_step_typed s x Hx Hs) Hall)
    as [-> _]; [now left |].
  rewrite revenue_fold. unfold float_sum. simpl. now destruct found.
Qed.
End RevenueFacts.

(** ** Counters *)

Lemma py_eq_text (k : json) (a : string) :
  py_eq k (JStr a) = match k with JStr b => String.eqb b a | _ => false end.
Proof. now destruct k as [| [|] | | | | |]. Qed.

Lemma increment_text (c : counter) (k : json) :
  is_text k = true -> increment c k = Ok (incremented c k).
Proof. now destruct k. Qed.

Lemma count_of_count_set (a b : string) (n : Z) (c : counter) :
  count_of (JStr a) (count_set (JStr b) n c)
  = if String.eqb b a then Some n else count_of (JStr a) c.
Proof.
  induction c as [| [k n'] c IH]; simpl.
  - now destruct (String.eqb b a).
  - rewrite !py_eq_text.
    destruct k as [| | | | s | |]; simpl; try exact IH.
    destruct (String.eqb_spec s b) as [-> | Hsb]; simpl.
    + now destruct (String.eqb b a).
    + rewrite IH.
      destruct (String.eqb_spec s a) as [-> | Hsa]; [| reflexivity].
      destruct (String.eqb_spec b a) as [-> | _]; [contradiction | reflexivity].
Qed.

Lemma count_of_increments (a : string) (ks : list json) (c : counter) :
  forallb is_text ks = true ->
  count_of (JStr a) (fold_left incremented ks c)
  = let n := len (filter (fun x => py_eq x (JStr a)) ks) in
    if n =? 0 then count_of (JStr a) c
    else Some (count_or_zero (JStr a) c + n).
Proof.
  revert c. induction ks as [| k ks IH]; intros c Hks; [reflexivity |].
  simpl in Hks. apply andb_prop in Hks as [Hk Hks].
  destruct k as [| | | | b | |]; try discriminate.
  cbn [fold_left filter]. rewrite (IH _ Hks). cbv zeta.
  unfold incremented, count_or_zero. rewrite !count_of_count_set, py_eq_text.
  unfold len.
  destruct (String.eqb_spec b a) as [-> | Hba]; cbn [List.length].
  - replace (Z.of_nat (S (List.length (filter (fun x => py_eq x (JStr a)) ks))) =? 0)
      with false by (symmetry; apply Z.eqb_neq; lia).
    destruct (Z.of_nat (List.length (filter (fun x => py_eq x (JStr a)) ks)) =? 0)
      eqn:E.
    + apply Z.eqb_eq in E. f_equal. lia.
    + f_equal. lia.
  - reflexivity.
Qed.

(** ** The loops of the aggregation on typed manifests *)

Section AggregationFacts.
Context `{Library}.

Lemma is_active_object (m : list (string * json)) :
  is_active (JObj m) = Ok (active (JObj m)).
Proof. reflexivity. Qed.

Lemma typed_manifest_object (p : json) :
  typed_manifest p = true -> exists m, p = JObj m.
Proof. destruct p; try discriminate. eauto. Qed.

Lemma count_active_typed (found : list json) :
  forallb typed_manifest found = true ->
  count_active found = Ok (len (filter active found)).
Proof.
  intros Hf. unfold count_active.
  assert (Hgen : forall n, for_each
                   (fun n p => a <- is_active p ;; Ok (if a then n + 1 else n))
                   found n
                 = Ok (n + len (filter active found))).
  { induction found as [| p found IH]; intros n; simpl.
    - f_equal. unfold len. simpl. lia.
    - simpl in Hf. apply andb_prop in Hf as [Hp Hf].
      destruct (typed_manifest_object _ Hp) as (m & ->).
      rewrite is_active_object. cbn [bind]. rewrite (IH Hf).
      f_equal. destruct (active (JObj m)); unfold len; cbn [List.length]; lia. }
  now rewrite Hgen.
Qed.

Lemma status_loop_typed (found : list json) :
  forallb typed_manifest found = true ->
  exists status_counts, status_loop found = Ok status_counts.
Proof.
  intros Hf. unfold status_loop.
  apply for_each_returns with (P := fun p => typed_manifest p = true).
  - intros c p Hp. destruct p as [| | | | | |m]; try discriminate.
    simpl in Hp. apply andb_prop in Hp as [Hp _]. apply andb_prop in Hp as [Hp _].
    apply andb_prop in Hp as [Hs _].
    cbn [get_of bind]. destruct (assoc "status" m) as [v |]; simpl in Hs.
    + rewrite (increment_text _ _ Hs). eauto.
    + cbn. eauto.
  - apply Forall_forall. now apply forallb_forall.
Qed.

Lemma team_loop_typed (w : counter) (m : list (string * json)) :
  absent_or typed_members (assoc "team" m) = true ->
  team_loop w (JObj m) = Ok (fold_left incremented (team_of (JObj m)) w)
  /\ forallb is_text (team_of (JObj m)) = true.
Proof.
  unfold team_loop, team_of. cbn [get_of field bind].
  fold (default_of (JArr []) (assoc "team" m)).
  destruct (assoc "team" m) as [v |]; simpl; [| auto].
  destruct v as [| | | | | l |]; try discriminate. simpl. intros Hl.
  split; [| exact Hl].
  revert w. induction l as [| k l IH]; intros w; simpl; [reflexivity |].
  simpl in Hl. apply andb_prop in Hl as [Hk Hl].
  rewrite (increment_text _ _ Hk). simpl. now apply IH.
Qed.

Lemma task_loop_typed (d : counter) (m : list (string * json)) :
  absent_or typed_tasks (assoc "tasks" m) = true ->
  exists d', task_loop d (JObj m) = Ok d'.
Proof.
  unfold task_loop. cbn [get_of bind].
  destruct (assoc "tasks" m) as [v |]; simpl; [| eauto].
  destruct v as [| | | | | |t]; try discriminate. simpl.
  destruct (assoc "active" t) as [a |]; simpl; [| eauto].
  destruct a as [| | | | | l |]; try discriminate. simpl. intros Hl.
  apply for_each_returns with (P := fun task => typed_task task = true).
  - intros c task Ht. destruct task as [| | | | | |tm]; try discriminate.
    simpl in Ht. cbn [get_of bind].
    destruct (assoc "priority" tm) as [v |]; simpl in Ht.
    + rewrite (increment_text _ _ Ht). eauto.
    + cbn. eauto.
  - apply Forall_forall. now apply forallb_forall.
Qed.

Lemma workload_loop_typed (found : list json) (w d : counter) :
  forallb typed_manifest found = true ->
  exists d',
    for_each workload_step found (w, d)
    = Ok (fold_left incremented (listed_agents found) w, d').
Proof.
  revert w d. induction found as [| p found IH]; intros w d Hf; simpl.
  - eauto.
  - simpl in Hf. apply andb_prop in Hf as [Hp Hf].
    destruct p as [| | | | | |m]; try discriminate.
    simpl in Hp. apply andb_prop in Hp as [Hp Htasks].
    apply andb_prop in Hp as [Hp _]. apply andb_prop in Hp as [_ Hteam].
    unfold workload_step at 1. rewrite is_active_object. cbn [bind].
    unfold listed_agents. cbn [filter].
    destruct (active (JObj m)).
    + destruct (team_loop_typed w m Hteam) as [-> _]. cbn [bind].
      destruct (task_loop_typed d m Htasks) as (d1 & ->). cbn [bind].
      cbn [flat_map]. rewrite fold_left_app. apply IH, Hf.
    + cbn [bind]. apply IH, Hf.
Qed.

Lemma status_workload_loop_typed (found : list json) :
  forallb typed_manifest found = true ->
  status_workload_loop found = Ok (fold_left incremented (listed_agents found) []).
Proof.
  unfold status_workload_loop. generalize (@nil (json * Z)) as w.
  induction found as [| p found IH]; intros w Hf; simpl; [reflexivity |].
  simpl in Hf. apply andb_prop in Hf as [Hp Hf].
  destruct p as [| | | | | |m]; try discriminate.
  simpl in Hp. apply andb_prop in Hp as [Hp _].
  apply andb_prop in Hp as [Hp _]. apply andb_prop in Hp as [_ Hteam].
  rewrite is_active_object. cbn [bind].
  unfold listed_agents. cbn [filter].
  destruct (active (JObj m)).
  - destruct (team_loop_typed w m Hteam) as [-> _]. cbn [bind flat_map].
    rewrite fold_left_app. apply IH, Hf.
  - apply IH, Hf.
Qed.

Lemma listed_agents_text (found : list json) :
  forallb typed_manifest found = true ->
  forallb is_text (listed_agents found) = true.
Proof.
  unfold listed_agents. induction found as [| p found IH]; [reflexivity |].
  simpl. intros Hf. apply andb_prop in Hf as [Hp Hf].
  destruct (active p); [| now apply IH].
  cbn [flat_map]. rewrite forallb_app, (IH Hf), andb_true_r.
  destruct p as [| | | | | |m]; try discriminate.
  simpl in Hp. apply andb_prop in Hp as [Hp _].
  apply andb_prop in Hp as [Hp _]. apply andb_prop in Hp as [_ Hteam].
  now destruct (team_loop_typed [] m Hteam).
Qed.

Lemma growth_loop_typed (found : list json) :
  forallb typed_manifest found = true ->
  exists growth_data, for_each growth_step found [] = Ok growth_data.
Proof.
  intros Hf.
  apply for_each_returns with (P := fun p => typed_manifest p = true).
  - intros g p Hp. destruct p as [| | | | | |m]; try discriminate.
    simpl in Hp. apply andb_prop in Hp as [Hp _]. apply andb_prop in Hp as [_ Hm].
    destruct (typed_metrics_shape m Hm) as (mm & Emm & Hr & Hd).
    unfold growth_step. cbn [get_of bind].
    fold (default_of (JObj []) (assoc "metrics" m)). rewrite Emm.
    cbn [get_of bind].
    destruct (assoc "startDate" mm) as [v |]; simpl in Hd; [| cbn; eauto].
    destruct v as [| | | | s | |]; try discriminate.
    destruct (truthy (JStr s)); [| eauto].
    destruct (strptime s); [| eauto].
    fold (default_of (JInt 0) (assoc "revenue" mm)).
    destruct (parse_revenue_returns _ (typed_revenue_default mm Hr)) as (r & ->).
    cbn [bind]. eauto.
  - apply Forall_forall. now apply forallb_forall.
Qed.
End AggregationFacts.

(** ** The aggregation *)

Section AnalyticsResults.
Context `{Library}.
Variable foundry : FoundryOS.

Lemma get_empire_analytics_eq (h : hub) :
  get_empire_analytics foundry h
  = (found <- fst (discover_projects foundry h) ;; empire_analytics_of found,
     snd (discover_projects foundry h)).
Proof.
  unfold get_empire_analytics, and_then, lift.
  now destruct (discover_projects foundry h) as [[found | e] h'].
Qed.

Lemma get_empire_status_eq (h : hub) :
  get_empire_status foundry h
  = (found <- fst (discover_projects foundry h) ;; empire_status_of found,
     snd (discover_projects foundry h)).
Proof.
  unfold get_empire_status, and_then, lift.
  now destruct (discover_projects foundry h) as [[found | e] h'].
Qed.

(** On typed manifests every loop of [get_empire_analytics] returns. *)
Lemma empire_analytics_typed (found : list json) :
  forallb typed_manifest found = true ->
  exists status_counts task_distribution growth_data,
    empire_analytics_of found
    = Ok {| Analytics.total_projects := len found;
            Analytics.active_projects := len (filter active found);
            Analytics.total_revenue := float_sum (map revenue_of found);
            Analytics.revenue_projects := map revenue_entry (filter earns found);
            Analytics.status_distribution := status_counts;
            Analytics.agent_workload :=
              fold_left incremented (listed_agents found) [];
            Analytics.task_distribution := task_distribution;
            Analytics.growth_data := growth_data;
            Analytics.projects := found |}.
Proof.
  intros Hf. unfold empire_analytics_of.
  rewrite (count_active_typed _ Hf), (revenue_loop_typed _ Hf). cbn [bind].
  destruct (status_loop_typed _ Hf) as (status_counts & ->). cbn [bind].
  destruct (workload_loop_typed found [] initial_task_distribution Hf)
    as (task_distribution & Ew).
  unfold counter in *. rewrite Ew. cbn [bind].
  destruct (growth_loop_typed _ Hf) as (growth_data & ->). cbn [bind fst snd].
  now exists status_counts, task_distribution, growth_data.
Qed.
End AnalyticsResults.



(** C4, as the code has it.  On typed manifests [agent_workload] maps each
    agent to the number of times the teams of the projects that are
    neither archived nor completed list it: a project that lists an agent
    twice counts twice, and an agent no such project lists has no entry.
    The loop of [get_empire_status] computes the same mapping. *)
Theorem agent_workload_counts_listings `{Library} (foundry : FoundryOS) (h : hub)
    (found : list json) :
  fst (discover_projects foundry h) = Ok found ->
  forallb typed_manifest found = true ->
  exists a,
    fst (get_empire_analytics foundry h) = Ok a
    /\ (forall agent,
           count_of (JStr agent) (Analytics.agent_workload a)
           = if listings agent found =? 0 then None
             else Some (listings agent found))
    /\ status_workload_loop found = Ok (Analytics.agent_workload a).
Proof.
  intros Hd Hf. rewrite get_empire_analytics_eq, Hd. cbn [fst bind].
  destruct (empire_analytics_typed found Hf) as (sc & td & gd & ->).
  eexists. split; [reflexivity |]. cbn [Analytics.agent_workload]. split.
  - intros agent.
    rewrite (count_of_increments agent _ [] (listed_agents_text _ Hf)).
    cbv zeta. unfold listings, count_or_zero. cbn [count_of].
    now rewrite Z.add_0_l.
  - now apply status_workload_loop_typed.
Qed.

Lemma agent_workload_counts_listings_witness :
  exists a,
    fst (get_empire_analytics plain_foundry acme_and_beta) = Ok a
    /\ count_of (JStr "alice") (Analytics.agent_workload a) = Some 1
    /\ count_of (JStr "bob") (Analytics.agent_workload a) = None.
Proof.
  assert (Hd : fst (discover_projects plain_foundry acme_and_beta)
               = Ok (kept plain_foundry acme_and_beta)) by reflexivity.
  destruct (agent_workload_counts_listings plain_foundry acme_and_beta Hd eq_refl)
    as (a & Ea & Hw & _).
  exists a. split; [exact Ea |]. rewrite !Hw. split; reflexivity.
Defined.

(** One active project lists alice twice: her workload is 2, although
    only one project lists her. *)
Lemma agent_listed_twice_counts_twice :
  match fst (get_empire_analytics plain_foundry alice_twice) with
  | Ok a =>
      Analytics.agent_workload a = [(JStr "alice", 2)]
      /\ projects_listing "alice" (Analytics.projects a) = 1
  | Raise _ => False
  end.
Proof. vm_compute. auto. Qed.

(** The specification's end-to-end example. *)
Example acme_and_beta_analytics :
  match fst (get_empire_analytics plain_foundry acme_and_beta) with
  | Ok a =>
      Analytics.total_projects a = 2
      /\ Analytics.active_projects a = 1
      /\ Analytics.total_revenue a = NFloat 1500
      /\ Analytics.agent_workload a = [(JStr "alice", 1)]
  | Raise _ => False
  end.
Proof. vm_compute. auto. Qed.

(** C9, as the code has it.  When the projects directory is missing or
    holds no file matching [*.json], [get_empire_analytics] returns and
    changes nothing: [total_projects] is 0, the manifest list is empty,
    [status_distribution] and [agent_workload] are empty, and
    [task_distribution] maps each of high, medium, low and critical to 0.
    [get_empire_status] returns the same counts and empty mappings. *)
Theorem empty_store_analytics `{Library} (foundry : FoundryOS) (h : hub) :
  listing h = [] ->
  fst (discover_projects foundry h) = Ok []
  /\ (exists a,
        get_empire_analytics foundry h = (Ok a, h)
        /\ Analytics.total_projects a = 0
        /\ Analytics.projects a = []
        /\ Analytics.status_distribution a = []
        /\ Analytics.agent_workload a = []
        /\ Analytics.task_distribution a
           = [(JStr "high", 0); (JStr "medium", 0); (JStr "low", 0);
              (JStr "critical", 0)])
  /\ (exists s,
        get_empire_status foundry h = (Ok s, h)
        /\ Status.total_projects s = 0
        /\ Status.projects s = []
        /\ Status.status_distribution s = []
        /\ Status.agent_workload s = []).
Proof.
  intros Hl.
  assert (Hd : discover_projects foundry h = (Ok [], h)).
  { rewrite discover_projects_eq. unfold kept, diagnostics. rewrite Hl. simpl.
    now rewrite with_log_nil. }
  split; [now rewrite Hd |]. split.
  - rewrite get_empire_analytics_eq, Hd. eexists. split; [reflexivity |].
    repeat split.
  - rewrite get_empire_status_eq, Hd. eexists. split; [reflexivity |].
    repeat split.
Qed.

Lemma empty_store_analytics_witness :
  fst (discover_projects plain_foundry no_directory) = Ok []
  /\ fst (discover_projects plain_foundry no_manifests) = Ok []
  /\ exists a,
       get_empire_analytics plain_foundry no_manifests = (Ok a, no_manifests)
       /\ Analytics.total_projects a = 0.
Proof.
  destruct (empty_store_analytics plain_foundry no_directory eq_refl) as (Hd & _).
  destruct (empty_store_analytics plain_foundry no_manifests eq_refl)
    as (Hd' & (a & Ea & Ht & _) & _).
  split; [exact Hd |]. split; [exact Hd' |]. now exists a.
Defined.

(** In an empty projects directory [task_distribution] is not empty: it
    has its four priorities, each at 0. *)
Lemma empty_store_task_distribution :
  match fst (get_empire_analytics plain_foundry empty_directory) with
  | Ok a =>
      Analytics.total_projects a = 0
      /\ Analytics.task_distribution a
         = [(JStr "high", 0); (JStr "medium", 0); (JStr "low", 0);
            (JStr "critical", 0)]
      /\ len (Analytics.task_distribution a) = 4
  | Raise _ => False
  end.
Proof. vm_compute. auto. Qed.

(** ** Revenue parsing: where it raises *)

(** C1 at its failing inputs.  [parse_revenue] raises [OverflowError] for
    an integer beyond the range of [float], and the revenue loop of
    [get_empire_status] raises [AttributeError] for the bare number 42,
    which [parse_revenue] turns into 42.0. *)
Theorem revenue_parsing_raises `{Library} :
  parse_revenue (JInt (10 ^ 400)) = Raise OverflowError
  /\ status_revenue_step (NInt 0, 0) (JObj [("metrics", JObj [("revenue", JInt 42)])])
     = Raise AttributeError
  /\ parse_revenue (JInt 42) = Ok 42%float.
Proof. repeat split; vm_compute; reflexivity. Qed.

(** The values the specification lists. *)
Lemma parse_revenue_examples `{Library} :
  parse_revenue (JStr "$1,234.50") = Ok 1234.5%float
  /\ parse_revenue (JStr "") = Ok 0%float
  /\ parse_revenue (JStr "N/A") = Ok 0%float
  /\ parse_revenue (JInt 42) = Ok 42%float.
Proof. repeat split; vm_compute; reflexivity. Qed.

(** [parse_revenue] raises nothing but [OverflowError], and that only for
    an integer beyond the range of [float]. *)
Lemma parse_revenue_raises_only_overflow `{Library} (v : json) (e : exn) :
  parse_revenue v = Raise e ->
  e = OverflowError /\ exists z, v = JInt z /\ float_of_int z = Raise OverflowError.
Proof.
  intros E.
  assert (Hint : forall z, float_of_int z = Raise e ->
                           e = OverflowError /\ float_of_int z = Raise OverflowError).
  { unfold float_of_int. intros z.
    destruct (binary_normalize prec emax z 0 false); try discriminate.
    intros Hz. injection Hz as <-. auto. }
  destruct (typed_revenue v) eqn:Hv.
  - destruct (parse_revenue_returns v Hv) as (r & Er). congruence.
  - destruct v as [| | z | | | |]; try discriminate.
    unfold parse_revenue in E. destruct (truthy (JInt z)); [| discriminate].
    simpl in E. destruct (Hint z E) as [-> Hz]. eauto.
Qed.

Lemma parse_revenue_raises_only_overflow_witness :
  OverflowError = OverflowError
  /\ exists z, JInt (10 ^ 400) = JInt z /\ float_of_int z = Raise OverflowError.
Proof.
  apply (parse_revenue_raises_only_overflow (JInt (10 ^ 400))).
  vm_compute. reflexivity.
Defined.

(** ** Creating a project *)




(** C5 at its failing input.  The store holds [acme.json]; a second
    manifest named "Acme" arrives.  [create_project_from_manifest]
    refuses it and leaves the store alone, but the dashboard's upload and
    its form both report success and replace the file. *)
Theorem dashboard_overwrites_existing_manifest :
  fst (create_project_from_manifest plain_foundry "./acme.json"
         (Some (Document other_acme)) "2024-02-02T00:00:00" acme_only)
  = Raise (ClickException "Project 'Acme' already exists")
  /\ snd (create_project_from_manifest plain_foundry "./acme.json"
            (Some (Document other_acme)) "2024-02-02T00:00:00" acme_only)
     = acme_only
  /\ upload_manifest (Document other_acme) "2024-02-02T00:00:00" acme_only
     = (Ok (Success "Added Acme!"),
        hub_of [{| name := "acme.json"; data := Document other_acme;
                   modified := "2024-02-02T00:00:00" |}])
  /\ (let outcome :=
        create_from_form "Acme" "custom" "planning" "2024-02-02"
          "2024-02-02T00:00:00" acme_only in
      fst outcome = Ok (Success "Created Acme!")
      /\ projects (snd outcome)
         = Some [{| name := "acme.json";
                    data := Document (form_manifest "Acme" "custom" "planning"
                                        "2024-02-02");
                    modified := "2024-02-02T00:00:00" |}]).
Proof. repeat split. Qed.

(** ** The file-name key *)

(** C6 at its failing input.  For the name "My-App",
    [create_project_from_manifest] and the dashboard's upload write
    [my-app.json], keeping the hyphen; the dashboard's form writes
    [my_app.json], the key of the specification. *)
Theorem hyphen_is_kept_in_file_name :
  derived_key "My-App" = "my_app"
  /\ projects (snd (create_project_from_manifest plain_foundry "./my_app.json"
                      (Some (Document my_app)) "2024-02-02T00:00:00"
                      empty_directory))
     = Some [{| name := "my-app.json"; data := Document my_app;
                modified := "2024-02-02T00:00:00" |}]
  /\ projects (snd (upload_manifest (Document my_app) "2024-02-02T00:00:00"
                      empty_directory))
     = Some [{| name := "my-app.json"; data := Document my_app;
                modified := "2024-02-02T00:00:00" |}]
  /\ map name
       (listing (snd (create_from_form "My-App" "custom" "planning" "2024-02-02"
                        "2024-02-02T00:00:00" empty_directory)))
     = ["my_app.json"].
Proof. repeat split. Qed.





(** ** Further properties of the aggregation *)

Lemma filter_split_length {A : Type} (P : A -> bool) (l : list A) :
  len (filter P l) + len (filter (fun x => negb (P x)) l) = len l.
Proof.
  unfold len. induction l as [| x l IH]; [reflexivity |].
  cbn [filter]. destruct (P x); cbn [negb List.length];
    rewrite ?Nat2Z.inj_succ; lia.
Qed.

(** On typed manifests, the active projects and the archived or completed
    ones add up to [total_projects]. *)
Lemma active_and_inactive_add_up `{Library} (foundry : FoundryOS) (h : hub)
    (found : list json) :
  fst (discover_projects foundry h) = Ok found ->
  forallb typed_manifest found = true ->
  exists a,
    fst (get_empire_analytics foundry h) = Ok a
    /\ Analytics.active_projects a = len (filter active found)
    /\ Analytics.active_projects a + len (filter (fun p => negb (active p)) found)
       = Analytics.total_projects a.
Proof.
  intros Hd Hf. rewrite get_empire_analytics_eq, Hd. cbn [fst bind].
  destruct (empire_analytics_typed found Hf) as (sc & td & gd & ->).
  eexists. split; [reflexivity |]. split; [reflexivity |].
  apply filter_split_length.
Qed.

Lemma active_and_inactive_add_up_witness :
  exists a,
    fst (get_empire_analytics plain_foundry acme_and_beta) = Ok a
    /\ Analytics.active_projects a = 1
    /\ Analytics.total_projects a = 2.
Proof.
  assert (Hd : fst (discover_projects plain_foundry acme_and_beta)
               = Ok (kept plain_foundry acme_and_beta)) by reflexivity.
  destruct (active_and_inactive_add_up plain_foundry acme_and_beta Hd eq_refl)
    as (a & Ea & Hact & Hsum).
  exists a. split; [exact Ea |]. split; [exact Hact |].
  rewrite <- Hsum, Hact. reflexivity.
Defined.

(** [get_empire_status] on the specification's two manifests: here
    [revenue_projects] is a count, of the revenues that start with a
    dollar sign and parse. *)
Example acme_and_beta_status :
  match fst (get_empire_status plain_foundry acme_and_beta) with
  | Ok s =>
      Status.total_projects s = 2
      /\ Status.active_projects s = 1
      /\ Status.total_revenue s = NFloat 1500
      /\ Status.revenue_projects s = 2
      /\ Status.agent_workload s = [(JStr "alice", 1)]
  | Raise _ => False
  end.
Proof. vm_compute. auto. Qed.

(** ** The revenue of [get_empire_status] *)

Lemma status_revenue_step_typed `{Library} (acc : number * Z) (p : json) :
  typed_manifest p = true -> text_revenue p = true ->
  not_yet_or_float (fst acc) ->
  status_revenue_step acc p = Ok (status_revenue_next acc p)
  /\ not_yet_or_float (fst (status_revenue_next acc p)).
Proof.
  intros Hp Hr Hacc. destruct acc as [t n]. cbn [fst] in Hacc.
  destruct p as [| | | | | |m]; try discriminate.
  simpl in Hp. apply andb_prop in Hp as [Hp _]. apply andb_prop in Hp as [_ Hm].
  destruct (typed_metrics_shape m Hm) as (mm & Emm & _ & _).
  unfold status_revenue_step, status_revenue_next, dollar_revenue, text_revenue in *.
  cbn [field get_of bind fst snd] in *.
  fold (default_of (JObj []) (assoc "metrics" m)). rewrite Emm in *.
  cbn [field get_of bind] in *.
  fold (default_of (JStr "$0") (assoc "revenue" mm)).
  destruct (assoc "revenue" mm) as [v |]; cbn [default_of absent_or] in *.
  - destruct v as [| | | | s | |]; try discriminate.
    destruct (truthy (JStr s)) eqn:Et.
    + destruct (startswith "$" s); [| auto].
      destruct (float_of_string _) as [r |]; [| auto].
      assert (Eadd : number_add t (NFloat r)
                     = Ok (NFloat (running_total t + r)%float)).
      { destruct Hacc as [-> | (f & ->)]; reflexivity. }
      rewrite Eadd. cbn [bind fst]. split; [reflexivity |]. right. eauto.
    + assert (Es : s = "").
      { simpl in Et. destruct (String.eqb_spec s ""); [assumption | discriminate]. }
      subst s. simpl. auto.
  - cbn [truthy String.eqb negb startswith prefix Ascii.eqb Bool.eqb replace append].
    assert (E0 : float_of_string "0" = Some 0%float) by (vm_compute; reflexivity).
    rewrite E0.
    assert (Eadd : number_add t (NFloat 0)
                   = Ok (NFloat (running_total t + 0)%float)).
    { destruct Hacc as [-> | (f & ->)]; reflexivity. }
    rewrite Eadd. cbn [bind fst]. split; [reflexivity |].
    right. eexists. reflexivity.
Qed.

Lemma status_revenue_fold (l : list json) (acc : number * Z) :
  fold_left status_revenue_next l acc
  = (match dollar_revenues l with
     | [] => fst acc
     | rs => NFloat (fold_left PrimFloat.add rs (running_total (fst acc)))
     end,
     snd acc + len (dollar_revenues l)).
Proof.
  revert acc. induction l as [| p l IH]; intros acc.
  - destruct acc. unfold len. simpl. f_equal. lia.
  - cbn [fold_left]. rewrite IH. unfold dollar_revenues, status_revenue_next.
    cbn [flat_map]. destruct (dollar_revenue p) as [r |]; [| reflexivity].
    cbn [fst snd running_total app]. unfold len.
    cbn [List.length fold_left]. f_equal.
    + now destruct (flat_map _ l).
    + rewrite Nat2Z.inj_succ. lia.
Qed.

(** On typed manifests whose revenue is a string or missing,
    [get_empire_status] returns: [revenue_projects] is the number of
    revenues that start with a dollar sign and parse, [total_revenue] is
    their sum, and a revenue without a dollar sign counts for nothing. *)
Lemma status_counts_dollar_revenues `{Library} (foundry : FoundryOS) (h : hub)
    (found : list json) :
  fst (discover_projects foundry h) = Ok found ->
  forallb typed_manifest found = true ->
  forallb text_revenue found = true ->
  exists s,
    fst (get_empire_status foundry h) = Ok s
    /\ Status.total_projects s = len found
    /\ Status.active_projects s = len (filter active found)
    /\ Status.revenue_projects s = len (dollar_revenues found)
    /\ Status.total_revenue s = float_sum (dollar_revenues found).
Proof.
  intros Hd Hf Hr. rewrite get_empire_status_eq, Hd. cbn [fst bind].
  unfold empire_status_of. rewrite (count_active_typed _ Hf). cbn [bind].
  assert (Hall : Forall (fun p => typed_manifest p = true /\ text_revenue p = true)
                   found).
  { apply Forall_forall. intros p Hp. split.
    - now apply (proj1 (forallb_forall _ _) Hf).
    - now apply (proj1 (forallb_forall _ _) Hr). }
  destruct (@for_each_fold _ _ status_revenue_step status_revenue_next
              (fun p => typed_manifest p = true /\ text_revenue p = true)
              (fun acc => not_yet_or_float (fst acc))
              found (NInt 0, 0)
              (fun s x Hx Hs => status_revenue_step_typed s x (proj1 Hx) (proj2 Hx) Hs)
              Hall)
    as [-> _]; [now left |].
  cbn [bind]. destruct (status_loop_typed _ Hf) as (sc & ->). cbn [bind].
  rewrite (status_workload_loop_typed _ Hf). cbn [bind].
  eexists. split; [reflexivity |]. rewrite status_revenue_fold.
  cbn [Status.total_projects Status.active_projects Status.revenue_projects
       Status.total_revenue fst snd running_total].
  repeat split. unfold float_sum. now destruct (dollar_revenues found).
Qed.

Lemma status_counts_dollar_revenues_witness :
  exists s,
    fst (get_empire_status plain_foundry acme_and_beta) = Ok s
    /\ Status.revenue_projects s = 2
    /\ Status.total_revenue s = NFloat 1500.
Proof.
  assert (Hd : fst (discover_projects plain_foundry acme_and_beta)
               = Ok (kept plain_foundry acme_and_beta)) by reflexivity.
  destruct (status_counts_dollar_revenues plain_foundry acme_and_beta Hd
              eq_refl eq_refl)
    as (s & Es & _ & _ & Hn & Ht).
  exists s. split; [exact Es |]. rewrite Hn, Ht. split; reflexivity.
Defined.

(** A revenue given without a dollar sign is parsed by the dashboard and
    passed over by [get_empire_status]. *)
Example revenue_without_dollar_sign `{Library} :
  parse_revenue (JStr "1000") = Ok 1000%float
  /\ dollar_revenue (JObj [("metrics", JObj [("revenue", JStr "1000")])]) = None.
Proof. split; vm_compute; reflexivity. Qed.

(** ** What reading leaves alone *)

(** Discovery, lookup and both aggregations leave the projects directory,
    the shared-context directory and the terminal as they found them,
    whether they return or raise: all they add is the diagnostics of the
    scan at the end of the log. *)
Lemma reading_only_logs `{Library} (self : FoundryOS) (q : string) (h : hub) :
  only_logged h (snd (discover_projects self h)) (diagnostics self h)
  /\ only_logged h (snd (find_project self q h)) (diagnostics self h)
  /\ only_logged h (snd (get_empire_status self h)) (diagnostics self h)
  /\ only_logged h (snd (get_empire_analytics self h)) (diagnostics self h).
Proof.
  rewrite find_project_log, get_empire_status_eq, get_empire_analytics_eq.
  cbn [snd]. rewrite discover_projects_eq. cbn [snd].
  repeat split.
Qed.

(** ** The manifests discovery returns *)

Lemma kept_origin `{Library} (self : FoundryOS) (h : hub) (p : json) :
  In p (kept self h) ->
  exists f m, In f (listing h)
              /\ data f = Document (JObj m)
              /\ check_schema self (JObj m) = Ok tt
              /\ p = manifest_of self f.
Proof.
  unfold kept. intros Hp. apply in_map_iff in Hp as (f & <- & Hf).
  apply filter_In in Hf as [Hin Hacc].
  unfold accepted in Hacc. unfold manifest_of.
  destruct (data f) as [| | d] eqn:Ed; try discriminate.
  destruct d as [| | | | | |m]; try discriminate.
  destruct (check_schema self (JObj m)) as [[] |] eqn:Ec; try discriminate.
  exists f, m. rewrite Ed. auto.
Qed.

(** Every manifest discovery returns is the document of one listed file
    that is a JSON object and passes the schema check, with the file's
    path under [_manifest_file], its modification time under
    [_last_modified], and every other field as the file has it. *)
Lemma discovered_manifest_fields `{Library} (self : FoundryOS) (h : hub)
    (found : list json) (p : json) :
  fst (discover_projects self h) = Ok found ->
  In p found ->
  exists f m,
    In f (listing h)
    /\ data f = Document (JObj m)
    /\ check_schema self (JObj m) = Ok tt
    /\ field "_manifest_file" p = Some (JStr (projects_dir self ++ "/" ++ name f))
    /\ field "_last_modified" p = Some (JStr (modified f))
    /\ (forall k, k <> "_manifest_file" -> k <> "_last_modified" ->
                  field k p = assoc k m).
Proof.
  intros Hd Hp.
  apply discover_projects_members in Hd.
  apply (Permutation_in _ (Permutation_sym Hd)) in Hp.
  destruct (kept_origin self h p Hp) as (f & m & Hin & Ed & Ec & ->).
  exists f, m. repeat (split; [assumption |]).
  unfold manifest_of. rewrite Ed. cbn [field].
  split; [| split].
  - rewrite assoc_set_other by discriminate. apply assoc_set_same.
  - apply assoc_set_same.
  - intros k H1 H2. now rewrite !assoc_set_other.
Qed.

Lemma discovered_manifest_fields_witness :
  exists f m,
    In f (listing acme_only)
    /\ data f = Document (JObj m)
    /\ check_schema plain_foundry (JObj m) = Ok tt
    /\ field "_manifest_file" (manifest_of plain_foundry (manifest_file "acme.json" acme))
       = Some (JStr ("/home/u/ai-empire-hub/projects" ++ "/" ++ name f))
    /\ field "_last_modified" (manifest_of plain_foundry (manifest_file "acme.json" acme))
       = Some (JStr (modified f))
    /\ (forall k, k <> "_manifest_file" -> k <> "_last_modified" ->
                  field k (manifest_of plain_foundry (manifest_file "acme.json" acme))
                  = assoc k m).
Proof.
  apply (discovered_manifest_fields plain_foundry acme_only
           (found := [manifest_of plain_foundry (manifest_file "acme.json" acme)])).
  - reflexivity.
  - left. reflexivity.
Defined.

(** ** Lookup by name, whatever the case *)





(** ** Creating a project: failure and round trip *)


(** When [create_project_from_manifest] raises, whatever the exception,
    the hub is as it was: no file is written and no line is logged. *)
Lemma create_project_failure_writes_nothing `{Library} (self : FoundryOS) (h : hub)
    (manifest_path now : string) (manifest_file : option content) (e : exn) :
  fst (create_project_from_manifest self manifest_path manifest_file now h) = Raise e ->
  snd (create_project_from_manifest self manifest_path manifest_file now h) = h.
Proof.
  unfold create_project_from_manifest, and_then, lift, project_exists,
    write_project, write_log, ret, raise.
  destruct manifest_file as [c |]; [| reflexivity].
  destruct (load c) as [d |]; [| reflexivity].
  destruct (check_schema self d) as [[] |]; [| reflexivity].
  destruct (get_of d "projectName" (JStr "unknown")) as [n |]; [| reflexivity].
  destruct (lower_of n) as [l |]; [| reflexivity].
  destruct (projects h) as [files |] eqn:Ep.
  - destruct (lookup_file (replace " " "_" l ++ ".json") files);
      [reflexivity |].
    rewrite Ep. discriminate.
  - rewrite Ep. reflexivity.
Qed.

Lemma create_project_failure_writes_nothing_witness :
  snd (create_project_from_manifest strict_foundry "./nameless.json"
         (Some (Document (JObj [("status", JStr "planning")])))
         "2024-02-02T00:00:00" acme_only)
  = acme_only.
Proof.
  apply (create_project_failure_writes_nothing strict_foundry acme_only
           "./nameless.json" "2024-02-02T00:00:00"
           (Some (Document (JObj [("status", JStr "planning")])))
           (e := ValidationError)).
  reflexivity.
Defined.






(** ** The sidebar's writers *)

(** Neither writer of the sidebar raises.  When the upload shows an error
    the hub is as it was; when it shows success, the uploaded document,
    unvalidated, has been written under the key of its name, replacing
    any file of that name, and nothing else has changed. *)
Lemma upload_manifest_outcome `{Library} (h : hub) (uploaded_file : content)
    (now : string) :
  exists shown,
    fst (upload_manifest uploaded_file now h) = Ok shown
    /\ match shown with
       | Error => snd (upload_manifest uploaded_file now h) = h
       | Success text =>
           exists m n files,
             uploaded_file = Document (JObj m)
             /\ default_of (JStr "unknown") (assoc "projectName" m) = JStr n
             /\ text = "Added " ++ n ++ "!"
             /\ projects h = Some files
             /\ snd (upload_manifest uploaded_file now h)
                = with_projects h
                    (write_file {| name := replace " " "_" (lower n) ++ ".json";
                                   data := Document (JObj m);
                                   modified := now |} files)
       end.
Proof.
  unfold upload_manifest, guarded, and_then, lift, write_project, ret.
  destruct uploaded_file as [| | d]; cbn [load];
    try (exists Error; split; reflexivity).
  destruct d as [| | | | | |m]; cbn [get_of];
    try (exists Error; split; reflexivity).
  fold (default_of (JStr "unknown") (assoc "projectName" m)).
  destruct (default_of (JStr "unknown") (assoc "projectName" m))
    as [| | | | n | |] eqn:En; cbn [lower_of];
    try (exists Error; split; reflexivity).
  destruct (projects h) as [files |] eqn:Ep.
  - exists (Success ("Added " ++ n ++ "!")). cbn [fst snd str_of].
    split; [reflexivity |]. exists m, n, files. auto.
  - exists Error. split; reflexivity.
Qed.

(** ** Two assignments for one project *)

Lemma append_length (s t : string) :
  String.length (s ++ t) = (String.length s + String.length t)%nat.
Proof. induction s as [| c s IH]; simpl; [reflexivity | now rewrite IH]. Qed.

Lemma append_cancel_l (p s t : string) : p ++ s = p ++ t -> s = t.
Proof. induction p as [| c p IH]; simpl; [auto |]. intros [= E]. auto. Qed.

Lemma append_cancel_r (s t u : string) : s ++ u = t ++ u -> s = t.
Proof.
  revert t. induction s as [| c s IH]; intros [| c' t] E; simpl in E.
  - reflexivity.
  - apply (f_equal String.length) in E. simpl in E. rewrite append_length in E. lia.
  - apply (f_equal String.length) in E. simpl in E. rewrite append_length in E. lia.
  - injection E as -> E. f_equal. now apply IH.
Qed.

Lemma assoc_set_twice (k : string) (v w : json) (m : list (string * json)) :
  assoc_set k w (assoc_set k v m) = assoc_set k w m.
Proof.
  induction m as [| [k' v'] m IH]; simpl.
  - now rewrite String.eqb_refl.
  - destruct (String.eqb k k') eqn:E; simpl; rewrite E; [reflexivity |].
    now rewrite IH.
Qed.

Lemma find_project_same_projects `{Library} (self : FoundryOS) (q : string)
    (h h' : hub) :
  projects h' = projects h ->
  fst (find_project self q h') = fst (find_project self q h).
Proof.
  intros E. unfold find_project, and_then, lift. rewrite !discover_projects_eq.
  unfold kept, listing. rewrite E.
  now destruct (sorted name_key _).
Qed.

Lemma assign_task_found `{Library} (self : FoundryOS) (h : hub)
    (task q agent stamp created_at : string) (p : json) :
  fst (find_project self q h) = Ok (Some p) ->
  typed_config (config self) = true ->
  typed_team p = true ->
  let outcome := assign_task self task q agent stamp created_at h in
  let record := assignment_record ("task_" ++ stamp) task q agent created_at in
  fst outcome = Ok record
  /\ projects (snd outcome) = projects h
  /\ shared_context (snd outcome)
     = assoc_set (replace " " "_" (lower q) ++ "_task_" ++ stamp ++ ".json") record
         (shared_context h).
Proof.
  intros Hfind Hconfig Hteam. cbv zeta.
  unfold assign_task, and_then.
  pose proof (find_project_log self q h) as Hlog.
  pose proof (find_project_truthy self q h) as Htruthy.
  destruct (find_project self q h) as [r h1].
  cbn [fst snd] in Hfind, Hlog, Htruthy. subst r h1.
  rewrite (Htruthy p eq_refl). cbn [negb].
  unfold typed_config in Hconfig. destruct (config self) as [| | | | | |c];
    try discriminate.
  unfold typed_team in Hteam. destruct p as [| | | | | |m]; try discriminate.
  unfold lift, get_of.
  fold (default_of (JObj []) (assoc "agents" c)).
  fold (default_of (JArr []) (assoc "team" m)).
  destruct (str_in_container agent _ Hconfig) as (registered & ->).
  destruct (str_in_container agent _ Hteam) as (listed & ->).
  assert (Hfile : replace " " "_" (lower q) ++ "_" ++ ("task_" ++ stamp) ++ ".json"
                  = replace " " "_" (lower q) ++ "_task_" ++ stamp ++ ".json")
    by reflexivity.
  rewrite Hfile.
  destruct registered; [| destruct listed];
    unfold ret, echo, write_log; cbn [fst snd];
    unfold with_log, with_echo, with_shared; cbn [projects shared_context];
    repeat split.
Qed.

(** The file of an assignment is named by the project and the second of
    the clock.  Two assignments for one project both return their record;
    when their seconds differ both records are in the shared context
    afterwards, and when they fall into the same second the later record
    has replaced the earlier one: the shared context is what the later
    assignment alone would have left. *)
Lemma assign_task_twice `{Library} (self : FoundryOS) (h : hub) (q : string)
    (p : json) (task1 agent1 stamp1 at1 task2 agent2 stamp2 at2 : string) :
  fst (find_project self q h) = Ok (Some p) ->
  typed_config (config self) = true ->
  typed_team p = true ->
  let record1 := assignment_record ("task_" ++ stamp1) task1 q agent1 at1 in
  let record2 := assignment_record ("task_" ++ stamp2) task2 q agent2 at2 in
  let shared_file stamp :=
    replace " " "_" (lower q) ++ "_task_" ++ stamp ++ ".json" in
  let first := assign_task self task1 q agent1 stamp1 at1 h in
  let second := assign_task self task2 q agent2 stamp2 at2 (snd first) in
  fst first = Ok record1
  /\ fst second = Ok record2
  /\ assoc (shared_file stamp2) (shared_context (snd second)) = Some record2
  /\ (stamp1 <> stamp2 ->
      assoc (shared_file stamp1) (shared_context (snd second)) = Some record1)
  /\ (stamp1 = stamp2 ->
      shared_context (snd second)
      = assoc_set (shared_file stamp2) record2 (shared_context h)).
Proof.
  intros Hfind Hconfig Hteam. cbv zeta.
  destruct (assign_task_found self h task1 q agent1 stamp1 at1 Hfind Hconfig Hteam)
    as (E1 & P1 & S1).
  assert (Hfind' : fst (find_project self q
                          (snd (assign_task self task1 q agent1 stamp1 at1 h)))
                   = Ok (Some p))
    by (now rewrite (@find_project_same_projects _ self q h _ P1)).
  destruct (assign_task_found self _ task2 q agent2 stamp2 at2 Hfind' Hconfig Hteam)
    as (E2 & P2 & S2).
  split; [exact E1 |]. split; [exact E2 |]. rewrite S2, S1.
  split; [apply assoc_set_same |]. split.
  - intros Hne. rewrite assoc_set_other; [apply assoc_set_same |].
    intros E. apply append_cancel_l, append_cancel_l, append_cancel_r in E.
    contradiction.
  - intros ->. apply assoc_set_twice.
Qed.

Lemma assign_task_twice_witness :
  let first :=
    assign_task plain_foundry "Ship it" "acme" "bob" "20240102_030405"
      "2024-01-02T03:04:05.100" acme_and_beta in
  let second :=
    assign_task plain_foundry "Test it" "acme" "carol" "20240102_030405"
      "2024-01-02T03:04:05.900" (snd first) in
  shared_context (snd second)
  = [("acme_task_20240102_030405.json",
      assignment_record "task_20240102_030405" "Test it" "acme" "carol"
        "2024-01-02T03:04:05.900")].
Proof.
  assert (Hfind : fst (find_project plain_foundry "acme" acme_and_beta)
                  = Ok (Some (manifest_of plain_foundry (manifest_file "acme.json" acme))))
    by reflexivity.
  exact (proj2 (proj2 (proj2 (proj2
           (assign_task_twice plain_foundry acme_and_beta "acme"
              "Ship it" "bob" "20240102_030405" "2024-01-02T03:04:05.100"
              "Test it" "carol" "20240102_030405" "2024-01-02T03:04:05.900"
              Hfind eq_refl eq_refl)))) eq_refl).
Defined.

(** ** The distributions *)

Lemma occurrences_map {A : Type} (f : A -> json) (s : string) (l : list A) :
  occurrences s (map f l) = len (filter (fun x => py_eq (f x) (JStr s)) l).
Proof.
  unfold occurrences, len. f_equal.
  induction l as [| x l IH]; simpl; [reflexivity |].
  destruct (py_eq (f x) (JStr s)); simpl; now rewrite IH.
Qed.

Lemma counter_total_count_set (k : json) (n : Z) (c : counter) :
  counter_total (count_set k n c) = counter_total c - count_or_zero k c + n.
Proof.
  unfold count_or_zero.
  induction c as [| [k' n'] c IH]; simpl; [lia |].
  destruct (py_eq k' k); simpl; lia.
Qed.

Lemma counter_total_increments (ks : list json) (c : counter) :
  counter_total (fold_left incremented ks c) = counter_total c + len ks.
Proof.
  revert c. induction ks as [| k ks IH]; intros c.
  - unfold len. simpl. lia.
  - cbn [fold_left]. rewrite IH. unfold incremented.
    rewrite counter_total_count_set. unfold len. cbn [List.length].
    rewrite Nat2Z.inj_succ. lia.
Qed.

Section DistributionFacts.
Context `{Library}.

Lemma status_of_typed (p : json) :
  typed_manifest p = true ->
  exists m, p = JObj m
            /\ get_of p "status" (JStr "unknown") = Ok (status_of p)
            /\ is_text (status_of p) = true.
Proof.
  destruct p as [| | | | | |m]; try discriminate. intros Hp.
  simpl in Hp. apply andb_prop in Hp as [Hp _]. apply andb_prop in Hp as [Hp _].
  apply andb_prop in Hp as [Hs _].
  exists m. split; [reflexivity |]. unfold status_of. cbn [get_of field].
  fold (default_of (JStr "unknown") (assoc "status" m)).
  split; [reflexivity |].
  now destruct (assoc "status" m).
Qed.

Lemma status_loop_eq (found : list json) :
  forallb typed_manifest found = true ->
  status_loop found = Ok (fold_left incremented (map status_of found) [])
  /\ forallb is_text (map status_of found) = true.
Proof.
  intros Hf. unfold status_loop. generalize (@nil (json * Z)) as c.
  induction found as [| p found IH]; intros c; [split; reflexivity |].
  simpl in Hf. apply andb_prop in Hf as [Hp Hf].
  destruct (status_of_typed p Hp) as (m & -> & Eg & Ht).
  cbn [for_each map fold_left forallb]. rewrite Eg. cbn [bind].
  rewrite (increment_text _ _ Ht), Ht. cbn [bind andb].
  apply IH, Hf.
Qed.

Lemma priority_of_typed (task : json) :
  typed_task task = true ->
  get_of task "priority" (JStr "medium") = Ok (priority_of task)
  /\ is_text (priority_of task) = true.
Proof.
  destruct task as [| | | | | |tm]; try discriminate. simpl. intros Ht.
  unfold priority_of. cbn [field].
  fold (default_of (JStr "medium") (assoc "priority" tm)).
  split; [reflexivity |]. now destruct (assoc "priority" tm).
Qed.

Lemma task_loop_eq (d : counter) (m : list (string * json)) :
  absent_or typed_tasks (assoc "tasks" m) = true ->
  task_loop d (JObj m)
  = Ok (fold_left incremented (map priority_of (active_tasks (JObj m))) d)
  /\ forallb is_text (map priority_of (active_tasks (JObj m))) = true.
Proof.
  unfold task_loop, active_tasks. cbn [get_of field bind].
  fold (default_of (JObj []) (assoc "tasks" m)).
  destruct (assoc "tasks" m) as [v |]; simpl; [| auto].
  destruct v as [| | | | | |t]; try discriminate. simpl.
  fold (default_of (JArr []) (assoc "active" t)).
  destruct (assoc "active" t) as [a |]; simpl; [| auto].
  destruct a as [| | | | | l |]; try discriminate. simpl.
  revert d. induction l as [| task l IH]; intros d Hl; [split; reflexivity |].
  simpl in Hl. apply andb_prop in Hl as [Ht Hl].
  destruct (priority_of_typed task Ht) as [Eg Hp].
  cbn [for_each map fold_left forallb]. rewrite Eg. cbn [bind].
  rewrite (increment_text _ _ Hp), Hp. cbn [bind andb].
  now apply IH.
Qed.

Lemma workload_loop_eq (found : list json) (w d : counter) :
  forallb typed_manifest found = true ->
  for_each workload_step found (w, d)
  = Ok (fold_left incremented (listed_agents found) w,
        fold_left incremented (listed_priorities found) d).
Proof.
  revert w d. induction found as [| p found IH]; intros w d Hf; simpl.
  - reflexivity.
  - simpl in Hf. apply andb_prop in Hf as [Hp Hf].
    destruct p as [| | | | | |m]; try discriminate.
    simpl in Hp. apply andb_prop in Hp as [Hp Htasks].
    apply andb_prop in Hp as [Hp _]. apply andb_prop in Hp as [_ Hteam].
    unfold workload_step at 1. rewrite is_active_object. cbn [bind].
    unfold listed_agents, listed_priorities. cbn [filter].
    destruct (active (JObj m)).
    + destruct (team_loop_typed w m Hteam) as [-> _]. cbn [bind].
      destruct (task_loop_eq d m Htasks) as [-> _]. cbn [bind].
      cbn [flat_map]. rewrite !fold_left_app. apply IH, Hf.
    + cbn [bind]. apply IH, Hf.
Qed.

Lemma listed_priorities_text (found : list json) :
  forallb typed_manifest found = true ->
  forallb is_text (listed_priorities found) = true.
Proof.
  unfold listed_priorities. induction found as [| p found IH]; [reflexivity |].
  simpl. intros Hf. apply andb_prop in Hf as [Hp Hf].
  destruct (active p); [| now apply IH].
  cbn [flat_map]. rewrite forallb_app, (IH Hf), andb_true_r.
  destruct p as [| | | | | |m]; try discriminate.
  simpl in Hp. apply andb_prop in Hp as [_ Htasks].
  now destruct (task_loop_eq [] m Htasks).
Qed.

Lemma empire_analytics_distributions (found : list json) :
  forallb typed_manifest found = true ->
  exists a,
    empire_analytics_of found = Ok a
    /\ Analytics.total_projects a = len found
    /\ Analytics.status_distribution a
       = fold_left incremented (map status_of found) []
    /\ Analytics.agent_workload a
       = fold_left incremented (listed_agents found) []
    /\ Analytics.task_distribution a
       = fold_left incremented (listed_priorities found) initial_task_distribution.
Proof.
  intros Hf. unfold empire_analytics_of.
  rewrite (count_active_typed _ Hf), (revenue_loop_typed _ Hf). cbn [bind].
  destruct (status_loop_eq _ Hf) as [-> _]. cbn [bind].
  pose proof (workload_loop_eq found [] initial_task_distribution Hf) as Ew.
  unfold counter in *. rewrite Ew. cbn [bind].
  destruct (growth_loop_typed _ Hf) as (growth_data & ->). cbn [bind fst snd].
  eexists. split; [reflexivity |]. repeat split.
Qed.

Lemma analytics_distributions (foundry : FoundryOS) (h : hub) (found : list json) :
  fst (discover_projects foundry h) = Ok found ->
  forallb typed_manifest found = true ->
  exists a,
    fst (get_empire_analytics foundry h) = Ok a
    /\ Analytics.total_projects a = len found
    /\ Analytics.status_distribution a
       = fold_left incremented (map status_of found) []
    /\ Analytics.agent_workload a
       = fold_left incremented (listed_agents found) []
    /\ Analytics.task_distribution a
       = fold_left incremented (listed_priorities found) initial_task_distribution.
Proof.
  intros Hd Hf. rewrite get_empire_analytics_eq. cbn [fst]. rewrite Hd. cbn [bind].
  now apply empire_analytics_distributions.
Qed.
End DistributionFacts.

Lemma initial_task_distribution_count (s : string) :
  count_of (JStr s) initial_task_distribution
  = if standard_priority s then Some 0 else None.
Proof.
  unfold initial_task_distribution, standard_priority.
  cbn [count_of existsb]. rewrite !py_eq_text.
  rewrite (String.eqb_sym s "high"), (String.eqb_sym s "medium"),
    (String.eqb_sym s "low"), (String.eqb_sym s "critical").
  destruct (String.eqb "high" s), (String.eqb "medium" s),
    (String.eqb "low" s), (String.eqb "critical" s); reflexivity.
Qed.

(** On typed manifests, [status_distribution] holds for every status the
    number of manifests of that status (a manifest without a status counts
    under "unknown") and no entry for a status no manifest has, by the loop
    [get_empire_status] runs as well; [task_distribution] holds for every
    priority the number of active tasks of that priority in the active
    projects (a task without a priority counts under "medium"), where the
    four standard priorities have an entry even at zero and any other
    priority only when a task has it. *)
Lemma distributions_count_by_key `{Library} (foundry : FoundryOS) (h : hub)
    (found : list json) :
  fst (discover_projects foundry h) = Ok found ->
  forallb typed_manifest found = true ->
  exists a,
    fst (get_empire_analytics foundry h) = Ok a
    /\ status_loop found = Ok (Analytics.status_distribution a)
    /\ (forall status,
           count_of (JStr status) (Analytics.status_distribution a)
           = let n := len (filter (fun p => py_eq (status_of p) (JStr status)) found) in
             if n =? 0 then None else Some n)
    /\ (forall priority,
           count_of (JStr priority) (Analytics.task_distribution a)
           = let n := occurrences priority (listed_priorities found) in
             if (n =? 0) && negb (standard_priority priority) then None
             else Some n).
Proof.
  intros Hd Hf.
  destruct (analytics_distributions foundry h Hd Hf) as (a & Ea & _ & Es & _ & Et).
  destruct (status_loop_eq found Hf) as [El Ht].
  exists a. split; [exact Ea |]. rewrite Es, Et. split; [exact El |]. split.
  - intros status. rewrite (count_of_increments status _ [] Ht).
    fold (occurrences status (map status_of found)). rewrite occurrences_map.
    cbv zeta. now destruct (_ =? 0).
  - intros priority.
    rewrite (count_of_increments priority _ initial_task_distribution
               (listed_priorities_text found Hf)).
    fold (occurrences priority (listed_priorities found)). cbv zeta.
    unfold count_or_zero. rewrite initial_task_distribution_count.
    destruct (occurrences priority (listed_priorities found) =? 0) eqn:E.
    + apply Z.eqb_eq in E. rewrite E.
      now destruct (standard_priority priority).
    + cbn [andb]. now destruct (standard_priority priority).
Qed.

Lemma distributions_count_by_key_witness :
  exists a,
    fst (get_empire_analytics plain_foundry busy_store) = Ok a
    /\ count_of (JStr "production") (Analytics.status_distribution a) = Some 1
    /\ count_of (JStr "planning") (Analytics.status_distribution a) = None
    /\ count_of (JStr "urgent") (Analytics.task_distribution a) = Some 1
    /\ count_of (JStr "medium") (Analytics.task_distribution a) = Some 1
    /\ count_of (JStr "high") (Analytics.task_distribution a) = Some 0
    /\ count_of (JStr "someday") (Analytics.task_distribution a) = None.
Proof.
  assert (Hd : fst (discover_projects plain_foundry busy_store)
               = Ok (kept plain_foundry busy_store)) by reflexivity.
  destruct (distributions_count_by_key plain_foundry busy_store Hd eq_refl)
    as (a & Ea & _ & Hs & Hp).
  exists a. split; [exact Ea |].
  split; [exact (Hs "production") |].
  split; [exact (Hs "planning") |].
  split; [exact (Hp "urgent") |].
  split; [exact (Hp "medium") |].
  split; [exact (Hp "high") | exact (Hp "someday")].
Defined.

(** On typed manifests every item is counted once: the counts of
    [status_distribution] add up to [total_projects], those of
    [agent_workload] to the number of team listings of the active
    projects, and those of [task_distribution] to the number of their
    active tasks. *)
Lemma distribution_totals `{Library} (foundry : FoundryOS) (h : hub)
    (found : list json) :
  fst (discover_projects foundry h) = Ok found ->
  forallb typed_manifest found = true ->
  exists a,
    fst (get_empire_analytics foundry h) = Ok a
    /\ counter_total (Analytics.status_distribution a) = Analytics.total_projects a
    /\ counter_total (Analytics.agent_workload a) = len (listed_agents found)
    /\ counter_total (Analytics.task_distribution a)
       = len (flat_map active_tasks (filter active found)).
Proof.
  intros Hd Hf.
  destruct (analytics_distributions foundry h Hd Hf)
    as (a & Ea & En & Es & Ew & Et).
  exists a. split; [exact Ea |]. rewrite En, Es, Ew, Et.
  rewrite !counter_total_increments. cbn [counter_total fold_right snd].
  unfold len. rewrite length_map. unfold listed_priorities.
  rewrite !Z.add_0_l. repeat split. f_equal.
  induction (filter active found) as [| p l IH]; [reflexivity |].
  cbn [flat_map]. now rewrite !length_app, length_map, IH.
Qed.

Lemma distribution_totals_witness :
  exists a,
    fst (get_empire_analytics plain_foundry busy_store) = Ok a
    /\ counter_total (Analytics.status_distribution a) = 2
    /\ counter_total (Analytics.agent_workload a) = 0
    /\ counter_total (Analytics.task_distribution a) = 2.
Proof.
  assert (Hd : fst (discover_projects plain_foundry busy_store)
               = Ok (kept plain_foundry busy_store)) by reflexivity.
  destruct (distribution_totals plain_foundry busy_store Hd eq_refl)
    as (a & Ea & Hs & Hw & Ht).
  exists a. split; [exact Ea |]. split; [| split].
  - rewrite Hs. now rewrite (f_equal (fun r => match r with
                                               | Ok a => Analytics.total_projects a
                                               | Raise _ => 0
                                               end) (eq_sym Ea)).
  - exact Hw.
  - exact Ht.
Defined.

(** ** The file-name key of the form *)



(** ** Names that cannot be sorted *)

Lemma py_lt_kind (a b : json) (r : bool) :
  py_lt a b = Some r -> kind_of a = kind_of b.
Proof.
  destruct a, b; cbn [py_lt as_number kind_of]; try discriminate; reflexivity.
Qed.

Section SortKinds.
Variable A : Type.

Lemma insert_keyed_raises (x : json * A) (l : list (json * A)) (e : exn) :
  insert_keyed x l = Raise e -> e = TypeError.
Proof.
  induction l as [| y l IH]; cbn [insert_keyed]; [discriminate |].
  destruct (py_lt (fst y) (fst x)) as [[|] |]; [| discriminate | now intros [= <-]].
  destruct (insert_keyed x l) as [r |]; [discriminate |].
  cbn [bind]. intros [= <-]. now apply IH.
Qed.

Lemma sort_keyed_raises (l : list (json * A)) (e : exn) :
  sort_keyed l = Raise e -> e = TypeError.
Proof.
  induction l as [| x l IH]; cbn [sort_keyed]; [discriminate |].
  destruct (sort_keyed l) as [r |]; cbn [bind].
  - apply insert_keyed_raises.
  - intros [= <-]. now apply IH.
Qed.

Lemma insert_keyed_head_kind (x y : json * A) (l r : list (json * A)) :
  insert_keyed x (y :: l) = Ok r -> kind_of (fst y) = kind_of (fst x).
Proof.
  cbn [insert_keyed].
  destruct (py_lt (fst y) (fst x)) as [b |] eqn:E; [| discriminate].
  intros _. now apply py_lt_kind in E.
Qed.

(** A sort that returns has compared every item with a neighbour: its
    keys are all of one kind. *)
Lemma sort_keyed_one_kind (l r : list (json * A)) :
  sort_keyed l = Ok r ->
  forall x y, In x l -> In y l -> kind_of (fst x) = kind_of (fst y).
Proof.
  revert r. induction l as [| x0 l IH]; intros r E; [intros x y [] |].
  cbn [sort_keyed] in E. apply bind_Ok in E as (r0 & E0 & E).
  assert (Hall : forall x, In x l -> kind_of (fst x) = kind_of (fst x0)).
  { intros x Hx. destruct r0 as [| y r0].
    - apply sort_keyed_Permutation in E0. apply Permutation_sym in E0.
      apply Permutation_nil in E0. subst l. contradiction.
    - pose proof (insert_keyed_head_kind _ _ _ E) as Hy.
      rewrite <- Hy. apply (IH _ E0); [exact Hx |].
      apply (Permutation_in _ (Permutation_sym (sort_keyed_Permutation _ E0))).
      now left. }
  intros x y [<- | Hx] [<- | Hy]; try reflexivity.
  - symmetry. now apply Hall.
  - now apply Hall.
  - now rewrite (Hall x Hx), (Hall y Hy).
Qed.
End SortKinds.

Lemma with_keys_objects (l : list json) :
  Forall (fun p => exists m, p = JObj m) l ->
  with_keys name_key l = Ok (map (fun p => (sort_name p, p)) l).
Proof.
  induction 1 as [| p l (m & ->) _ IH]; [reflexivity |].
  cbn [with_keys map]. rewrite IH. reflexivity.
Qed.

(** The sort of [discover_projects] is outside its [try].  As soon as two
    of the manifests it keeps have names of different kinds, such as a
    number and a string, the comparison of the sort raises [TypeError]:
    discovery, lookup and both aggregations raise it for every call, and
    no manifest is listed. *)
Lemma names_of_two_kinds_break_discovery `{Library} (self : FoundryOS) (h : hub)
    (p q : json) :
  In p (kept self h) ->
  In q (kept self h) ->
  kind_of (sort_name p) <> kind_of (sort_name q) ->
  fst (discover_projects self h) = Raise TypeError
  /\ (forall name, fst (find_project self name h) = Raise TypeError)
  /\ fst (get_empire_status self h) = Raise TypeError
  /\ fst (get_empire_analytics self h) = Raise TypeError.
Proof.
  intros Hp Hq Hkind.
  assert (Hd : fst (discover_projects self h) = Raise TypeError).
  { rewrite discover_projects_eq. cbn [fst]. unfold sorted.
    rewrite with_keys_objects.
    2:{ apply Forall_forall. intros x Hx.
        destruct (kept_origin self h x Hx) as (f & m & _ & Ed & _ & ->).
        unfold manifest_of. rewrite Ed. eauto. }
    cbn [bind].
    destruct (sort_keyed (map (fun p => (sort_name p, p)) (kept self h)))
      as [r | e] eqn:Es.
    - exfalso. apply Hkind.
      apply (sort_keyed_one_kind _ Es (sort_name p, p) (sort_name q, q));
        apply in_map_iff; eauto.
    - cbn [bind]. now rewrite (sort_keyed_raises _ Es). }
  split; [exact Hd |]. split; [| split].
  - intros name. unfold find_project, and_then.
    destruct (discover_projects self h) as [[found | e] h1];
      cbn [fst] in Hd |- *; [discriminate | now injection Hd as ->].
  - rewrite get_empire_status_eq. cbn [fst]. now rewrite Hd.
  - rewrite get_empire_analytics_eq. cbn [fst]. now rewrite Hd.
Qed.

Lemma names_of_two_kinds_break_discovery_witness :
  fst (discover_projects plain_foundry number_and_text_names) = Raise TypeError
  /\ fst (get_empire_status plain_foundry number_and_text_names) = Raise TypeError.
Proof.
  destruct (@names_of_two_kinds_break_discovery sample_library plain_foundry
              number_and_text_names
              (manifest_of plain_foundry
                 (manifest_file "five.json" (JObj [("projectName", JInt 5)])))
              (manifest_of plain_foundry
                 (manifest_file "a.json" (JObj [("projectName", JStr "a")]))))
    as (Hd & _ & Hs & _).
  - left. reflexivity.
  - right. left. reflexivity.
  - discriminate.
  - split; [exact Hd | exact Hs].
Defined.

(** ** Start-up and commands of [foundry_v11.py] *)

(** Without a schema file, or with one that holds an empty schema, the
    controller validates nothing: every document passes the check, the
    files discovery keeps are exactly those that hold a JSON object, and
    no diagnostic is a schema violation. *)
Lemma no_schema_no_validation `{Library} (hub_directory : string)
    (config_file : option (result json)) (schema_file : option content)
    (self : FoundryOS) :
  start hub_directory config_file schema_file = Ok self ->
  schema_file = None
  \/ (exists d, schema_file = Some (Document d) /\ truthy d = false) ->
  (forall d, check_schema self d = Ok tt)
  /\ (forall f, accepted self f = holds_object f)
  /\ (forall h, kept self h = map (manifest_of self) (filter holds_object (listing h)))
  /\ (forall h path, ~ In (InvalidSchema path) (diagnostics self h)).
Proof.
  intros Hs Hfile.
  assert (Hfalsy : truthy (schema self) = false).
  { unfold start in Hs.
    destruct (load_config hub_directory config_file) as [c |]; [| discriminate].
    cbn [bind] in Hs.
    destruct Hfile as [-> | (d & -> & Hd)]; cbn [load_schema load bind] in Hs;
      injection Hs as <-; [reflexivity | exact Hd]. }
  assert (Hcheck : forall d, check_schema self d = Ok tt).
  { intros d. unfold check_schema. now rewrite Hfalsy. }
  assert (Hacc : forall f, accepted self f = holds_object f).
  { intros f. unfold accepted, holds_object.
    destruct (data f) as [| | [| | | | | |m]]; try reflexivity.
    now rewrite Hcheck. }
  split; [exact Hcheck |]. split; [exact Hacc |]. split.
  - intros h. unfold kept. f_equal. apply filter_ext. exact Hacc.
  - intros h path Hin. unfold diagnostics in Hin.
    apply in_map_iff in Hin as (f & Hr & _). unfold rejection in Hr.
    destruct (data f) as [| | d]; try discriminate.
    now rewrite Hcheck in Hr.
Qed.

Lemma no_schema_no_validation_witness :
  check_schema plain_foundry (JArr []) = Ok tt
  /\ accepted plain_foundry first_nameless = holds_object first_nameless.
Proof.
  destruct (@no_schema_no_validation sample_library "/home/u/ai-empire-hub" None
              None plain_foundry eq_refl (or_introl eq_refl))
    as (Hcheck & Hacc & _).
  split; [exact (Hcheck (JArr [])) | exact (Hacc first_nameless)].
Defined.




Lemma for_each_action_raises {A : Type} (body : A -> action unit) (l : list A)
    (x : A) :
  In x l ->
  (forall h, exists e, fst (body x h) = Raise e) ->
  forall h, exists e, fst (for_each_action body l h) = Raise e.
Proof.
  intros Hin Hx. induction l as [| y l IH]; [contradiction |].
  intros h. cbn [for_each_action]. unfold and_then.
  destruct Hin as [-> | Hin].
  - destruct (Hx h) as (e & E). destruct (body x h) as [[[] | e'] h1];
      [discriminate | eexists; reflexivity].
  - destruct (body y h) as [[[] | e'] h1]; [| eexists; reflexivity].
    apply (IH Hin).
Qed.

(** The command [projects] prints [project['projectName']] for every
    manifest: when discovery keeps a manifest without a name, the command
    does not list the projects but ends with an exception, which nothing
    catches. *)
Lemma projects_command_needs_names `{Library} (foundry : FoundryOS) (h : hub)
    (f : file) :
  In f (listing h) ->
  lacks_name f = true ->
  accepted foundry f = true ->
  exists e, fst (Cli.projects foundry h) = Raise e.
Proof.
  intros Hin Hl Ha. unfold Cli.projects, and_then.
  destruct (discover_projects foundry h) as [[found | e] h1] eqn:Ed;
    [| eexists; reflexivity].
  assert (Hp : In (manifest_of foundry f) found).
  { apply Permutation_in with (l := kept foundry h).
    - apply discover_projects_members. now rewrite Ed.
    - unfold kept. apply in_map. apply filter_In. auto. }
  destruct found as [| p found]; [contradiction |].
  unfold echo. cbn [fst snd].
  apply for_each_action_raises with (x := manifest_of foundry f); [exact Hp |].
  intros h2. unfold Cli.project_line, and_then, lift, raise, manifest_of.
  unfold lacks_name in Hl.
  destruct (data f) as [| | [| | | | | |m]]; try discriminate.
  cbn [get_of].
  destruct (hashable _); cbn [negb]; [| eexists; reflexivity].
  unfold subscript. rewrite !assoc_set_other by discriminate.
  destruct (assoc "projectName" m); [discriminate |].
  eexists; reflexivity.
Qed.

Lemma projects_command_needs_names_witness :
  exists e, fst (Cli.projects plain_foundry nameless_and_acme) = Raise e.
Proof.
  apply (projects_command_needs_names plain_foundry nameless_and_acme
           first_nameless).
  - right. left. reflexivity.
  - reflexivity.
  - reflexivity.
Defined.

(** ** The portfolio of the dashboard *)

Lemma keep_equal_loop (key : string) (selected : json) (l acc r : list json) :
  for_each (fun shown p =>
              v <- get_of p key JNull ;;
              Ok (if py_eq v selected then shown ++ [p] else shown)%list) l acc
  = Ok r ->
  r = (acc ++ filter (fun p => py_eq (default_of JNull (field key p)) selected) l)%list
  /\ Forall (fun p => exists m, p = JObj m) l.
Proof.
  revert acc. induction l as [| p l IH]; intros acc; cbn [for_each filter].
  - intros [= <-]. now rewrite app_nil_r.
  - destruct p as [| | | | | |m]; try discriminate.
    cbn [get_of bind field]. fold (default_of JNull (assoc key m)).
    intros E. apply IH in E as [-> Hl]. split; [| constructor; eauto].
    destruct (py_eq (default_of JNull (assoc key m)) selected);
      [now rewrite <- app_assoc | reflexivity].
Qed.

(** What a filter shows is a selection of the projects, in their order. *)
Lemma keep_equal_filter (key : string) (selected : json) (l r : list json) :
  keep_equal key selected l = Ok r -> exists P, r = filter P l.
Proof.
  unfold keep_equal. destruct (py_eq selected (JStr "All")); cbn [negb].
  - intros [= <-]. exists (fun _ => true).
    induction l as [| p l IH]; [reflexivity |]. cbn [filter]. now rewrite <- IH.
  - intros E. apply keep_equal_loop in E as [-> _]. eexists. reflexivity.
Qed.

Lemma keep_equal_shown (key : string) (selected : json) (l r : list json) (p : json) :
  keep_equal key selected l = Ok r ->
  py_eq selected (JStr "All") = false ->
  In p r ->
  exists m, p = JObj m /\ py_eq (default_of JNull (assoc key m)) selected = true.
Proof.
  unfold keep_equal. intros E Hs Hp. rewrite Hs in E. cbn [negb] in E.
  apply keep_equal_loop in E as [-> Hl]. cbn [app] in Hp.
  apply filter_In in Hp as [Hin Heq].
  rewrite Forall_forall in Hl. destruct (Hl p Hin) as (m & ->). eauto.
Qed.

Lemma sorted_reverse_Permutation {A : Type} (key : A -> result json) (l r : list A) :
  sorted_reverse key l = Ok r -> Permutation l r.
Proof.
  unfold sorted_reverse. intros E.
  apply bind_Ok in E as (keyed & Ek & E).
  apply bind_Ok in E as (s & Es & E). injection E as <-.
  apply with_keys_snd in Ek. apply sort_keyed_Permutation in Es.
  rewrite <- Ek.
  eapply Permutation_trans; [| apply Permutation_rev].
  apply Permutation_map.
  eapply Permutation_trans; [apply Permutation_rev | exact Es].
Qed.

Lemma portfolio_members `{Library} (status_filter type_filter : json)
    (sort_by : sort_option) (projects shown : list json) :
  portfolio status_filter type_filter sort_by projects = Ok shown ->
  exists by_status by_type,
    keep_equal "status" status_filter projects = Ok by_status
    /\ keep_equal "projectType" type_filter by_status = Ok by_type
    /\ Permutation by_type shown.
Proof.
  unfold portfolio. intros E.
  apply bind_Ok in E as (by_status & Es & E).
  apply bind_Ok in E as (by_type & Et & E).
  exists by_status, by_type. split; [exact Es |]. split; [exact Et |].
  destruct sort_by.
  - now apply sorted_Permutation in E.
  - now apply sorted_reverse_Permutation in E.
  - injection E as <-. apply Permutation_refl.
  - injection E as <-. apply Permutation_refl.
Qed.

Lemma options_loop (key : string) (l acc values : list json) :
  for_each (fun values p =>
              v <- get_of p key (JStr "unknown") ;;
              if hashable v then Ok (values ++ [v])%list else Raise TypeError) l acc
  = Ok values ->
  forall m, In (JObj m) l ->
            In (default_of (JStr "unknown") (assoc key m)) values.
Proof.
  revert acc. induction l as [| p l IH]; intros acc; cbn [for_each].
  - intros _ m [].
  - destruct p as [| | | | | |m0]; try discriminate.
    cbn [get_of bind]. fold (default_of (JStr "unknown") (assoc key m0)).
    destruct (hashable (default_of (JStr "unknown") (assoc key m0)));
      [| discriminate].
    intros E m [[= <-] | Hin].
    + clear IH. revert E.
      generalize (acc ++ [default_of (JStr "unknown") (assoc key m0)])%list
        (@in_elt json (default_of (JStr "unknown") (assoc key m0)) acc []).
      intros acc' Hacc. revert acc' Hacc.
      induction l as [| q l IHl]; intros acc' Hacc; cbn [for_each].
      * now intros [= <-].
      * destruct (get_of q key (JStr "unknown")) as [v |]; [| discriminate].
        cbn [bind]. destruct (hashable v); [| discriminate].
        apply IHl. apply in_or_app. now left.
    + now apply (IH _ E).
Qed.

Lemma distinct_loop_keeps_text (s : string) (l seen : list json) :
  In (JStr s) seen \/ In (JStr s) l ->
  In (JStr s)
    (fold_left (fun seen x => if in_list x seen then seen else (seen ++ [x])%list)
       l seen).
Proof.
  revert seen. induction l as [| x l IH]; intros seen Hin; cbn [fold_left].
  - now destruct Hin.
  - apply IH. destruct Hin as [Hs | [-> | Hl]]; [| | now right].
    + left. destruct (in_list x seen); [exact Hs |]. apply in_or_app. now left.
    + left. destruct (in_list (JStr s) seen) eqn:E.
      * unfold in_list in E. apply existsb_exists in E as (y & Hy & Ey).
        rewrite py_eq_text in Ey. destruct y; try discriminate.
        apply String.eqb_eq in Ey. now subst.
      * apply in_or_app. right. now left.
Qed.

Lemma distinct_keeps_text (s : string) (l : list json) :
  In (JStr s) l -> In (JStr s) (distinct l).
Proof. intros Hin. apply distinct_loop_keeps_text. now right. Qed.

(** The status filter offers "unknown" for the projects without a status
    and compares the choice with the status itself.  A project without a
    status makes "unknown" one of the options, and choosing it never shows
    that project, whatever the type filter and the order; the same holds
    for a project without a type and the type filter. *)
Lemma unknown_option_hides_the_project `{Library} (projects options : list json)
    (m : list (string * json)) (key : string) :
  In (JObj m) projects ->
  assoc key m = None ->
  filter_options key projects = Ok options ->
  In (JStr "unknown") options
  /\ (forall other sort_by shown,
         (key = "status" ->
          portfolio (JStr "unknown") other sort_by projects = Ok shown ->
          ~ In (JObj m) shown)
         /\ (key = "projectType" ->
             portfolio other (JStr "unknown") sort_by projects = Ok shown ->
             ~ In (JObj m) shown)).
Proof.
  intros Hin Hm Ho. split.
  - unfold filter_options in Ho. apply bind_Ok in Ho as (values & Ev & Ho).
    injection Ho as <-. right. apply distinct_keeps_text.
    pose proof (options_loop _ _ _ Ev m Hin) as Hv. now rewrite Hm in Hv.
  - intros other sort_by shown. split; intros -> Hp Hs;
      destruct (portfolio_members _ _ _ _ Hp) as (by_status & by_type & Es & Et & Hperm);
      apply (Permutation_in _ (Permutation_sym Hperm)) in Hs.
    + destruct (keep_equal_filter _ _ _ Et) as (P & ->).
      apply filter_In in Hs as [Hs _].
      destruct (keep_equal_shown _ _ _ (JObj m) Es eq_refl Hs) as (m' & [= <-] & Heq).
      rewrite Hm in Heq. discriminate.
    + destruct (keep_equal_shown _ _ _ (JObj m) Et eq_refl Hs) as (m' & [= <-] & Heq).
      rewrite Hm in Heq. discriminate.
Qed.

Lemma unknown_option_hides_the_project_witness :
  exists options,
    filter_options "status" (kept plain_foundry statusless_store) = Ok options
    /\ In (JStr "unknown") options
    /\ portfolio (JStr "unknown") (JStr "All") Name
         (kept plain_foundry statusless_store) = Ok [].
Proof.
  eexists. split; [reflexivity |]. split; [| reflexivity].
  assert (Hin : In (manifest_of plain_foundry
                      (manifest_file "draft.json"
                         (JObj [("projectName", JStr "Draft")])))
                  (kept plain_foundry statusless_store))
    by (right; left; reflexivity).
  exact (proj1 (@unknown_option_hides_the_project sample_library
                  (kept plain_foundry statusless_store) _ _ "status" Hin
                  eq_refl eq_refl)).
Defined.

(** ** Sorting what is sorted *)

Lemma leb_not_ltb (s t : string) : string_le s t -> String.ltb t s = false.
Proof.
  unfold string_le, String.leb, String.ltb. rewrite (String.compare_antisym s t).
  now destruct (String.compare t s).
Qed.

Lemma sort_keyed_sorted {A : Type} (l : list (json * A)) :
  Forall string_keyed l -> StronglySorted key_le l -> sort_keyed l = Ok l.
Proof.
  induction l as [| x l IH]; intros Hk Hs; [reflexivity |].
  inversion Hk as [| ? ? Hx Hl]; subst. inversion Hs as [| ? ? Hs' Hle]; subst.
  cbn [sort_keyed]. rewrite (IH Hl Hs'). cbn [bind].
  destruct l as [| y l]; [reflexivity |].
  cbn [insert_keyed].
  inversion Hl as [| ? ? Hy _]; subst. inversion Hle as [| ? ? Hxy _]; subst.
  destruct Hx as (sx & Ex), Hy as (sy & Ey).
  unfold key_le, key_text in Hxy. rewrite Ex, Ey in Hxy |- *.
  cbn [py_lt]. now rewrite (leb_not_ltb Hxy).
Qed.

Lemma sorted_of_sorted {A : Type} (key : A -> result json) (text : A -> string)
    (l : list A) :
  Forall (fun a => key a = Ok (JStr (text a))) l ->
  StronglySorted (text_le text) l ->
  sorted key l = Ok l.
Proof.
  intros Hk Hs. unfold sorted.
  rewrite (@with_keys_text A key text l Hk). cbn [bind].
  rewrite sort_keyed_sorted.
  - cbn [bind]. f_equal. rewrite map_map. cbn [snd]. apply map_id.
  - apply Forall_map. apply Forall_forall. intros a _. now exists (text a).
  - clear Hk. induction Hs as [| a l Hs IH Hle]; cbn [map]; constructor;
      [exact IH |].
    apply Forall_map. revert Hle. apply Forall_impl. now intros b Hb.
Qed.

Lemma StronglySorted_filter {A : Type} (R : A -> A -> Prop) (P : A -> bool)
    (l : list A) :
  StronglySorted R l -> StronglySorted R (filter P l).
Proof.
  induction 1 as [| a l Hs IH Hle]; cbn [filter]; [constructor |].
  destruct (P a); [| exact IH]. constructor; [exact IH |].
  apply Forall_forall. intros b Hb. apply filter_In in Hb as [Hb _].
  rewrite Forall_forall in Hle. now apply Hle.
Qed.

Lemma Forall_filter {A : Type} (Q : A -> Prop) (P : A -> bool) (l : list A) :
  Forall Q l -> Forall Q (filter P l).
Proof.
  rewrite !Forall_forall. intros Hl b Hb. apply filter_In in Hb as [Hb _]. auto.
Qed.

(** Discovery hands the dashboard its projects sorted by name, and the
    filters keep their order: with the order "Name" the portfolio shows
    exactly what it shows with "Status" or "Created", which do not sort at
    all.  Of the four orders offered only "Revenue" can change the
    sequence of the cards. *)
Lemma only_revenue_reorders `{Library} (foundry : FoundryOS) (h : hub)
    (found : list json) (status_filter type_filter : json) :
  fst (discover_projects foundry h) = Ok found ->
  forallb text_named (filter (accepted foundry) (listing h)) = true ->
  portfolio status_filter type_filter Name found
  = portfolio status_filter type_filter Status found
  /\ portfolio status_filter type_filter Created found
     = portfolio status_filter type_filter Status found
  /\ (forall shown,
         portfolio status_filter type_filter Status found = Ok shown ->
         exists P, shown = filter P found).
Proof.
  intros Hd Ht.
  destruct (find_project_returns foundry "" h Ht) as (found' & Hd' & _ & Hk).
  destruct (discover_projects_returns foundry h Ht) as (found'' & Hd'' & _ & Hs & _).
  rewrite Hd' in Hd''. injection Hd'' as <-.
  rewrite Hd' in Hd. cbn [fst] in Hd. injection Hd as ->.
  split; [| split].
  - unfold portfolio.
    destruct (keep_equal "status" status_filter found) as [by_status |] eqn:Es;
      [| reflexivity].
    cbn [bind].
    destruct (keep_equal "projectType" type_filter by_status) as [by_type |] eqn:Et;
      [| reflexivity].
    cbn [bind].
    destruct (keep_equal_filter _ _ _ Es) as (P & ->).
    destruct (keep_equal_filter _ _ _ Et) as (Q & ->).
    apply sorted_of_sorted with (text := project_name).
    + now apply Forall_filter, Forall_filter.
    + now apply StronglySorted_filter, StronglySorted_filter.
  - reflexivity.
  - intros shown E. unfold portfolio in E.
    apply bind_Ok in E as (by_status & Es & E).
    apply bind_Ok in E as (by_type & Et & E). injection E as <-.
    destruct (keep_equal_filter _ _ _ Es) as (P & ->).
    destruct (keep_equal_filter _ _ _ Et) as (Q & ->).
    exists (fun p => P p && Q p).
    clear. induction found as [| p l IH]; [reflexivity |].
    cbn [filter]. destruct (P p); cbn [filter andb]; [| exact IH].
    destruct (Q p); now rewrite IH.
Qed.

Lemma only_revenue_reorders_witness :
  portfolio (JStr "production") (JStr "All") Name (kept plain_foundry acme_and_beta)
  = portfolio (JStr "production") (JStr "All") Status
      (kept plain_foundry acme_and_beta).
Proof.
  assert (Hd : fst (discover_projects plain_foundry acme_and_beta)
               = Ok (kept plain_foundry acme_and_beta)) by reflexivity.
  assert (Ht : forallb text_named
                 (filter (accepted plain_foundry) (listing acme_and_beta)) = true)
    by (vm_compute; reflexivity).
  exact (proj1 (@only_revenue_reorders sample_library plain_foundry acme_and_beta
                  (kept plain_foundry acme_and_beta) (JStr "production")
                  (JStr "All") Hd Ht)).
Defined.

(** ** The SEO score and the recommendations *)

Ltac split_innermost x :=
  lazymatch x with
  | context [match ?y with _ => _ end] => split_innermost y
  | _ => destruct x eqn:?
  end.

Ltac split_matches :=
  repeat match goal with
         | |- context [match ?x with _ => _ end] => split_innermost x
         | H : context [match ?x with _ => _ end] |- _ => split_innermost x
         end.

(** The meta description earns 0, 20, 30 or 40 points and the H1 tags 0,
    30, 45 or 60: a score that is returned is the sum of one of each, and
    lies between 0 and 100. *)
Lemma seo_score_range (audit_data : json) (score : Z) :
  calculate_seo_score audit_data = Ok score ->
  0 <= score <= 100
  /\ exists meta_points h1_points,
       score = meta_points + h1_points
       /\ In meta_points [0; 20; 30; 40]
       /\ In h1_points [0; 30; 45; 60].
Proof.
  unfold calculate_seo_score, and_also, or_else, compared, bind.
  intros E. split_matches; try discriminate; injection E as <-;
    (split; [lia |]);
    first [ exists 0, 0; split; [reflexivity | simpl; tauto]
          | exists 0, 30; split; [reflexivity | simpl; tauto]
          | exists 0, 45; split; [reflexivity | simpl; tauto]
          | exists 0, 60; split; [reflexivity | simpl; tauto]
          | exists 20, 0; split; [reflexivity | simpl; tauto]
          | exists 20, 30; split; [reflexivity | simpl; tauto]
          | exists 20, 45; split; [reflexivity | simpl; tauto]
          | exists 20, 60; split; [reflexivity | simpl; tauto]
          | exists 30, 0; split; [reflexivity | simpl; tauto]
          | exists 30, 30; split; [reflexivity | simpl; tauto]
          | exists 30, 45; split; [reflexivity | simpl; tauto]
          | exists 30, 60; split; [reflexivity | simpl; tauto]
          | exists 40, 0; split; [reflexivity | simpl; tauto]
          | exists 40, 30; split; [reflexivity | simpl; tauto]
          | exists 40, 45; split; [reflexivity | simpl; tauto]
          | exists 40, 60; split; [reflexivity | simpl; tauto] ].
Qed.

Lemma seo_score_range_witness :
  0 <= 100 <= 100
  /\ exists meta_points h1_points,
       100 = meta_points + h1_points
       /\ In meta_points [0; 20; 30; 40]
       /\ In h1_points [0; 30; 45; 60].
Proof.
  apply (seo_score_range (perform_seo_audit "https://example.com/" (Ok good_page))).
  reflexivity.
Defined.

Ltac split_comparisons :=
  repeat match goal with
         | |- context [?a <=? ?b] => destruct (Z.leb_spec a b); try lia
         | |- context [?a <? ?b] => destruct (Z.ltb_spec a b); try lia
         | |- context [?a =? ?b] => destruct (Z.eqb_spec a b); try lia
         end.

(** On what the page scripts return, neither function raises, there are
    at most two recommendations, and the score is 100 exactly when there
    is nothing to recommend. *)
Lemma perfect_score_iff_no_recommendations `{Library} (url : string)
    (meta_description h1_tag : json) :
  page_meta meta_description = true ->
  page_h1 h1_tag = true ->
  let audit_data := perform_seo_audit url (Ok (meta_description, h1_tag)) in
  exists score recommendations,
    calculate_seo_score audit_data = Ok score
    /\ generate_recommendations audit_data = Ok recommendations
    /\ (score = 100 <-> recommendations = [])
    /\ (List.length recommendations <= 2)%nat.
Proof.
  intros Hm Hh. cbv zeta.
  destruct meta_description as [| | | | | |mm]; try discriminate.
  destruct h1_tag as [| | | | | |hm]; try discriminate.
  unfold page_meta in Hm. unfold page_h1 in Hh.
  destruct (assoc "exists" mm) as [[| me | | | | |] |] eqn:Eme; try discriminate.
  destruct (assoc "length" mm) as [[| | n | | | |] |] eqn:Eml; try discriminate.
  destruct (assoc "exists" hm) as [[| he | | | | |] |] eqn:Ehe; try discriminate.
  destruct (assoc "count" hm) as [[| | c | | | |] |] eqn:Ehc; try discriminate.
  apply andb_prop in Hh as [Hc He]. apply Bool.eqb_prop in He. subst he.
  unfold calculate_seo_score, generate_recommendations, perform_seo_audit,
    and_also, or_else.
  cbn [get_of assoc String.eqb Ascii.eqb Bool.eqb bind].
  rewrite Eme, Eml, Ehe, Ehc.
  cbn [truthy negb py_le py_lt py_eq as_number number_leb number_ltb number_eqb
       compared bind].
  apply Z.leb_le in Hm, Hc.
  destruct me; split_comparisons; cbn [negb bind app];
    (eexists; eexists; split; [reflexivity |]; split; [reflexivity |];
     split; [split; intros; (discriminate || lia || reflexivity)
            | cbn [List.length]; lia]).
Qed.

Lemma perfect_score_iff_no_recommendations_witness :
  exists score recommendations,
    calculate_seo_score (perform_seo_audit "https://example.com/" (Ok good_page))
    = Ok score
    /\ generate_recommendations
         (perform_seo_audit "https://example.com/" (Ok good_page))
       = Ok recommendations
    /\ (score = 100 <-> recommendations = [])
    /\ (List.length recommendations <= 2)%nat.
Proof.
  exact (@perfect_score_iff_no_recommendations sample_library
           "https://example.com/" (fst good_page) (snd good_page) eq_refl eq_refl).
Defined.



(** The score asks for [count] without a default: audit data whose H1 part
    says a tag exists and has no [count] never gets a score (the
    comparison of [None] with 3 raises), and [/audit] answers 500 for it,
    although the recommendations, which default the count to 0, can be
    generated. *)
Lemma score_needs_h1_count `{Library} (url now : string) (meta_description : json)
    (h1 : list (string * json)) :
  truthy (default_of JNull (assoc "exists" h1)) = true ->
  assoc "count" h1 = None ->
  let audit_data := perform_seo_audit url (Ok (meta_description, JObj h1)) in
  (exists e, calculate_seo_score audit_data = Raise e)
  /\ (exists e, audit_website url now (Ok (meta_description, JObj h1))
                = HTTPException 500 e)
  /\ (page_meta meta_description = true ->
      calculate_seo_score audit_data = Raise TypeError
      /\ exists recommendations,
           generate_recommendations audit_data = Ok recommendations).
Proof.
  intros He Hc. cbv zeta.
  assert (Hraise : exists e,
             calculate_seo_score
               (perform_seo_audit url (Ok (meta_description, JObj h1))) = Raise e).
  { unfold calculate_seo_score, perform_seo_audit.
    cbn [get_of assoc String.eqb Ascii.eqb Bool.eqb bind].
    destruct (get_of meta_description "exists" JNull) as [me |]; [| eexists; reflexivity].
    cbn [bind].
    match goal with
    | |- exists e, bind ?m _ = _ => destruct m as [s |]; [| eexists; reflexivity]
    end.
    cbn [bind]. fold (default_of JNull (assoc "exists" h1)).
    rewrite He, Hc. cbn. eexists; reflexivity. }
  split; [exact Hraise |]. split.
  - destruct Hraise as (e & E). exists e. unfold audit_website. now rewrite E.
  - intros Hm.
    destruct meta_description as [| | | | | |mm]; try discriminate.
    unfold page_meta in Hm.
    destruct (assoc "exists" mm) as [[| me | | | | |] |] eqn:Eme; try discriminate.
    destruct (assoc "length" mm) as [[| | n | | | |] |] eqn:Eml; try discriminate.
    unfold calculate_seo_score, generate_recommendations, perform_seo_audit,
      and_also, or_else.
    cbn [get_of assoc String.eqb Ascii.eqb Bool.eqb bind].
    fold (default_of JNull (assoc "exists" h1)).
    rewrite Eme, Eml.
    cbn [truthy negb py_le py_lt py_eq as_number number_leb number_ltb number_eqb
         compared bind].
    destruct me; split_comparisons; cbn [negb bind app]; rewrite He, ?Hc;
      cbn [bind]; (split; [reflexivity | eexists; reflexivity]).
Qed.

Lemma score_needs_h1_count_witness :
  calculate_seo_score h1_without_count = Raise TypeError
  /\ exists recommendations,
       generate_recommendations h1_without_count = Ok recommendations.
Proof.
  exact (proj2 (proj2 (score_needs_h1_count "https://example.com/"
                         "2024-01-01T00:00:00"
                         (JObj [("exists", JBool false); ("length", JInt 0)])
                         [("exists", JBool true)] eq_refl eq_refl))
           eq_refl).
Defined.

(** ** The names of a new agent *)













(** ** The first controller: [foundry.py] *)

Lemma fill_directory_new (n : string) (metadata : json) (entries : list V1.entry) :
  existsb (fun e => String.eqb (V1.entry_name e) n) entries = false ->
  V1.fill_directory n metadata (entries ++ [V1.Directory n None []])
  = (entries
     ++ [V1.Directory n (Some (Document metadata))
           ["src"; "docs"; "tests"; "deployments"]])%list.
Proof.
  induction entries as [| e entries IH]; simpl.
  - now rewrite String.eqb_refl.
  - intros He. apply orb_false_elim in He as [He Hr].
    destruct e as [n' c s | n']; simpl in *; [rewrite He |]; now rewrite IH.
Qed.

Lemma status_of_entries_app (show_all : bool) (l l' : list V1.entry)
    (acc : list json) :
  V1.status_of_entries show_all (l ++ l') acc
  = (found <- V1.status_of_entries show_all l acc ;;
     V1.status_of_entries show_all l' found).
Proof.
  revert acc. induction l as [| e l IH]; intros acc; [reflexivity |].
  destruct e as [n [c |] s | n]; cbn [app V1.status_of_entries]; try apply IH.
  destruct (load c) as [metadata |]; [| reflexivity]. cbn [bind].
  destruct (if show_all then Ok true
            else status <- subscript metadata "status" ;;
                 Ok (negb (py_eq status (JStr "completed")))) as [keep |];
    [| reflexivity].
  cbn [bind]. apply IH.
Qed.




(** [create_project] makes the directory before it applies the template.
    When it raises, either the project existed and nothing has changed, or
    an empty directory of the project's name has been left behind: the
    listing of [get_status] is what it was, and every further attempt to
    create the project is refused as "already exists". *)
Lemma create_project_failure (config : json) (name : string)
    (template : option string) (created_at : string) (h h' : V1.hub) (e : exn) :
  path_component (replace " " "_" (lower name)) = true ->
  V1.create_project config name template created_at h = (Raise e, h') ->
  let project_id := replace " " "_" (lower name) in
  (V1.exists_entry project_id h = true
   /\ e = ClickException ("Project '" ++ name ++ "' already exists")
   /\ h' = h)
  \/ (V1.exists_entry project_id h = false
      /\ V1.projects h'
         = Some (V1.entries_of h ++ [V1.Directory project_id None []])%list
      /\ (forall show_all, V1.get_status show_all h' = V1.get_status show_all h)
      /\ (forall config' template' created_at',
             V1.create_project config' name template' created_at' h'
             = (Raise (ClickException ("Project '" ++ name ++ "' already exists")),
                h'))).
Proof.
  intros _. cbv zeta. unfold V1.create_project.
  destruct (V1.exists_entry (replace " " "_" (lower name)) h) eqn:Ex.
  { intros [= <- <-]. left. auto. }
  intros Hc. right. split; [reflexivity |].
  assert (Hp : V1.projects h'
               = Some (V1.entries_of h
                       ++ [V1.Directory (replace " " "_" (lower name)) None []])%list).
  { destruct (V1.template_known config template) as [[|] |].
    - destruct (V1.with_template _ _ _) as [md |].
      + destruct (agents <- subscript md "agents" ;; join_with ", " agents);
          [discriminate |].
        now injection Hc as <- <-.
      + now injection Hc as <- <-.
    - discriminate.
    - now injection Hc as <- <-. }
  split; [exact Hp |]. split.
  - intros show_all. unfold V1.get_status, V1.entries_of at 1. rewrite Hp.
    rewrite status_of_entries_app.
    destruct (V1.status_of_entries show_all (V1.entries_of h) []); reflexivity.
  - intros config' template' created_at'.
    assert (Ex' : V1.exists_entry (replace " " "_" (lower name)) h' = true).
    { unfold V1.exists_entry, V1.entries_of at 1. rewrite Hp.
      rewrite existsb_app. cbn [existsb V1.entry_name].
      rewrite String.eqb_refl. apply orb_true_r. }
    now rewrite Ex'.
Qed.

Lemma create_project_failure_witness :
  V1.create_project V1.numbered_agents "My Shop" (Some "crew")
    "2024-01-02T03:04:05" V1.fresh
  = (Raise TypeError,
     V1.with_log (V1.with_projects V1.fresh [V1.Directory "my_shop" None []])
       "Applied template 'crew' to project 'My Shop'")
  /\ V1.get_status true
       (snd (V1.create_project V1.numbered_agents "My Shop" (Some "crew")
               "2024-01-02T03:04:05" V1.fresh))
     = Ok []
  /\ fst (V1.create_project V1.numbered_agents "My Shop" None
            "2024-01-02T03:04:06"
            (snd (V1.create_project V1.numbered_agents "My Shop" (Some "crew")
                    "2024-01-02T03:04:05" V1.fresh)))
     = Raise (ClickException "Project 'My Shop' already exists").
Proof.
  assert (E : V1.create_project V1.numbered_agents "My Shop" (Some "crew")
                "2024-01-02T03:04:05" V1.fresh
              = (Raise TypeError,
                 V1.with_log
                   (V1.with_projects V1.fresh [V1.Directory "my_shop" None []])
                   "Applied template 'crew' to project 'My Shop'"))
    by reflexivity.
  split; [exact E |].
  destruct (create_project_failure V1.numbered_agents "My Shop" (Some "crew")
              "2024-01-02T03:04:05" V1.fresh eq_refl E)
    as [(Hx & _) | (_ & _ & Hs & Hr)]; [discriminate Hx |].
  rewrite E. cbn [snd]. split.
  - exact (Hs true).
  - now rewrite (Hr V1.numbered_agents None "2024-01-02T03:04:06").
Defined.

(** The command [new] announces a template whenever one is named.  When
    the configuration does not have the template (the default
    configuration has none), the project is created without agents and
    without a stack and nothing is logged, and the command still prints
    "Applied template" and an empty list of assigned agents. *)
Lemma new_announces_unknown_template (config : json) (name t created_at : string)
    (h : V1.hub) :
  path_component (replace " " "_" (lower name)) = true ->
  t <> "" ->
  V1.template_known config (Some t) = Ok false ->
  V1.exists_entry (replace " " "_" (lower name)) h = false ->
  let project_id := replace " " "_" (lower name) in
  let metadata := V1.initial_metadata project_id name (Some t) created_at in
  let outcome := V1.new config name (Some t) created_at h in
  fst outcome = None
  /\ V1.echoed (snd outcome)
     = (V1.echoed h
        ++ [("Created project '" ++ name ++ "' [" ++ project_id ++ "]")%string;
            ("Applied template: " ++ t)%string;
            "Assigned agents: "])%list
  /\ V1.log (snd outcome) = V1.log h
  /\ V1.projects (snd outcome)
     = Some (V1.entries_of h
             ++ [V1.Directory project_id (Some (Document metadata))
                   ["src"; "docs"; "tests"; "deployments"]])%list
  /\ field "agents" metadata = Some (JArr [])
  /\ field "stack" metadata = None.
Proof.
  intros _ Ht Hk Hx. cbv zeta. unfold V1.new, V1.create_project.
  rewrite Hx, Hk.
  apply String.eqb_neq in Ht. cbn [subscript V1.initial_metadata assoc String.eqb
    Ascii.eqb Bool.eqb]. rewrite Ht.
  cbn [bind join_with iterate texts String.concat fst snd V1.echoed V1.with_echo
       V1.log V1.projects V1.with_projects V1.entries_of field].
  rewrite fill_directory_new by exact Hx.
  rewrite <- !app_assoc. repeat split.
Qed.

Lemma new_announces_unknown_template_witness :
  V1.echoed
    (snd (V1.new (V1.get_default_config "/home/u/ai-empire-hub") "My Shop"
            (Some "saas_launch") "2024-01-02T03:04:05" V1.fresh))
  = ["Created project 'My Shop' [my_shop]";
     "Applied template: saas_launch";
     "Assigned agents: "].
Proof.
  assert (Ht : "saas_launch" <> "") by discriminate.
  exact (proj1 (proj2 (new_announces_unknown_template
                         (V1.get_default_config "/home/u/ai-empire-hub") "My Shop"
                         (t := "saas_launch") "2024-01-02T03:04:05" V1.fresh
                         eq_refl Ht eq_refl eq_refl))).
Defined.

(** [assign_agent] writes only for a project that exists and an agent the
    configuration registers: when it raises the hub is as it was, when it
    returns the record is in the shared context under
    [<project>_task_<stamp>.json]; with the default configuration, which
    registers no agent, it always raises. *)
Lemma assign_agent_needs_registration (config : json)
    (task project agent stamp created_at : string) (h : V1.hub) :
  path_component project = true ->
  let outcome := V1.assign_agent config task project agent stamp created_at h in
  let record := assignment_record ("task_" ++ stamp) task project agent created_at in
  (forall e, fst outcome = Raise e -> snd outcome = h)
  /\ (forall r, fst outcome = Ok r ->
        r = record
        /\ V1.exists_entry project h = true
        /\ (agents <- get_of config "agents" (JObj []) ;; str_in agent agents)
           = Ok true
        /\ V1.projects (snd outcome) = V1.projects h
        /\ V1.shared_context (snd outcome)
           = assoc_set (project ++ "_task_" ++ stamp ++ ".json") record
               (V1.shared_context h))
  /\ (forall hub_directory,
        config = V1.get_default_config hub_directory ->
        exists e, fst outcome = Raise e).
Proof.
  intros _. cbv zeta. unfold V1.assign_agent.
  destruct (V1.exists_entry project h); cbn [negb].
  - destruct (agents <- get_of config "agents" (JObj []) ;; str_in agent agents)
      as [[|] |] eqn:Er; cbn [fst snd].
    + split; [discriminate |]. split.
      * intros r [= <-]. repeat split.
      * intros hub_directory ->. discriminate Er.
    + split; [reflexivity |]. split; [discriminate | eauto].
    + split; [reflexivity |]. split; [discriminate | eauto].
  - cbn [fst snd]. split; [reflexivity |]. split; [discriminate | eauto].
Qed.

Lemma assign_agent_needs_registration_witness :
  exists e,
    V1.assign_agent (V1.get_default_config "/home/u/ai-empire-hub") "Ship it"
      "my_shop" "builder" "20240102_030405" "2024-01-02T03:04:05"
      (V1.with_projects V1.fresh [V1.Directory "my_shop" None []])
    = (Raise e, V1.with_projects V1.fresh [V1.Directory "my_shop" None []]).
Proof.
  destruct (assign_agent_needs_registration
              (V1.get_default_config "/home/u/ai-empire-hub") "Ship it"
              "my_shop" "builder" "20240102_030405" "2024-01-02T03:04:05"
              (V1.with_projects V1.fresh [V1.Directory "my_shop" None []])
              eq_refl) as (Hraise & _ & Hdefault).
  destruct (Hdefault "/home/u/ai-empire-hub" eq_refl) as (e & E).
  exists e. rewrite (surjective_pairing (V1.assign_agent _ _ _ _ _ _ _)).
  now rewrite E, (Hraise e E).
Defined.

(** [get_status] has no [try]: one [project.json] that cannot be read or
    parsed makes the whole listing raise, and so does, without [--all],
    one whose metadata has no [status]. *)
Lemma get_status_fails_on_one_bad_file (show_all : bool) (h : V1.hub)
    (n : string) (c : content) (s : list string) :
  In (V1.Directory n (Some c) s) (V1.entries_of h) ->
  (exists e, load c = Raise e)
  \/ (show_all = false /\ exists m, c = Document (JObj m) /\ assoc "status" m = None) ->
  exists e, V1.get_status show_all h = Raise e.
Proof.
  intros Hin Hbad. unfold V1.get_status.
  apply in_split in Hin as (pre & post & ->).
  rewrite status_of_entries_app.
  destruct (V1.status_of_entries show_all pre []) as [found |];
    [| eexists; reflexivity].
  cbn [bind V1.status_of_entries].
  destruct Hbad as [(e & ->) | (-> & m & -> & Hm)].
  - eexists; reflexivity.
  - cbn [load bind subscript]. rewrite Hm. eexists; reflexivity.
Qed.

Lemma get_status_fails_on_one_bad_file_witness :
  exists e,
    V1.get_status false
      (V1.with_projects V1.fresh
         [V1.Directory "a" (Some (Document (JObj [("status", JStr "paused")]))) [];
          V1.Directory "b" (Some Malformed) []])
    = Raise e.
Proof.
  apply (@get_status_fails_on_one_bad_file false
           (V1.with_projects V1.fresh
              [V1.Directory "a" (Some (Document (JObj [("status", JStr "paused")]))) [];
               V1.Directory "b" (Some Malformed) []])
           "b" Malformed []).
  - right. left. reflexivity.
  - left. eexists. reflexivity.
Defined.

(** ** The demonstration script and the controller *)

Lemma py_eq_text_l (a : string) (v : json) :
  py_eq (JStr a) v = match v with JStr b => String.eqb a b | _ => false end.
Proof. now destruct v. Qed.

Lemma demo_revenue_loop `{Library} (found : list json) (acc : number * Z) :
  for_each Demo.revenue_step found (fst acc)
  = (r <- for_each status_revenue_step found acc ;; Ok (fst r)).
Proof.
  revert acc. induction found as [| p found IH]; intros [t n]; [reflexivity |].
  cbn [for_each fst]. unfold Demo.revenue_step at 1, status_revenue_step at 1.
  destruct (get_of p "metrics" (JObj [])) as [metrics |]; [| reflexivity].
  cbn [bind].
  destruct (get_of metrics "revenue" (JStr "$0")) as [r |]; [| reflexivity].
  cbn [bind].
  destruct (truthy r); [| apply (IH (t, n))].
  destruct r as [| | | | s | |]; try reflexivity.
  destruct (startswith "$" s); [| apply (IH (t, n))].
  destruct (float_of_string _) as [revenue |]; [| apply (IH (t, n))].
  destruct (number_add t (NFloat revenue)) as [total |]; [| reflexivity].
  cbn [bind]. apply (IH (total, n + 1)).
Qed.

Lemma in_list_one (a : string) (v : json) :
  in_list v [JStr a] = match v with JStr b => String.eqb a b | _ => false end.
Proof. unfold in_list. cbn [existsb]. now rewrite py_eq_text_l, orb_false_r. Qed.

Lemma in_list_two (a b : string) (v : json) :
  in_list v [JStr a; JStr b]
  = match v with JStr c => String.eqb a c || String.eqb b c | _ => false end.
Proof.
  unfold in_list. cbn [existsb]. rewrite !py_eq_text_l, orb_false_r.
  now destruct v.
Qed.

Lemma demo_active_loop (found : list json) (n k : Z) (a : Z) :
  for_each (fun n p => a <- is_active p ;; Ok (if a then n + 1 else n)) found n
  = Ok a ->
  for_each (fun n p =>
              status <- get_of p "status" JNull ;;
              Ok (if negb (in_list status [JStr "archived"]) then n + 1 else n))
           found (n + k)
  = Ok (a + k + len (filter completed found)).
Proof.
  revert n k. induction found as [| p found IH]; intros n k; cbn [for_each filter].
  - intros [= <-]. f_equal. unfold len. simpl. lia.
  - unfold is_active at 1.
    destruct p as [| | | | | |m]; try discriminate.
    cbn [get_of bind]. unfold completed at 1. cbn [field].
    fold (default_of JNull (assoc "status" m)).
    generalize (default_of JNull (assoc "status" m)) as status. intros status.
    rewrite (in_list_one "archived" status), (in_list_one "completed" status),
      (in_list_two "archived" "completed" status).
    destruct status as [| | | | s | |]; cbn [negb orb];
      try (intros E; replace (n + k + 1) with (n + 1 + k) by lia; now apply IH).
    destruct (String.eqb_spec "archived" s) as [<- | Ha]; cbn [negb orb].
    + intros E. now apply IH.
    + destruct (String.eqb "completed" s); cbn [negb].
      * intros E. replace (n + k + 1) with (n + (k + 1)) by lia.
        rewrite (IH n (k + 1) E).
        f_equal. unfold len. cbn [List.length]. rewrite Nat2Z.inj_succ. lia.
      * intros E. replace (n + k + 1) with (n + 1 + k) by lia. now apply IH.
Qed.

(** The script computes its figures like the controller with one
    difference: a completed project counts as active.  Whenever
    [get_empire_status]'s loops return on a list of manifests that is not
    empty, the script's do, its total revenue is the controller's, and its
    active projects are the controller's plus the completed ones. *)
Lemma demo_counts_completed_as_active `{Library} (found : list json)
    (s : Status.t) :
  empire_status_of found = Ok s ->
  found <> [] ->
  Demo.figures found
  = Ok (Some (Status.total_projects s,
              Status.active_projects s + len (filter completed found),
              Status.total_revenue s)).
Proof.
  unfold empire_status_of, Demo.figures. intros E Hne.
  destruct found as [| p0 found0] eqn:Ef; [contradiction |]. rewrite <- Ef in *.
  clear Ef Hne.
  apply bind_Ok in E as (a & Ea & E).
  apply bind_Ok in E as (r & Er & E).
  apply bind_Ok in E as (c & Ec & E).
  apply bind_Ok in E as (w & Ew & E). injection E as <-.
  cbn [Status.total_projects Status.active_projects Status.total_revenue].
  unfold Demo.count_active, count_active in *.
  pose proof (demo_active_loop found 0 0 Ea) as Ha.
  rewrite Z.add_0_r in Ha. rewrite Ha. cbn [bind].
  pose proof (demo_revenue_loop found (NInt 0, 0)) as Hr. cbn [fst] in Hr.
  rewrite Hr, Er. cbn [bind]. now rewrite Z.add_0_r.
Qed.

Lemma demo_counts_completed_as_active_witness :
  Demo.figures (kept plain_foundry acme_and_beta)
  = Ok (Some (2, 1 + 0, NFloat 1500)).
Proof.
  assert (Hne : kept plain_foundry acme_and_beta <> []) by discriminate.
  exact (@demo_counts_completed_as_active sample_library
           (kept plain_foundry acme_and_beta) _ eq_refl Hne).
Defined.
